(** * The EMDB XML translator (v1.9 <-> v3.0), embedded and verified

    A shallow embedding of the parts of [emdb_xml_translate.py] that the
    specification makes statements about: the value-transfer primitives
    [check_set] and [set_value_and_units], the accession-code formatter,
    and the slices of the two translators that deal with enumeration
    clamping, defocus units, site codes, PDB chains, the technique
    dispatch and the image-acquisition records.

    Conventions.  Python [None] is [option]'s [None]; a Python object with
    optional members is a record of [option] fields and a setter is a
    record update; a [dict] is a [gmap]; [self.warn] writes to a log kept
    in the translator state; a Python exception is a [Raise] result, and
    mutations made before it are kept in the state that comes with it. *)

From Stdlib Require Import ZArith Bool Ascii String List Lia.
From Stdlib Require Import Floats Uint63.
From stdpp Require Import base option list gmap strings.

Set Warnings "-inexact-float".
#[local] Open Scope Z_scope.

(** ** Python string methods

    Strings are byte strings: [upper] and [lower] change the ASCII letters
    and nothing else, and the character classes are the ASCII ones. *)

Module PyStr.

Definition is_digit (c : ascii) : bool :=
  (48 <=? nat_of_ascii c)%nat && (nat_of_ascii c <=? 57)%nat.
Definition is_upper (c : ascii) : bool :=
  (65 <=? nat_of_ascii c)%nat && (nat_of_ascii c <=? 90)%nat.
Definition is_lower (c : ascii) : bool :=
  (97 <=? nat_of_ascii c)%nat && (nat_of_ascii c <=? 122)%nat.
Definition is_alnum (c : ascii) : bool :=
  is_digit c || is_upper c || is_lower c.

Definition to_upper (c : ascii) : ascii :=
  if is_lower c then ascii_of_nat (nat_of_ascii c - 32) else c.
Definition to_lower (c : ascii) : ascii :=
  if is_upper c then ascii_of_nat (nat_of_ascii c + 32) else c.

Fixpoint map_chars (f : ascii -> ascii) (s : string) : string :=
  match s with
  | EmptyString => EmptyString
  | String c s' => String (f c) (map_chars f s')
  end.

(** [s.upper()] and [s.lower()] *)
Definition upper : string -> string := map_chars to_upper.
Definition lower : string -> string := map_chars to_lower.

(** [s.find(sub)]: the lowest index at which [sub] occurs, [-1] if none *)
Fixpoint find_from (sub s : string) (i : Z) : Z :=
  if String.prefix sub s then i
  else match s with
       | EmptyString => -1
       | String _ s' => find_from sub s' (i + 1)
       end.
Definition find (s sub : string) : Z := find_from sub s 0.

(** [s.replace(old, new)] for a non-empty [old]: every occurrence, left to
    right, without overlaps.  [skip] counts the characters of a replaced
    occurrence that are still to be dropped. *)
Fixpoint replace_from (old new : string) (skip : nat) (s : string) : string :=
  match s with
  | EmptyString => EmptyString
  | String c s' =>
      match skip with
      | S k => replace_from old new k s'
      | O => if String.prefix old s
             then new +:+ replace_from old new (String.length old - 1) s'
             else String c (replace_from old new 0 s')
      end
  end.
Definition replace (s old new : string) : string := replace_from old new 0 s.

(** [x in l] for a list of strings *)
Definition mem (x : string) (l : list string) : bool :=
  existsb (String.eqb x) l.

Fixpoint all_chars (p : ascii -> bool) (s : string) : bool :=
  match s with
  | EmptyString => true
  | String c s' => p c && all_chars p s'
  end.

(** the longest prefix of [s] whose characters satisfy [p], and the rest *)
Fixpoint span (p : ascii -> bool) (s : string) : string * string :=
  match s with
  | EmptyString => (EmptyString, EmptyString)
  | String c s' =>
      if p c then let (a, b) := span p s' in (String c a, b)
      else (EmptyString, s)
  end.

(** [s.split(sep)] for a non-empty [sep]: the pieces between the
    occurrences of [sep], taken left to right without overlaps.
    [split_from] gives the piece that is being read and the pieces after
    it; [skip] counts the characters of a separator still to be dropped. *)
Fixpoint split_from (sep : string) (skip : nat) (s : string) : string * list string :=
  match s with
  | EmptyString => (EmptyString, [])
  | String c s' =>
      match skip with
      | S k => split_from sep k s'
      | O => if String.prefix sep s
             then (EmptyString,
                   let (p, ps) := split_from sep (String.length sep - 1) s' in p :: ps)
             else let (p, ps) := split_from sep 0 s' in (String c p, ps)
      end
  end.
Definition split (s sep : string) : list string :=
  let (p, ps) := split_from sep 0 s in p :: ps.

End PyStr.

(** ** Exceptions, the translator object and its log *)

(** An instance of a subclass of Python's [Exception]: what
    [except Exception] catches. *)
Record exn := Exception { exn_class : string; exn_arg : string }.

Definition KeyError (k : string) : exn := Exception "KeyError" k.
Definition AttributeError (a : string) : exn := Exception "AttributeError" a.
Definition UnboundLocalError (v : string) : exn := Exception "UnboundLocalError" v.
Definition ValueError (a : string) : exn := Exception "ValueError" a.

Inductive result (A : Type) : Type :=
| Ok (a : A)
| Raise (e : exn).
Arguments Ok {A} a.
Arguments Raise {A} e.

(** What [logging.warning] receives.  [Text] is a fully rendered message.
    [Formatted fmt e] is the format string [fmt] applied to a callable, a
    value and the exception [e]; how Python renders a callable and a value
    is not part of the model.  [Traceback e] is [traceback.format_exc()]
    while [e] is being handled. *)
Inductive message : Type :=
| Text (s : string)
| Formatted (fmt : string) (e : exn)
| Traceback (e : exn).

Record translator := Translator {
  warning_level : Z;
  validate_xml_out : bool;
  relaxed : bool;
  roundtrip : bool;
  log : list message
}.

(** [EMDBXMLTranslator.__init__] *)
Definition init : translator :=
  {| warning_level := 1; validate_xml_out := false; relaxed := false;
     roundtrip := false; log := [] |}.

Definition set_roundtrip (self : translator) (is_roundtrip : bool) : translator :=
  {| warning_level := warning_level self; validate_xml_out := validate_xml_out self;
     relaxed := relaxed self; roundtrip := is_roundtrip; log := log self |}.

Definition with_warning_level (self : translator) (l : Z) : translator :=
  {| warning_level := l; validate_xml_out := validate_xml_out self;
     relaxed := relaxed self; roundtrip := roundtrip self; log := log self |}.

Definition set_warning_level (self : translator) (level : Z) : translator :=
  if level <=? 0 then with_warning_level self 0
  else if 3 <=? level then with_warning_level self 3
  else with_warning_level self level.

Definition logging_warning (self : translator) (msg : message) : translator :=
  {| warning_level := warning_level self; validate_xml_out := validate_xml_out self;
     relaxed := relaxed self; roundtrip := roundtrip self;
     log := log self ++ [msg] |}.

(** [EMDBXMLTranslator.warn]: the message reaches the log only when its
    level does not exceed the translator's warning level. *)
Definition warn (self : translator) (level : Z) (msg : message) : translator :=
  if level <=? warning_level self then logging_warning self msg else self.

(** ** Statements that may raise, over the translator and an object graph *)

(** A computation over the translator [self] and the objects [W] that the
    getters read and the setters mutate. *)
Definition M (W A : Type) : Type := translator * W -> result A * (translator * W).

Definition ret {W A} (a : A) : M W A := fun st => (Ok a, st).
Definition raise {W A} (e : exn) : M W A := fun st => (Raise e, st).
Definition bind {W A B} (m : M W A) (k : A -> M W B) : M W B :=
  fun st => match m st with
            | (Ok a, st') => k a st'
            | (Raise e, st') => (Raise e, st')
            end.
(** [try: m except Exception as exp: ...], with the outcome handed on *)
Definition attempt {W A} (m : M W A) : M W (result A) :=
  fun st => let (r, st') := m st in (Ok r, st').
Definition warnM {W} (level : Z) (msg : message) : M W unit :=
  fun st => (Ok tt, (warn (fst st) level msg, snd st)).
(** a value or an exception that does not depend on the state *)
Definition lift {W A} (r : result A) : M W A := fun st => (r, st).
Definition get_self {W} : M W translator := fun st => (Ok (fst st), st).
Definition get_world {W} : M W W := fun st => (Ok (snd st), st).
Definition modify {W} (f : W -> W) : M W unit :=
  fun st => (Ok tt, (fst st, f (snd st))).

Notation "'let!' x ':=' m 'in' k" := (bind m (fun x => k))
  (at level 10, x binder, k at level 200).
Notation "m ';;;' k" := (bind m (fun _ => k))
  (at level 100, k at level 200, right associativity).

(** ** The value-transfer primitives *)

Section Primitives.
Context {W V : Type}.

Definition check_set_transform_msg : string :=
  "function check_set: Transform function did not work: %s(%s).  Error: %s".
Definition check_set_setter_msg : string :=
  "function check_set: Setter function did not work: %s(%s). Error: %s".

(** [EMDBXMLTranslator.check_set] *)
Definition check_set (get_value : M W (option V)) (set_value : V -> M W unit)
    (transform : option (V -> M W V)) : M W unit :=
  let! value := get_value in
  match value with
  | None => ret tt
  | Some original_value =>
      let! transformed :=
        match transform with
        | None => ret (Some original_value)
        | Some tr =>
            let! r := attempt (tr original_value) in
            match r with
            | Ok v => ret (Some v)
            | Raise exp =>
                warnM 3 (Formatted check_set_transform_msg exp) ;;;
                warnM 3 (Traceback exp) ;;;
                ret None
            end
        end in
      match transformed with
      | None => ret tt
      | Some value =>
          let! r := attempt (set_value value) in
          match r with
          | Ok _ => ret tt
          | Raise exp =>
              warnM 3 (Formatted check_set_setter_msg exp) ;;;
              warnM 3 (Traceback exp)
          end
      end
  end.
End Primitives.

Section UnitPrimitive.
Context {W X Y U Val : Type}.
(** the accessors of the source object and the target's constructor *)
Variable get_units : X -> U.
Variable get_valueOf_ : X -> Val.
Variable constructor : Val -> U -> Y.

Definition svu_transform_msg : string :=
  "function set_value_and_units: Transform function did not work: %s(%s). Error: %s".
Definition svu_setter_msg : string :=
  "function set_value_and_units: Setter function did not work: %s(%s). Error: %s".

(** [EMDBXMLTranslator.set_value_and_units].  When the transform raises,
    [z_value] is never bound: the call [setter(z_value)] raises
    [UnboundLocalError] inside the second [try], and the handler, which
    renders [z_value] into its message, raises it again. *)
Definition set_value_and_units (getter : M W (option X)) (setter : Y -> M W unit)
    (units : option U) (transform : option (Y -> M W Y)) : M W unit :=
  let! x_value := getter in
  match x_value with
  | None => ret tt
  | Some x =>
      let units_value := match units with
                         | None => get_units x
                         | Some u => u
                         end in
      let y_value := constructor (get_valueOf_ x) units_value in
      let! z_value :=
        match transform with
        | Some tr =>
            let! r := attempt (tr y_value) in
            match r with
            | Ok z => ret (Some z)
            | Raise exp =>
                warnM 3 (Formatted svu_transform_msg exp) ;;;
                warnM 3 (Traceback exp) ;;;
                ret None
            end
        | None => ret (Some y_value)
        end in
      match z_value with
      | Some z =>
          let! r := attempt (setter z) in
          match r with
          | Ok _ => ret tt
          | Raise exp =>
              warnM 3 (Formatted svu_setter_msg exp) ;;;
              warnM 3 (Traceback exp)
          end
      | None => raise (UnboundLocalError "z_value")
      end
  end.
End UnitPrimitive.

(** ** Constants *)

Module Constants.
Definition EMDB_PREFIX : string := "EMD-".
Definition EMDB_DUMMY_CODE : string := "EMD-0000".

(** EM methods *)
Definition EMM_EC : string := "electronCrystallography".
Definition EMM_HEL : string := "helical".
Definition EMM_SP : string := "singleParticle".
Definition EMM_STOM : string := "subtomogramAveraging".
Definition EMM_TOM : string := "tomography".

(** Units.  [U_MICROM] is the micro sign followed by [m], in UTF-8. *)
Definition U_NM : string := "nm".
Definition U_MCRN : string := "microns".
Definition U_MICROM : string :=
  String (ascii_of_nat 194) (String (ascii_of_nat 181) "m").

Definition PROC_SITE_30_TO_19 : gmap string string :=
  list_to_map [("pdbe", "PDBe"); ("rcsb", "RCSB"); ("pdbj", "PDBj")].

Definition FITTING_30_to_19 : gmap string string :=
  list_to_map [("AB INITIO MODEL", "flexible"); ("BACKBONE TRACE", "flexible");
               ("FLEXIBLE FIT", "flexible"); ("OTHER", "flexible");
               ("RIGID BODY FIT", "rigid body")].

Definition FITTING_19_to_30 : gmap string string :=
  list_to_map [("flexible", "FLEXIBLE FIT"); ("rigid body", "RIGID BODY FIT")].

(** [EMDB_PAT = re.compile(r'(?i)(EMD-){0,1}(\d{4,})')], used with
    [re.match]: anchored at the start only.  The result holds
    [groups()]: the optional prefix and the digits.  The prefix is tried
    first (the quantifier is greedy) and given up when no four digits
    follow it; the digit group takes every digit there is. *)
Definition digits_at (g1 : option string) (s : string) : option (option string * string) :=
  let ds := fst (PyStr.span PyStr.is_digit s) in
  if (4 <=? String.length ds)%nat then Some (g1, ds) else None.

Definition EMDB_PAT_match (s : string) : option (option string * string) :=
  match s with
  | String c0 (String c1 (String c2 (String c3 rest))) =>
      let pre := String c0 (String c1 (String c2 (String c3 EmptyString))) in
      if String.eqb (PyStr.lower pre) "emd-" then
        match digits_at (Some pre) rest with
        | Some m => Some m
        | None => digits_at None s
        end
      else digits_at None s
  | _ => digits_at None s
  end.

(** What the pattern says, read off the regular expression: the text is
    an optional prefix that is [EMD-] in any case, then four or more
    digits, as many as there are, then anything. *)
Definition EMDB_PAT_matches (s : string) (g1 : option string) (digits : string) : Prop :=
  exists rest,
    s = default EmptyString g1 +:+ digits +:+ rest /\
    (forall p, g1 = Some p -> PyStr.lower p = "emd-") /\
    PyStr.all_chars PyStr.is_digit digits = true /\
    (4 <= String.length digits)%nat /\
    (forall c rest', rest = String c rest' -> PyStr.is_digit c = false).
End Constants.

(** ** Accession codes *)

Definition dummy_code_warning (code_in access_code : string) : string :=
  "EMDB accession code: " +:+ code_in +:+
  " does not match any standards. Using dummy code: " +:+ access_code.

(** [EMDBXMLTranslator.format_emdb_code] *)
Definition format_emdb_code {W} (code_in : string) (number_only : bool) : M W string :=
  let access_code := Constants.EMDB_DUMMY_CODE in
  let! mtch :=
    match Constants.EMDB_PAT_match code_in with
    | Some m => ret (Some m)
    | None =>
        warnM 1 (Text (dummy_code_warning code_in access_code)) ;;;
        ret (Constants.EMDB_PAT_match access_code)
    end in
  match mtch with
  | None => raise (AttributeError "groups")
  | Some match_groups =>
      if number_only then ret (snd match_groups)
      else ret (Constants.EMDB_PREFIX +:+ snd match_groups)
  end.

(** The state left by the two [warn] calls of an exception handler of the
    primitives: the message built from [fmt], then the traceback. *)
Definition warned {W} (fmt : string) (e : exn) (st : translator * W) : translator * W :=
  (warn (warn (fst st) 3 (Formatted fmt e)) 3 (Traceback e), snd st).

(** [transform(value)] when a transform is given, [value] otherwise *)
Definition apply_transform {W V} (transform : option (V -> M W V)) (v : V) : M W V :=
  match transform with
  | None => ret v
  | Some tr => tr v
  end.

(** ** Sample inputs *)

Module Sample.
(** a target object with one optional member, its setter, a getter that
    finds a value, one that raises, and a transform that raises *)
Definition get_x : M (option string) (option string) := ret (Some "x").
Definition get_fails : M (option string) (option string) :=
  raise (AttributeError "get_x").
Definition set_y (v : string) : M (option string) unit := modify (fun _ => Some v).
Definition bad_transform (v : string) : M (option string) string :=
  raise (ValueError v).
Definition verbose : translator * option string := (set_warning_level init 3, None).
End Sample.

(** ** Reverse translation: site codes *)

(** [d[k]] on a dict *)
Definition dict_getitem {W} (d : gmap string string) (k : string) : M W string :=
  match d !! k with
  | Some v => ret v
  | None => raise (KeyError k)
  end.

(** [o.lower()] on a member that may be [None] *)
Definition str_lower {W} (o : option string) : M W string :=
  match o with
  | Some s => ret (PyStr.lower s)
  | None => raise (AttributeError "lower")
  end.

(** the v3.0 [sites] element *)
Record sitesType := {
  deposition : option string;
  last_processing : option string
}.

(** the members of the v1.9 [depType] that the slice sets *)
Record depType := {
  depositionSite : option string;
  processingSite : option string
}.
Definition depType_new : depType := {| depositionSite := None; processingSite := None |}.
Definition set_depositionSite (v : string) : M depType unit :=
  modify (fun dep => {| depositionSite := Some v; processingSite := processingSite dep |}).
Definition set_processingSite (v : string) : M depType unit :=
  modify (fun dep => {| depositionSite := depositionSite dep; processingSite := Some v |}).

(** [translate_3_0_to_1_9], elements 3 and 4 of [depType] *)
Definition translate_sites (sites_in : sitesType) : M depType unit :=
  (let! k := str_lower (deposition sites_in) in
   let! v := dict_getitem Constants.PROC_SITE_30_TO_19 k in
   set_depositionSite v) ;;;
  match last_processing sites_in with
  | Some proc_site_in =>
      let! v := dict_getitem Constants.PROC_SITE_30_TO_19 (PyStr.lower proc_site_in) in
      set_processingSite v
  | None => ret tt
  end.

(** ** Forward translation: technique dispatch *)

(** [x == s] for a value that may be [None] *)
Definition opt_eqb (x : option string) (s : string) : bool :=
  match x with
  | Some v => String.eqb v s
  | None => false
  end.

(** the v1.9 [processing] element, as far as the dispatch reads it *)
Record processingType := { proc_method : option string }.

(** [em_method], as computed from [xml_in.get_processing()] *)
Definition em_method_of (process_in : option processingType) : option string :=
  match process_in with
  | Some p => proc_method p
  | None => Some Constants.EMM_SP
  end.

(** what [struct_det.set_method] is called with, [None] when it is not called *)
Definition structure_determination_method (em_method : option string) : option string :=
  if opt_eqb em_method Constants.EMM_SP || opt_eqb em_method Constants.EMM_STOM
     || opt_eqb em_method Constants.EMM_TOM
  then em_method
  else if opt_eqb em_method "twoDCrystal" then Some Constants.EMM_EC
  else if opt_eqb em_method Constants.EMM_HEL then Some Constants.EMM_HEL
  else None.

(** the [original_tagname_] of the specimen preparation built in the loop
    over the vitrifications, [None] when [prep] stays [None] *)
Definition preparation_variant (em_method : option string) : option string :=
  if opt_eqb em_method Constants.EMM_TOM then Some "tomography_preparation"
  else if opt_eqb em_method Constants.EMM_SP then Some "single_particle_preparation"
  else if opt_eqb em_method Constants.EMM_STOM then Some "subtomogram_averaging_preparation"
  else if opt_eqb em_method Constants.EMM_HEL then Some "helical_preparation"
  else if opt_eqb em_method "twoDCrystal" then Some "crystallography_preparation"
  else None.

(** the [original_tagname_] of the microscopy built for the first imaging
    record.  When no branch is taken [mic] is unbound, and
    [microscopy_list.add_microscopy(mic)] raises. *)
Definition microscopy_variant {W} (em_method : option string) : M W string :=
  if opt_eqb em_method Constants.EMM_SP then ret "single_particle_microscopy"
  else if opt_eqb em_method Constants.EMM_HEL then ret "helical_microscopy"
  else if opt_eqb em_method Constants.EMM_TOM then ret "tomography_microscopy"
  else if opt_eqb em_method Constants.EMM_STOM then ret "subtomogram_averaging_microscopy"
  else if opt_eqb em_method "twoDCrystal" then ret "crystallography_microscopy"
  else raise (UnboundLocalError "mic").

(** the [original_tagname_] of the image processing added for a
    reconstruction, [None] when none is added *)
Definition image_processing_variant (em_method : option string) : option string :=
  if opt_eqb em_method Constants.EMM_SP then Some "singleparticle_processing"
  else if opt_eqb em_method Constants.EMM_HEL then Some "helical_processing"
  else if opt_eqb em_method Constants.EMM_TOM then Some "tomography_processing"
  else if opt_eqb em_method Constants.EMM_STOM then Some "subtomogram_averaging_processing"
  else if opt_eqb em_method "twoDCrystal" then Some "crystallography_processing"
  else None.

(** the five technique tags of the v1.9 source *)
Definition source_techniques : list string :=
  [Constants.EMM_SP; Constants.EMM_HEL; Constants.EMM_TOM; Constants.EMM_STOM; "twoDCrystal"].

(** the five methods of the v3.0 target *)
Definition target_methods : list string :=
  [Constants.EMM_SP; Constants.EMM_HEL; Constants.EMM_TOM; Constants.EMM_STOM; Constants.EMM_EC].

(** ** Forward translation: fields with a closed enumeration *)

(** A target member that starts unset, its setter, and its value after a
    statement was run by the translator [self]. *)
Definition set_member (v : string) : M (option string) unit := modify (fun _ => Some v).
Definition member_after (m : M (option string) unit) (self : translator) : option string :=
  snd (snd (m (self, None))).

(** [x in l] for a value that may be [None] *)
Definition opt_mem (x : option string) (l : list string) : bool :=
  match x with
  | Some v => PyStr.mem v l
  | None => false
  end.

Definition allowed_detectors : list string :=
  ["AGFA SCIENTA FILM"; "DIRECT ELECTRON DE-10 (5k x 4k)"; "DIRECT ELECTRON DE-12 (4k x 3k)";
   "DIRECT ELECTRON DE-16 (4k x 4k)"; "DIRECT ELECTRON DE-20 (5k x 3k)";
   "DIRECT ELECTRON DE-64 (8k x 8k)"; "FEI CETA (4k x 4k)"; "FEI EAGLE (2k x 2k)";
   "FEI EAGLE (4k x 4k)"; "FEI FALCON I (4k x 4k)"; "FEI FALCON II (4k x 4k)";
   "FEI FALCON III (4k x 4k)"; "GATAN K2 (4k x 4k)"; "GATAN K2 BASE (4k x 4k)";
   "GATAN K2 IS (4k x 4k)"; "GATAN K2 QUANTUM (4k x 4k)"; "GATAN K2 SUMMIT (4k x 4k)";
   "GATAN MULTISCAN"; "GATAN ORIUS SC1000 (4k x 2.7k)"; "GATAN ORIUS SC200 (2k x 2k)";
   "GATAN ORIUS SC600 (2.7k x 2.7k)"; "GATAN ULTRASCAN 1000 (2k x 2k)";
   "GATAN ULTRASCAN 10000 (10k x 10k)"; "GATAN ULTRASCAN 4000 (4k x 4k)"; "GENERIC CCD";
   "GENERIC CCD (2k x 2k)"; "GENERIC CCD (4k x 4k)"; "GENERIC FILM"; "GENERIC GATAN";
   "GENERIC GATAN (2k x 2k)"; "GENERIC GATAN (4k x 4k)"; "GENERIC IMAGE PLATES";
   "GENERIC TVIPS"; "GENERIC TVIPS (2k x 2k)"; "GENERIC TVIPS (4k x 4k)";
   "KODAK 4489 FILM"; "KODAK SO-163 FILM"; "OTHER"; "PROSCAN TEM-PIV (2k x 2k)";
   "SIA 15C (3k x 3k)"; "TVIPS TEMCAM-F216 (2k x 2k)"; "TVIPS TEMCAM-F224 (2k x 2k)";
   "TVIPS TEMCAM-F415 (4k x 4k)"; "TVIPS TEMCAM-F416 (4k x 4k)";
   "TVIPS TEMCAM-F816 (8k x 8k)"].

Definition allowed_cryo_names : list string :=
  ["ETHANE"; "ETHANE-PROPANE MIXTURE"; "METHANE"; "NITROGEN"; "HELIUM"; "PROPANE";
   "FREON 12"; "FREON 22"; "NONE"; "OTHER"].

Definition allowed_rec_protocols : list string :=
  ["AB INITIO MODEL"; "BACKBONE TRACE"; "FLEXIBLE FIT"; "OTHER"; "RIGID BODY FIT"].

Definition allowed_res_methods : list string :=
  ["DIFFRACTION PATTERN/LAYERLINES"; "FSC 0.143 CUT-OFF"; "FSC 0.33 CUT-OFF";
   "FSC 0.5 CUT-OFF"; "FSC 1/2 BIT CUT-OFF"; "FSC 3 SIGMA CUT-OFF"; "OTHER"].

(** [set_base_microscopy]: the value of [film_or_detector_model] *)
Definition set_film_or_detector_model (detector_in : option string) : M (option string) unit :=
  match detector_in with
  | None => ret tt
  | Some d =>
      let! self := get_self in
      if roundtrip self then set_member d
      else
        let detect_in := PyStr.upper d in
        if PyStr.mem detect_in allowed_detectors then set_member detect_in
        else set_member "OTHER"
  end.

(** [set_base_preparation]: [cryogen_name] of the vitrification *)
Definition set_cryogen_name (cryo_name : option string) : M (option string) unit :=
  match cryo_name with
  | None => ret tt
  | Some c =>
      let! self := get_self in
      if roundtrip self then set_member c
      else if PyStr.mem c allowed_cryo_names then set_member c
      else set_member "OTHER"
  end.

(** [set_base_microscopy]: [specimen_holder_model] *)
Definition set_specimen_holder_model (specimenHolderModel : option string)
  : M (option string) unit :=
  check_set (ret specimenHolderModel) set_member None.

(** [translate_1_9_to_3_0]: [refinement_protocol] of a modelling *)
Definition set_refinement_protocol (refProtocol : option string) : M (option string) unit :=
  match refProtocol with
  | None => ret tt
  | Some r =>
      let ref_prot := match Constants.FITTING_19_to_30 !! r with
                      | Some r' => r'
                      | None => r
                      end in
      let! self := get_self in
      if roundtrip self then set_member ref_prot
      else if PyStr.mem ref_prot allowed_rec_protocols
           then check_set (ret refProtocol) set_member None
           else set_member "OTHER"
  end.

(** [set_final_reconstruction]: [resolution_method] *)
Definition set_resolution_method (resolutionMethod : option string) : M (option string) unit :=
  let res_method := resolutionMethod in
  if opt_mem res_method allowed_res_methods
  then check_set (ret resolutionMethod) set_member None
  else set_member "OTHER".

(** the five fields with a closed enumeration in the target *)
Definition enumerated_fields : list (option string -> M (option string) unit) :=
  [set_film_or_detector_model; set_cryogen_name; set_specimen_holder_model;
   set_refinement_protocol; set_resolution_method].

(** The round-trip half of the clamping rule, as the specification words
    it: in round-trip mode each of the five fields hands the literal
    source value on. *)
Definition round_trip_passes_literal : Prop :=
  forall field, In field enumerated_fields ->
  forall self v, roundtrip self = true -> member_after (field (Some v)) self = Some v.

(** [FITTING_19_to_30.get(r)] when [r] is a key, [r] otherwise *)
Definition renamed_protocol (r : string) : string :=
  match Constants.FITTING_19_to_30 !! r with
  | Some r' => r'
  | None => r
  end.

(** ** Fitted models: the v1.9 [fitting] and the v3.0 [modelling] *)

(** Run a statement about one member inside the object that holds it. *)
Definition on_member {W X A} (get : W -> X) (put : X -> W -> W) (m : M X A) : M W A :=
  fun st =>
    let (r, st') := m (fst st, get (snd st)) in
    (r, (fst st', put (snd st') (snd st))).

(** [for x in l: body], with the loop's variables threaded as [acc] *)
Fixpoint for_each {W A X} (l : list X) (body : A -> X -> M W A) (acc : A) : M W A :=
  match l with
  | [] => ret acc
  | x :: l' => let! acc' := body acc x in for_each l' body acc'
  end.

(** v1.9 [pdbidList2Type] and [fittingType] *)
Record pdbidList2Type := {
  pdbEntryId : list string;
  pdbChainId : list string
}.
Record fittingType := {
  pdbEntryIdList : option pdbidList2Type;
  software : option string;
  refProtocol : option string;
  targetCriteria : option string;
  overallBValue : option float;
  refSpace : option string;
  fit_details : option string          (* [details] *)
}.

(** v3.0 [chainType], [initial_modelType] and [modelling_type], with the
    members the translators touch.  [chain_id] is [None] until
    [set_chain_id] is called. *)
Record chainType := {
  chain_id : option string;
  chain_attr_id : option string        (* [id] *)
}.
Record initial_modelType := {
  access_code : string;
  chain : list chainType
}.
Record modelling_type := {
  initial_model : list initial_modelType;
  refinement_protocol : option string;
  software_list : option (list string);   (* the [name] of each [software] *)
  modelling_details : option string;      (* [details] *)
  target_criteria : option string;
  refinement_space : option string;
  overall_bvalue : option float
}.

Definition chainType_new : chainType := {| chain_id := None; chain_attr_id := None |}.
Definition set_chain_id (v : string) (c : chainType) : chainType :=
  {| chain_id := Some v; chain_attr_id := chain_attr_id c |}.
Definition set_id (v : string) (c : chainType) : chainType :=
  {| chain_id := chain_id c; chain_attr_id := Some v |}.
Definition initial_modelType_new (code : string) : initial_modelType :=
  {| access_code := code; chain := [] |}.
Definition add_chain (c : chainType) (m : initial_modelType) : initial_modelType :=
  {| access_code := access_code m; chain := chain m ++ [c] |}.

Definition modelling_type_new : modelling_type :=
  {| initial_model := []; refinement_protocol := None; software_list := None;
     modelling_details := None; target_criteria := None; refinement_space := None;
     overall_bvalue := None |}.
Definition add_initial_model (p : initial_modelType) (m : modelling_type) : modelling_type :=
  {| initial_model := initial_model m ++ [p]; refinement_protocol := refinement_protocol m;
     software_list := software_list m; modelling_details := modelling_details m;
     target_criteria := target_criteria m; refinement_space := refinement_space m;
     overall_bvalue := overall_bvalue m |}.
Definition put_refinement_protocol (v : option string) (m : modelling_type) : modelling_type :=
  {| initial_model := initial_model m; refinement_protocol := v;
     software_list := software_list m; modelling_details := modelling_details m;
     target_criteria := target_criteria m; refinement_space := refinement_space m;
     overall_bvalue := overall_bvalue m |}.
Definition set_software_list (v : list string) (m : modelling_type) : modelling_type :=
  {| initial_model := initial_model m; refinement_protocol := refinement_protocol m;
     software_list := Some v; modelling_details := modelling_details m;
     target_criteria := target_criteria m; refinement_space := refinement_space m;
     overall_bvalue := overall_bvalue m |}.
Definition set_modelling_details (v : string) (m : modelling_type) : modelling_type :=
  {| initial_model := initial_model m; refinement_protocol := refinement_protocol m;
     software_list := software_list m; modelling_details := Some v;
     target_criteria := target_criteria m; refinement_space := refinement_space m;
     overall_bvalue := overall_bvalue m |}.
Definition set_target_criteria (v : string) (m : modelling_type) : modelling_type :=
  {| initial_model := initial_model m; refinement_protocol := refinement_protocol m;
     software_list := software_list m; modelling_details := modelling_details m;
     target_criteria := Some v; refinement_space := refinement_space m;
     overall_bvalue := overall_bvalue m |}.
Definition set_refinement_space (v : string) (m : modelling_type) : modelling_type :=
  {| initial_model := initial_model m; refinement_protocol := refinement_protocol m;
     software_list := software_list m; modelling_details := modelling_details m;
     target_criteria := target_criteria m; refinement_space := Some v;
     overall_bvalue := overall_bvalue m |}.
Definition set_overall_bvalue (v : float) (m : modelling_type) : modelling_type :=
  {| initial_model := initial_model m; refinement_protocol := refinement_protocol m;
     software_list := software_list m; modelling_details := modelling_details m;
     target_criteria := target_criteria m; refinement_space := refinement_space m;
     overall_bvalue := Some v |}.

(** Modelled from the spec: the object model generated from the schemas
    ([emdb_30], [emdb_19]) is not among the sources; the specification only
    asks of it that presence and absence of a member can be told apart.
    [hasContent_] of a generated class holds when one of its members is
    set: a list or string member that is not empty, another member that is
    not [None]. *)
Definition chainType_hasContent_ (c : chainType) : bool :=
  match chain_id c with
  | Some s => negb (String.eqb s "")
  | None => false
  end.

(** [PDB_CHAIN_PAT = re.compile(r'(\d[\dA-Za-z]{3})([-_:; ]?)([A-Za-z0-9]+)')],
    used with [re.match].  The result holds [groups()].  The separator is
    tried first; without it the third group would have to start at the
    separator, so there is nothing to go back to. *)
Definition is_chain_separator (c : ascii) : bool :=
  existsb (Ascii.eqb c) ["-"; "_"; ":"; ";"; " "]%char.

Definition chain_at (code sep rest : string) : option (string * string * string) :=
  let ch := fst (PyStr.span PyStr.is_alnum rest) in
  if String.eqb ch "" then None else Some (code, sep, ch).

Definition PDB_CHAIN_PAT_match (s : string) : option (string * string * string) :=
  match s with
  | String c0 (String c1 (String c2 (String c3 rest))) =>
      if PyStr.is_digit c0 && PyStr.is_alnum c1 && PyStr.is_alnum c2 && PyStr.is_alnum c3
      then
        let code := String c0 (String c1 (String c2 (String c3 EmptyString))) in
        match rest with
        | String c rest' =>
            if is_chain_separator c then
              match chain_at code (String c EmptyString) rest' with
              | Some m => Some m
              | None => chain_at code EmptyString rest
              end
            else chain_at code EmptyString rest
        | EmptyString => None
        end
      else None
  | _ => None
  end.

(** What the pattern says, read off the regular expression: a digit and
    three letters or digits, at most one separator, then one or more
    letters or digits, as many as there are, then anything. *)
Definition PDB_CHAIN_PAT_matches (s code sep ch : string) : Prop :=
  exists c0 c1 c2 c3 rest,
    s = code +:+ sep +:+ ch +:+ rest /\
    code = String c0 (String c1 (String c2 (String c3 EmptyString))) /\
    PyStr.is_digit c0 = true /\ PyStr.is_alnum c1 = true /\
    PyStr.is_alnum c2 = true /\ PyStr.is_alnum c3 = true /\
    (sep = EmptyString \/
     exists c, sep = String c EmptyString /\ is_chain_separator c = true) /\
    ch <> EmptyString /\ PyStr.all_chars PyStr.is_alnum ch = true /\
    (forall c rest', rest = String c rest' -> PyStr.is_alnum c = false).

(** the body of [for ch_in in chains_in]: the chain that was built, and
    whether the pattern matched *)
Definition translate_chain (p_in ch_in : string) : chainType * bool :=
  let chain := chainType_new in
  match PDB_CHAIN_PAT_match ch_in with
  | Some (pdb_code, _, ch) =>
      (if negb (String.eqb ch "")
       then if String.eqb pdb_code p_in then set_chain_id ch chain
            else chain                (* "this is an annotation problem": [pass] *)
       else chain,
       true)
  | None => (set_chain_id (PyStr.replace ch_in "," "") chain, false)
  end.

(** [for ch_in in chains_in] for one [p_in] *)
Definition add_chains (p_in : string) (chains_in : list string)
    (pdb_model : initial_modelType) (PDB_entry_id_given : bool) : initial_modelType * bool :=
  fold_left
    (fun acc ch_in =>
       let (chain, matched) := translate_chain p_in ch_in in
       (if chainType_hasContent_ chain then add_chain chain (fst acc) else fst acc,
        snd acc || matched))
    chains_in (pdb_model, PDB_entry_id_given).

Definition no_pdb_id_warning : string :=
  "Chain IDs specified but no PDB ID! Will try and parse PDB ID from first chain ID!".

(** [translate_1_9_to_3_0], element 1 of [modelling_type].  The result is
    [PDB_entry_id_given] and whether [const] still names the constants:
    the loop [for const in chains_in[1:]] of the second branch rebinds it. *)
Definition add_initial_models (pdb_list_in : option pdbidList2Type)
  : M modelling_type (bool * bool) :=
  match pdb_list_in with
  | None => ret (false, true)
  | Some l =>
      let pdb_in := pdbEntryId l in
      let chains_in := pdbChainId l in
      if (0 <? length pdb_in)%nat then
        let! given :=
          for_each pdb_in
            (fun given p_in =>
               let (pdb_model, given') :=
                 add_chains p_in chains_in (initial_modelType_new p_in) given in
               modify (add_initial_model pdb_model) ;;; ret given')
            false in
        ret (given, true)
      else
        match chains_in with
        | [] => ret (false, true)
        | chain_in :: rest =>
            warnM 1 (Text no_pdb_id_warning) ;;;
            let (pdb_code, chain_in') :=
              match PDB_CHAIN_PAT_match chain_in with
              | Some (code, _, ch) => (code, ch)
              | None => (chain_in, chain_in)
              end in
            let pdb_model := add_chain (set_id chain_in' chainType_new)
                               (initial_modelType_new pdb_code) in
            let pdb_model :=
              fold_left (fun m c => add_chain (set_id c chainType_new) m) rest pdb_model in
            modify (add_initial_model pdb_model) ;;;
            ret (false, match rest with [] => true | _ => false end)
        end
  end.

(** [make_software_list] *)
Definition make_software_list (soft_in : option string) : option (list string) :=
  match soft_in with
  | Some s => Some [s]
  | None => None
  end.

Definition pdb_given_marker : string := "PDBEntryID_givenInChain. ".

(** [translate_1_9_to_3_0], the body of [for fit in fitting_list_in], run
    on a new [modelling_type] *)
Definition translate_fitting (fit : fittingType) : M modelling_type unit :=
  let! flags := add_initial_models (pdbEntryIdList fit) in
  let PDB_entry_id_given := fst flags in
  (match refProtocol fit with
   | Some _ =>
       if snd flags
       then on_member refinement_protocol put_refinement_protocol
              (set_refinement_protocol (refProtocol fit))
       else raise (AttributeError "FITTING_19_to_30")
   | None => ret tt
   end) ;;;
  (match make_software_list (software fit) with
   | Some soft_list => modify (set_software_list soft_list)
   | None => ret tt
   end) ;;;
  (if PDB_entry_id_given then
     let add_details := pdb_given_marker in
     let all_details := match fit_details fit with
                        | Some d => add_details +:+ d
                        | None => add_details
                        end in
     modify (set_modelling_details all_details)
   else check_set (ret (fit_details fit)) (fun v => modify (set_modelling_details v)) None) ;;;
  check_set (ret (targetCriteria fit)) (fun v => modify (set_target_criteria v)) None ;;;
  check_set (ret (refSpace fit)) (fun v => modify (set_refinement_space v)) None ;;;
  check_set (ret (overallBValue fit)) (fun v => modify (set_overall_bvalue v)) None.

Definition fittingType_new : fittingType :=
  {| pdbEntryIdList := None; software := None; refProtocol := None; targetCriteria := None;
     overallBValue := None; refSpace := None; fit_details := None |}.
Definition set_pdbEntryIdList (v : pdbidList2Type) (f : fittingType) : fittingType :=
  {| pdbEntryIdList := Some v; software := software f; refProtocol := refProtocol f;
     targetCriteria := targetCriteria f; overallBValue := overallBValue f;
     refSpace := refSpace f; fit_details := fit_details f |}.
Definition set_software (v : string) (f : fittingType) : fittingType :=
  {| pdbEntryIdList := pdbEntryIdList f; software := Some v; refProtocol := refProtocol f;
     targetCriteria := targetCriteria f; overallBValue := overallBValue f;
     refSpace := refSpace f; fit_details := fit_details f |}.
Definition set_refProtocol (v : string) (f : fittingType) : fittingType :=
  {| pdbEntryIdList := pdbEntryIdList f; software := software f; refProtocol := Some v;
     targetCriteria := targetCriteria f; overallBValue := overallBValue f;
     refSpace := refSpace f; fit_details := fit_details f |}.
Definition set_targetCriteria (v : string) (f : fittingType) : fittingType :=
  {| pdbEntryIdList := pdbEntryIdList f; software := software f; refProtocol := refProtocol f;
     targetCriteria := Some v; overallBValue := overallBValue f;
     refSpace := refSpace f; fit_details := fit_details f |}.
Definition set_overallBValue (v : float) (f : fittingType) : fittingType :=
  {| pdbEntryIdList := pdbEntryIdList f; software := software f; refProtocol := refProtocol f;
     targetCriteria := targetCriteria f; overallBValue := Some v;
     refSpace := refSpace f; fit_details := fit_details f |}.
Definition set_refSpace (v : string) (f : fittingType) : fittingType :=
  {| pdbEntryIdList := pdbEntryIdList f; software := software f; refProtocol := refProtocol f;
     targetCriteria := targetCriteria f; overallBValue := overallBValue f;
     refSpace := Some v; fit_details := fit_details f |}.
Definition set_fit_details (v : string) (f : fittingType) : fittingType :=
  {| pdbEntryIdList := pdbEntryIdList f; software := software f; refProtocol := refProtocol f;
     targetCriteria := targetCriteria f; overallBValue := overallBValue f;
     refSpace := refSpace f; fit_details := Some v |}.

(** Modelled from the spec: [hasContent_] of the generated v1.9 classes,
    by the same rule as for [chainType] above. *)
Definition pdbidList2Type_hasContent_ (l : pdbidList2Type) : bool :=
  negb (Nat.eqb (length (pdbEntryId l)) 0) || negb (Nat.eqb (length (pdbChainId l)) 0).
Definition fittingType_hasContent_ (f : fittingType) : bool :=
  bool_decide (is_Some (pdbEntryIdList f)) || bool_decide (is_Some (software f))
  || bool_decide (is_Some (refProtocol f)) || bool_decide (is_Some (targetCriteria f))
  || bool_decide (is_Some (overallBValue f)) || bool_decide (is_Some (refSpace f))
  || bool_decide (is_Some (fit_details f)).

(** [for ch_id in chain.get_chain_id()]: the member is a string once
    [set_chain_id] was called, and a string yields its characters; it is
    written out one element for each of them. *)
Definition chain_ids (c : chainType) : list string :=
  match chain_id c with
  | Some s => map (fun a => String a EmptyString) (list_ascii_of_string s)
  | None => []
  end.

(** [', '.join(l)] *)
Fixpoint join_comma (l : list string) : string :=
  match l with
  | [] => ""
  | [s] => s
  | s :: l' => s +:+ ", " +:+ join_comma l'
  end.

(** [make_software_from_list] *)
Definition make_software_from_list (soft_list_in : list string) : option string :=
  if (0 <? length soft_list_in)%nat then Some (join_comma soft_list_in) else None.

(** the [pdbidList2Type] collected from the initial models of [fit_in] *)
Definition collect_pdb_list (fit_in : modelling_type) : pdbidList2Type :=
  fold_left
    (fun pdb_list mod_in =>
       let acc_code := access_code mod_in in
       let with_id := {| pdbEntryId := pdbEntryId pdb_list ++ [acc_code];
                         pdbChainId := pdbChainId pdb_list |} in
       fold_left
         (fun pdb_list ch_id =>
            let added :=
              match modelling_details fit_in with
              | Some fit_details =>
                  if PyStr.find fit_details pdb_given_marker =? -1 then ch_id
                  else acc_code +:+ "_" +:+ ch_id
              | None => ch_id
              end in
            {| pdbEntryId := pdbEntryId pdb_list;
               pdbChainId := pdbChainId pdb_list ++ [added] |})
         (concat (map chain_ids (chain mod_in))) with_id)
    (initial_model fit_in) {| pdbEntryId := []; pdbChainId := [] |}.

Definition allowed_prots : list string := ["rigid body"; "flexible"].
Definition known_issues : gmap string string :=
  list_to_map [("rigid body fit", "rigid body")].

(** [translate_3_0_to_1_9]: [refProtocol] of a fitting *)
Definition set_refProtocol_from (refinement_protocol : option string) : M fittingType unit :=
  match refinement_protocol with
  | Some ref_prot =>
      let ref_prot_low := PyStr.lower ref_prot in
      if PyStr.mem ref_prot_low allowed_prots then modify (set_refProtocol ref_prot_low)
      else match known_issues !! ref_prot_low with
           | Some v => modify (set_refProtocol v)
           | None => ret tt
           end
  | None => ret tt
  end.

(** [translate_3_0_to_1_9], the body of [for fit_in in fits_in], run on a
    new [fittingType] *)
Definition translate_modelling (fit_in : modelling_type) : M fittingType unit :=
  let pdb_list := collect_pdb_list fit_in in
  (let! self := get_self in
   if roundtrip self then
     if pdbidList2Type_hasContent_ pdb_list then modify (set_pdbEntryIdList pdb_list)
     else ret tt
   else modify (set_pdbEntryIdList pdb_list)) ;;;
  (match software_list fit_in with
   | Some soft_list_in =>
       match make_software_from_list soft_list_in with
       | Some soft_str => modify (set_software soft_str)
       | None => ret tt
       end
   | None => ret tt
   end) ;;;
  set_refProtocol_from (refinement_protocol fit_in) ;;;
  check_set (ret (target_criteria fit_in)) (fun v => modify (set_targetCriteria v)) None ;;;
  check_set (ret (overall_bvalue fit_in)) (fun v => modify (set_overallBValue v)) None ;;;
  check_set (ret (refinement_space fit_in)) (fun v => modify (set_refSpace v)) None ;;;
  match modelling_details fit_in with
  | Some fit_details =>
      if negb (PyStr.find fit_details pdb_given_marker =? -1) then
        let fit_details := PyStr.replace fit_details pdb_given_marker "" in
        if negb (String.eqb fit_details "") then modify (set_fit_details fit_details)
        else ret tt
      else check_set (ret (modelling_details fit_in)) (fun v => modify (set_fit_details v)) None
  | None => ret tt
  end.

(** One fitting record taken forward and back by the translator [self]:
    the [modelling] the forward pass builds is the one the reverse pass
    reads, and the fitting is added to the experiment when it has content. *)
Definition fitting_there_and_back (self : translator) (fit : fittingType)
  : result (option fittingType) :=
  match translate_fitting fit (self, modelling_type_new) with
  | (Raise e, _) => Raise e
  | (Ok _, (self', modelling)) =>
      match translate_modelling modelling (self', fittingType_new) with
      | (Raise e, _) => Raise e
      | (Ok _, (_, fit')) =>
          Ok (if fittingType_hasContent_ fit' then Some fit' else None)
      end
  end.

Module SampleFitting.
Definition flexible : fittingType :=
  {| pdbEntryIdList := Some {| pdbEntryId := ["1ABC"]; pdbChainId := [] |};
     software := Some "Situs"; refProtocol := Some "flexible";
     targetCriteria := Some "R-factor"; overallBValue := None;
     refSpace := Some "REAL"; fit_details := Some "Fitted by hand" |}.
Definition rigid : fittingType :=
  {| pdbEntryIdList := Some {| pdbEntryId := ["1ABC"]; pdbChainId := [] |};
     software := Some "Situs"; refProtocol := Some "rigid body";
     targetCriteria := Some "R-factor"; overallBValue := None;
     refSpace := Some "REAL"; fit_details := Some "Fitted by hand" |}.
Definition round_trip_translator : translator := set_roundtrip init true.
End SampleFitting.

(** ** Nominal defocus: nanometres and micrometres *)

(** The Python values a [valueOf_] member holds. *)
Inductive pyval : Type :=
| PyStr (s : string)
| PyInt (z : Z)
| PyFloat (f : float).

(** an element with a value and a [units] attribute *)
Record value_and_units := {
  valueOf_ : pyval;
  units : option string
}.

(** [float(z)] for an integer: the nearest binary64 number *)
Definition float_of_Z (z : Z) : float :=
  SF2Prim (SpecFloat.binary_normalize prec emax z 0 false).

(** [int(f)]: truncation towards zero *)
Definition int_of_float (f : float) : result Z :=
  match Prim2SF f with
  | SpecFloat.S754_zero _ => Ok 0
  | SpecFloat.S754_finite s m e =>
      let magnitude := if 0 <=? e then Z.pos m * 2 ^ e else Z.pos m / 2 ^ (- e) in
      Ok (if s then - magnitude else magnitude)
  | SpecFloat.S754_infinity _ =>
      Raise (Exception "OverflowError" "cannot convert float infinity to integer")
  | SpecFloat.S754_nan => Raise (ValueError "cannot convert float NaN to integer")
  end.
Definition py_int {W} (f : float) : M W Z := lift (int_of_float f).

(** [v.find(sub)] on a value: only a string has the method *)
Definition py_find {W} (v : pyval) (sub : string) : M W Z :=
  match v with
  | PyStr s => ret (PyStr.find s sub)
  | _ => raise (AttributeError "find")
  end.

Definition min_is_int_marker : string := "{nominal defocus min is int}".
Definition max_is_int_marker : string := "{nominal defocus max is int}".

(** the members of the v1.9 [imgType] and of the v3.0
    [base_microscopy_type] that hold the defocus and the details *)
Record imgType := {
  nominalDefocusMin : option value_and_units;
  nominalDefocusMax : option value_and_units;
  img_details : option string           (* [details] *)
}.
Record base_microscopy_type := {
  nominal_defocus_min : option value_and_units;
  nominal_defocus_max : option value_and_units;
  mic_details : option string           (* [details] *)
}.

Definition imgType_new : imgType :=
  {| nominalDefocusMin := None; nominalDefocusMax := None; img_details := None |}.
Definition base_microscopy_type_new : base_microscopy_type :=
  {| nominal_defocus_min := None; nominal_defocus_max := None; mic_details := None |}.

Definition set_nominal_defocus_min (v : value_and_units) (mic : base_microscopy_type) :=
  {| nominal_defocus_min := Some v; nominal_defocus_max := nominal_defocus_max mic;
     mic_details := mic_details mic |}.
Definition set_nominal_defocus_max (v : value_and_units) (mic : base_microscopy_type) :=
  {| nominal_defocus_min := nominal_defocus_min mic; nominal_defocus_max := Some v;
     mic_details := mic_details mic |}.
Definition set_mic_details (v : option string) (mic : base_microscopy_type) :=
  {| nominal_defocus_min := nominal_defocus_min mic;
     nominal_defocus_max := nominal_defocus_max mic; mic_details := v |}.
Definition set_nominalDefocusMin (v : value_and_units) (img : imgType) :=
  {| nominalDefocusMin := Some v; nominalDefocusMax := nominalDefocusMax img;
     img_details := img_details img |}.
Definition set_nominalDefocusMax (v : value_and_units) (img : imgType) :=
  {| nominalDefocusMin := nominalDefocusMin img; nominalDefocusMax := Some v;
     img_details := img_details img |}.
Definition set_img_details (v : string) (img : imgType) :=
  {| nominalDefocusMin := nominalDefocusMin img;
     nominalDefocusMax := nominalDefocusMax img; img_details := Some v |}.

Section Defocus.
(** Python's [float] on a string, which is not the translator's code. *)
Variable float_of_str : string -> result float.

(** [float(v)] *)
Definition float_of (v : pyval) : result float :=
  match v with
  | PyFloat f => Ok f
  | PyInt z => Ok (float_of_Z z)
  | PyStr s => float_of_str s
  end.
Definition py_float {W} (v : pyval) : M W float := lift (float_of v).

(** [set_base_microscopy], elements 9, 11 and 21.  A source in [nm] is
    multiplied by [0.001] and tagged micrometres, and a text without a
    decimal point leaves its marker for the details.  The branches for a
    source that is not in [nm] read [nominal_defoc_min_val] and
    [nominal_defoc_max_val] before they are bound. *)
Definition set_nominal_defocus (img : imgType) : M base_microscopy_type unit :=
  let! add_to_details_nom_defocus_min :=
    match nominalDefocusMin img with
    | None => ret ""
    | Some nominal_defoc_min =>
        match units nominal_defoc_min with
        | None => ret ""
        | Some units_def_min =>
            if String.eqb units_def_min Constants.U_NM then
              let nominal_defoc_min_val := valueOf_ nominal_defoc_min in
              let! dot := py_find nominal_defoc_min_val "." in
              let add := if dot =? -1 then min_is_int_marker else "" in
              let! f := py_float nominal_defoc_min_val in
              modify (set_nominal_defocus_min
                        {| valueOf_ := PyFloat (f * 0.001)%float;
                           units := Some Constants.U_MICROM |}) ;;;
              ret add
            else if String.eqb units_def_min Constants.U_MICROM then
              raise (UnboundLocalError "nominal_defoc_min_val")
            else ret ""
        end
    end in
  let! add_to_details_nom_defocus_max :=
    match nominalDefocusMax img with
    | None => ret ""
    | Some nominal_defoc_max =>
        match units nominal_defoc_max with
        | None => ret ""
        | Some units_def_max =>
            if String.eqb units_def_max Constants.U_NM then
              let nominal_defoc_max_val := valueOf_ nominal_defoc_max in
              let! dot := py_find nominal_defoc_max_val "." in
              let add := if dot =? -1 then max_is_int_marker else "" in
              let! f := py_float nominal_defoc_max_val in
              modify (set_nominal_defocus_max
                        {| valueOf_ := PyFloat (f * 0.001)%float;
                           units := Some Constants.U_MICROM |}) ;;;
              ret add
            else raise (UnboundLocalError "nominal_defoc_max_val")
        end
    end in
  let all_details :=
    match img_details img with
    | Some im_details =>
        Some (im_details +:+ add_to_details_nom_defocus_min
              +:+ add_to_details_nom_defocus_max)
    | None =>
        if negb (String.eqb add_to_details_nom_defocus_min "")
           || negb (String.eqb add_to_details_nom_defocus_max "")
        then Some (add_to_details_nom_defocus_min +:+ add_to_details_nom_defocus_max)
        else None
    end in
  modify (set_mic_details all_details).

(** the value written back for one defocus: [float(v) * 1000], made an
    [int] in round-trip mode when the details carry [marker] *)
Definition defocus_in_nm {W} (marker : string) (mic_details : option string)
    (nom_defocus : value_and_units) : M W value_and_units :=
  let! f := py_float (valueOf_ nom_defocus) in
  let nom_defocus_val := (f * 1000)%float in
  let! self := get_self in
  let! val :=
    if roundtrip self then
      match mic_details with
      | Some d =>
          if negb (PyStr.find d marker =? -1)
          then let! z := py_int nom_defocus_val in ret (PyInt z)
          else ret (PyFloat nom_defocus_val)
      | None => ret (PyFloat nom_defocus_val)
      end
    else ret (PyFloat nom_defocus_val) in
  ret {| valueOf_ := val; units := Some "nm" |}.

(** [translate_3_0_to_1_9], elements 6, 7 and 10 of [imgType] *)
Definition set_nominalDefocus (mic_in : base_microscopy_type) : M imgType unit :=
  let mic_details := mic_details mic_in in
  (match nominal_defocus_min mic_in with
   | Some nom_defocus_min =>
       let! v := defocus_in_nm min_is_int_marker mic_details nom_defocus_min in
       modify (set_nominalDefocusMin v)
   | None => ret tt
   end) ;;;
  (match nominal_defocus_max mic_in with
   | Some nom_defocus_max =>
       let! v := defocus_in_nm max_is_int_marker mic_details nom_defocus_max in
       modify (set_nominalDefocusMax v)
   | None => ret tt
   end) ;;;
  match mic_details with
  | Some d =>
      let d := if negb (PyStr.find d min_is_int_marker =? -1)
               then PyStr.replace d min_is_int_marker "" else d in
      let d := if negb (PyStr.find d max_is_int_marker =? -1)
               then PyStr.replace d max_is_int_marker "" else d in
      if negb (String.eqb d "") then modify (set_img_details d) else ret tt
  | None => ret tt
  end.
End Defocus.

(** [float] on a plain decimal numeral: digits, with an optional fraction.
    The digits are read as an integer [m] and the numeral is
    [m / 10^k] for [k] digits after the point; both are exact in binary64
    for numerals of up to fifteen digits, so the quotient is the nearest
    binary64 number, as Python's [float] gives it.  Other spellings are
    answered with [ValueError]; the samples below do not use them. *)
Fixpoint digits_value (s : string) (acc : Z) : option Z :=
  match s with
  | EmptyString => Some acc
  | String c s' =>
      if PyStr.is_digit c
      then digits_value s' (10 * acc + Z.of_nat (nat_of_ascii c - 48))
      else None
  end.

Definition decimal_float (s : string) : result float :=
  let (int_part, rest) := PyStr.span PyStr.is_digit s in
  let frac_part := match rest with
                   | String "."%char r => Some r
                   | EmptyString => Some EmptyString
                   | _ => None
                   end in
  match frac_part with
  | Some frac =>
      match digits_value (int_part +:+ frac) 0 with
      | Some m =>
          if String.eqb (int_part +:+ frac) "" then Raise (ValueError s)
          else Ok (float_of_Z m / float_of_Z (10 ^ Z.of_nat (String.length frac)))%float
      | None => Raise (ValueError s)
      end
  | None => Raise (ValueError s)
  end.

Module SampleDefocus.
Definition in_nm (text : string) : value_and_units :=
  {| valueOf_ := PyStr text; units := Some Constants.U_NM |}.
Definition img (text : string) : imgType :=
  {| nominalDefocusMin := Some (in_nm text); nominalDefocusMax := None;
     img_details := Some "low dose" |}.
Definition round_trip_translator : translator := set_roundtrip init true.
(** the microscopy that the forward pass builds for [img text] *)
Definition forward (text : string) : base_microscopy_type :=
  snd (snd (set_nominal_defocus decimal_float (img text)
              (round_trip_translator, base_microscopy_type_new))).
(** the same microscopy as it is read from the written file: the value
    is then the text of the number *)
Definition as_read (text : string) (mic : base_microscopy_type) : base_microscopy_type :=
  {| nominal_defocus_min := Some {| valueOf_ := PyStr text;
                                    units := Some Constants.U_MICROM |};
     nominal_defocus_max := nominal_defocus_max mic;
     mic_details := mic_details mic |}.
Definition back (mic : base_microscopy_type) : result unit * imgType :=
  let r := set_nominalDefocus decimal_float mic (round_trip_translator, imgType_new) in
  (fst r, snd (snd r)).
End SampleDefocus.

(** ** Reverse translation: image acquisitions *)

(** Run a statement on a newly created object and hand the object back. *)
Definition with_new {W X A} (x0 : X) (m : M X A) : M W (A * X) :=
  fun st =>
    let (r, st') := m (fst st, x0) in
    (match r with
     | Ok a => Ok (a, snd st')
     | Raise e => Raise e
     end, (fst st', snd st)).

(** v3.0 [auxiliary_link_type] *)
Record auxiliary_link_type := { link : option string }.

(** an element with a text value and a [units] attribute, as it is read
    from a file: v3.0 [sampling_intervalType], v1.9 [samplSizeType] *)
Record text_and_units := {
  text_valueOf_ : string;                (* [valueOf_] *)
  text_units : option string             (* [units] *)
}.

(** v3.0 [digitization_detailsType] *)
Record digitization_detailsType := {
  dig_scanner : option string;           (* [scanner] *)
  sampling_interval : option text_and_units
}.

Section Acquisition.
(** The numbers the object model reads from [xs:float] elements; [==]
    on them is taken to be equality. *)
Context {number : Type} `{EqDecision number}.

(** v3.0 [image_recordingType], the members read here *)
Record image_recordingType := {
  number_real_images : option Z;
  digitization_details : option digitization_detailsType;
  od_range : option number;
  bits_per_pixel : option Z;
  rec_details : option string            (* [details] *)
}.

(** v3.0 microscopy, the member read here *)
Record microscopyType := {
  image_recording_list : option (list image_recordingType)
}.

(** v1.9 [imgScanType] *)
Record imgScanType := {
  numDigitalImages : option Z;
  scanner : option string;
  samplingSize : option text_and_units;
  odRange : option number;
  URLRawData : option string;
  quantBitNumber : option Z;
  scan_details : option string           (* [details] *)
}.

Definition imgScanType_new : imgScanType :=
  {| numDigitalImages := None; scanner := None; samplingSize := None; odRange := None;
     URLRawData := None; quantBitNumber := None; scan_details := None |}.
Definition set_numDigitalImages (v : Z) (a : imgScanType) : imgScanType :=
  {| numDigitalImages := Some v; scanner := scanner a; samplingSize := samplingSize a;
     odRange := odRange a; URLRawData := URLRawData a; quantBitNumber := quantBitNumber a;
     scan_details := scan_details a |}.
Definition set_scanner (v : string) (a : imgScanType) : imgScanType :=
  {| numDigitalImages := numDigitalImages a; scanner := Some v;
     samplingSize := samplingSize a; odRange := odRange a; URLRawData := URLRawData a;
     quantBitNumber := quantBitNumber a; scan_details := scan_details a |}.
Definition set_samplingSize (v : text_and_units) (a : imgScanType) : imgScanType :=
  {| numDigitalImages := numDigitalImages a; scanner := scanner a; samplingSize := Some v;
     odRange := odRange a; URLRawData := URLRawData a; quantBitNumber := quantBitNumber a;
     scan_details := scan_details a |}.
Definition set_odRange (v : number) (a : imgScanType) : imgScanType :=
  {| numDigitalImages := numDigitalImages a; scanner := scanner a;
     samplingSize := samplingSize a; odRange := Some v; URLRawData := URLRawData a;
     quantBitNumber := quantBitNumber a; scan_details := scan_details a |}.
Definition set_URLRawData (v : option string) (a : imgScanType) : imgScanType :=
  {| numDigitalImages := numDigitalImages a; scanner := scanner a;
     samplingSize := samplingSize a; odRange := odRange a; URLRawData := v;
     quantBitNumber := quantBitNumber a; scan_details := scan_details a |}.
Definition set_quantBitNumber (v : Z) (a : imgScanType) : imgScanType :=
  {| numDigitalImages := numDigitalImages a; scanner := scanner a;
     samplingSize := samplingSize a; odRange := odRange a; URLRawData := URLRawData a;
     quantBitNumber := Some v; scan_details := scan_details a |}.
Definition set_scan_details (v : string) (a : imgScanType) : imgScanType :=
  {| numDigitalImages := numDigitalImages a; scanner := scanner a;
     samplingSize := samplingSize a; odRange := odRange a; URLRawData := URLRawData a;
     quantBitNumber := quantBitNumber a; scan_details := Some v |}.

(** The values of the dict [image_acquasition]. *)
Inductive cfgval : Type :=
| CNone
| CInt (z : Z)
| CStr (s : string)
| CNum (x : number).

#[global] Instance cfgval_eq_dec : EqDecision cfgval.
Proof. solve_decision. Defined.

Definition of_int (o : option Z) : cfgval :=
  match o with Some z => CInt z | None => CNone end.
Definition of_str (o : option string) : cfgval :=
  match o with Some s => CStr s | None => CNone end.
Definition of_num (o : option number) : cfgval :=
  match o with Some x => CNum x | None => CNone end.

(** The body of [for im_rec_in in im_recs] up to the comparison: it fills
    the new [im_ac] (the object of this statement) and returns the dict
    [image_acquasition].  [aux_list_in] is
    [x_ref_in.get_auxiliary_link_list()]. *)
Definition build_im_ac (aux_list_in : option (list auxiliary_link_type))
    (im_rec_in : image_recordingType) : M imgScanType (gmap string cfgval) :=
  let image_acquasition : gmap string cfgval := ∅ in
  check_set (ret (number_real_images im_rec_in))
    (fun v => modify (set_numDigitalImages v)) None ;;;
  let image_acquasition :=
    <["numDigitalImages" := of_int (number_real_images im_rec_in)]> image_acquasition in
  let! image_acquasition :=
    match digitization_details im_rec_in with
    | Some dig_in =>
        check_set (ret (dig_scanner dig_in)) (fun v => modify (set_scanner v)) None ;;;
        let image_acquasition :=
          <["scanner" := of_str (dig_scanner dig_in)]> image_acquasition in
        set_value_and_units text_units text_valueOf_
          (fun v u => {| text_valueOf_ := v; text_units := u |})
          (ret (sampling_interval dig_in)) (fun v => modify (set_samplingSize v))
          (Some (Some Constants.U_MCRN)) None ;;;
        ret (match sampling_interval dig_in with
             | Some sample_interval =>
                 <["samplingSize" := CStr (text_valueOf_ sample_interval)]> image_acquasition
             | None => image_acquasition
             end)
    | None => ret image_acquasition
    end in
  check_set (ret (od_range im_rec_in)) (fun v => modify (set_odRange v)) None ;;;
  let image_acquasition := <["odRange" := of_num (od_range im_rec_in)]> image_acquasition in
  let! image_acquasition :=
    match aux_list_in with
    | Some (first_link :: _) =>
        modify (set_URLRawData (link first_link)) ;;;
        ret (<["URLRawData" := of_str (link first_link)]> image_acquasition)
    | _ => ret image_acquasition
    end in
  check_set (ret (bits_per_pixel im_rec_in)) (fun v => modify (set_quantBitNumber v)) None ;;;
  let image_acquasition :=
    <["quantBitNumber" := of_int (bits_per_pixel im_rec_in)]> image_acquasition in
  check_set (ret (rec_details im_rec_in)) (fun v => modify (set_scan_details v)) None ;;;
  ret (<["details" := of_str (rec_details im_rec_in)]> image_acquasition).

(** [hasContent_] of the generated [imgScanType] *)
Variable hasContent_ : imgScanType -> bool.

(** [exp.add_imageAcquisition(im_ac)], behind the round-trip test *)
Definition add_imageAcquisition (im_ac : imgScanType) : M (list imgScanType) unit :=
  let! self := get_self in
  if roundtrip self then
    if hasContent_ im_ac then modify (fun exp => exp ++ [im_ac]) else ret tt
  else modify (fun exp => exp ++ [im_ac]).

(** [for im_acq in image_acquasitions: if cmp(..., image_acquasition) == 0] *)
Definition is_same_as_one_of (image_acquasitions : gmap nat (gmap string cfgval))
    (image_acquasition : gmap string cfgval) : bool :=
  existsb (fun kv => bool_decide (snd kv = image_acquasition))
    (map_to_list image_acquasitions).

(** the body of [for im_rec_in in im_recs]; the object is the list of
    image acquisitions of [exp], the loop variable is the dict
    [image_acquasitions] *)
Definition image_acquisition_body (aux_list_in : option (list auxiliary_link_type))
    (image_acquasitions : gmap nat (gmap string cfgval)) (im_rec_in : image_recordingType)
  : M (list imgScanType) (gmap nat (gmap string cfgval)) :=
  let! built := with_new imgScanType_new (build_im_ac aux_list_in im_rec_in) in
  let image_acquasition := fst built in
  let im_ac := snd built in
  if bool_decide (image_acquasitions <> ∅) then
    if bool_decide (image_acquasition <> ∅) then
      if negb (is_same_as_one_of image_acquasitions image_acquasition) then
        add_imageAcquisition im_ac ;;;
        ret (<[(size image_acquasitions + 1)%nat := image_acquasition]> image_acquasitions)
      else ret image_acquasitions
    else ret image_acquasitions
  else
    let image_acquasitions' :=
      if bool_decide (image_acquasition <> ∅)
      then <[(size image_acquasitions + 1)%nat := image_acquasition]> image_acquasitions
      else image_acquasitions in
    add_imageAcquisition im_ac ;;;
    ret image_acquasitions'.

(** [translate_3_0_to_1_9], element 3 of [expType] *)
Definition translate_image_acquisitions (aux_list_in : option (list auxiliary_link_type))
    (mic_list_in : list microscopyType) : M (list imgScanType) unit :=
  for_each mic_list_in
    (fun image_acquasitions mic_in =>
       match image_recording_list mic_in with
       | Some im_recs =>
           for_each im_recs (image_acquisition_body aux_list_in) image_acquasitions
       | None => ret image_acquasitions
       end)
    ∅ ;;;
  ret tt.

(** *** What the loop computes, said directly *)

(** the image recordings of all microscopies, in order *)
Definition all_recordings (mic_list_in : list microscopyType) : list image_recordingType :=
  concat (map (fun mic_in => default [] (image_recording_list mic_in)) mic_list_in).

(** the digitization configuration of a recording: the dict that is
    compared *)
Definition configuration (aux_list_in : option (list auxiliary_link_type))
    (r : image_recordingType) : gmap string cfgval :=
  let d0 : gmap string cfgval :=
    <["numDigitalImages" := of_int (number_real_images r)]> ∅ in
  let d1 :=
    match digitization_details r with
    | Some dig_in =>
        let d := <["scanner" := of_str (dig_scanner dig_in)]> d0 in
        match sampling_interval dig_in with
        | Some si => <["samplingSize" := CStr (text_valueOf_ si)]> d
        | None => d
        end
    | None => d0
    end in
  let d2 := <["odRange" := of_num (od_range r)]> d1 in
  let d3 :=
    match aux_list_in with
    | Some (first_link :: _) => <["URLRawData" := of_str (link first_link)]> d2
    | _ => d2
    end in
  <["details" := of_str (rec_details r)]>
    (<["quantBitNumber" := of_int (bits_per_pixel r)]> d3).

(** the acquisition record made from a recording *)
Definition acquisition (aux_list_in : option (list auxiliary_link_type))
    (r : image_recordingType) : imgScanType :=
  {| numDigitalImages := number_real_images r;
     scanner := match digitization_details r with
                | Some dig_in => dig_scanner dig_in
                | None => None
                end;
     samplingSize :=
       match digitization_details r with
       | Some dig_in =>
           match sampling_interval dig_in with
           | Some si => Some {| text_valueOf_ := text_valueOf_ si;
                                text_units := Some Constants.U_MCRN |}
           | None => None
           end
       | None => None
       end;
     odRange := od_range r;
     URLRawData := match aux_list_in with
                   | Some (first_link :: _) => link first_link
                   | _ => None
                   end;
     quantBitNumber := bits_per_pixel r;
     scan_details := rec_details r |}.

(** the recordings whose configuration was not seen before, in order *)
Fixpoint first_of_each {A} (f : A -> gmap string cfgval)
    (seen : list (gmap string cfgval)) (l : list A) : list A :=
  match l with
  | [] => []
  | x :: l' =>
      if bool_decide (f x ∈ seen) then first_of_each f seen l'
      else x :: first_of_each f (seen ++ [f x]) l'
  end.

(** what reaches the output of a list of records: all of them, or in
    round-trip mode those with content *)
Definition emitted (self : translator) (l : list imgScanType) : list imgScanType :=
  if roundtrip self then List.filter hasContent_ l else l.
End Acquisition.

(** Modelled from the spec: [hasContent_] of the generated v1.9
    [imgScanType], by the rule stated for [chainType] above. *)
Definition imgScanType_hasContent_ {number} (a : @imgScanType number) : bool :=
  bool_decide (is_Some (numDigitalImages a)) || bool_decide (is_Some (scanner a))
  || bool_decide (is_Some (samplingSize a)) || bool_decide (is_Some (odRange a))
  || bool_decide (is_Some (URLRawData a)) || bool_decide (is_Some (quantBitNumber a))
  || bool_decide (is_Some (scan_details a)).

Module SampleAcquisition.
(** an image recording with a detector but no digitization data, as the
    forward pass writes it for an imaging record without image
    acquisition; [number] is [Z] here *)
Definition bare : @image_recordingType Z :=
  {| number_real_images := None; digitization_details := None; od_range := None;
     bits_per_pixel := None; rec_details := None |}.
Definition scanned : @image_recordingType Z :=
  {| number_real_images := Some 120;
     digitization_details :=
       Some {| dig_scanner := Some "ZEISS SCAI";
               sampling_interval := Some {| text_valueOf_ := "7"; text_units := None |} |};
     od_range := Some 1; bits_per_pixel := Some 8; rec_details := None |}.
Definition mic (r : @image_recordingType Z) : @microscopyType Z :=
  {| image_recording_list := Some [r] |}.
Definition run (self : translator) (mics : list (@microscopyType Z)) : list (@imgScanType Z) :=
  snd (snd (translate_image_acquisitions imgScanType_hasContent_ None mics (self, []))).
End SampleAcquisition.

(** ** Text packed into a details member *)

(** No occurrence of [sub] in [d +:+ rest] starts inside [d]. *)
Fixpoint none_starts (sub d rest : string) : bool :=
  match d with
  | EmptyString => true
  | String _ d' => negb (String.prefix sub (d +:+ rest)) && none_starts sub d' rest
  end.

(** The character [c] does not occur in [s]. *)
Definition lacks (c : ascii) (s : string) : bool :=
  PyStr.all_chars (fun a => negb (Ascii.eqb a c)) s.

(** [l[i]] on a list *)
Definition list_getitem {W A} (l : list A) (i : nat) : M W A :=
  match l !! i with
  | Some x => ret x
  | None => raise (Exception "IndexError" "list index out of range")
  end.

(** a member that is empty or [None] counts as absent *)
Definition filled (o : option string) : option string :=
  match o with
  | Some s => if String.eqb s "" then None else Some s
  | None => None
  end.

Definition comp_details_flag : string := " {comp details}: ".

(** [set_oddity_details]: [base_details] is [smol_or_mol_in.get_details()],
    [comp_in] the v1.9 component, [None] when there is none, with its
    [details]; the object is the [details] of the v3.0 molecule. *)
Definition set_oddity_details (base_details : option string)
    (comp_in : option (option string)) : M (option string) unit :=
  let all_details := "" in
  let all_details :=
    match base_details with
    | Some b => if negb (String.eqb b "") then b else all_details
    | None => all_details
    end in
  let! comp_details :=
    match comp_in with
    | Some c => ret c
    | None => raise (AttributeError "get_details")
    end in
  let all_details :=
    match comp_details with
    | Some c => if negb (String.eqb c "")
                then all_details +:+ comp_details_flag +:+ c else all_details
    | None => all_details
    end in
  if negb (String.eqb all_details "") then set_member all_details else ret tt.

(** the [details] of the two v1.9 objects that [unpack_odd_details] fills *)
Record odd_details := {
  comp_details : option string;          (* [comp.details] *)
  spec_comp_details : option string      (* [spec_comp.details] *)
}.
Definition odd_details_new : odd_details :=
  {| comp_details := None; spec_comp_details := None |}.
Definition set_comp_details (v : string) (o : odd_details) : odd_details :=
  {| comp_details := Some v; spec_comp_details := spec_comp_details o |}.
Definition set_spec_comp_details (v : string) (o : odd_details) : odd_details :=
  {| comp_details := comp_details o; spec_comp_details := Some v |}.

(** [unpack_odd_details] *)
Definition unpack_odd_details (details_in : option string) : M odd_details unit :=
  match details_in with
  | Some details_in =>
      if negb (PyStr.find details_in comp_details_flag =? -1) then
        let all_details := PyStr.split details_in comp_details_flag in
        (let! d0 := list_getitem all_details 0 in
         if negb (String.eqb d0 "") then modify (set_comp_details d0) else ret tt) ;;;
        (let! d1 := list_getitem all_details 1 in
         if negb (String.eqb d1 "") then modify (set_spec_comp_details d1) else ret tt)
      else modify (set_comp_details details_in)
  | None => ret tt
  end.

(** The details of a component taken forward and back: the v3.0 details
    that [set_oddity_details] writes are the ones [unpack_odd_details]
    reads. *)
Definition oddity_there_and_back (self : translator) (base_details comp_details : option string)
  : result unit * odd_details :=
  let packed := snd (snd (set_oddity_details base_details (Some comp_details) (self, None))) in
  let r := unpack_odd_details packed (self, odd_details_new) in
  (fst r, snd (snd r)).

(** ** Euler angle details of a tomography *)

Definition euler_angles_tag : string := "{eulerAnglesDetails}: ".

(** [adjust_for_Euler_angles_details]: [eulerAnglesDetails] is
    [reconstruction.get_eulerAnglesDetails()], the object is the
    [details] of [im_proc]. *)
Definition adjust_for_Euler_angles_details (eulerAnglesDetails : option string)
  : M (option string) unit :=
  match eulerAnglesDetails with
  | Some ang_in =>
      if negb (String.eqb ang_in "") then
        let add_details := euler_angles_tag +:+ ang_in in
        let all_details := add_details in
        let! current_details := get_world in
        let all_details :=
          match current_details with
          | Some current_details => current_details +:+ all_details
          | None => all_details
          end in
        set_member all_details
      else ret tt
  | None => ret tt
  end.

(** The v3.0 image processing as [copy_ctf_and_euler_angles] reads it.
    [ctf_correction] and the angle assignment are given by their
    [details].  [final_angle_assignment] is what
    [get_final_angle_assignment()] does: it raises for a class that has
    no such member. *)
Record image_processing_in := {
  ctf_correction : option (option string);
  final_angle_assignment : result (option (option string));
  imp_details : option string            (* [details] *)
}.

(** the v1.9 reconstruction [rec_obj] and the [details] of
    [im_proc_out], which is [None] when there is no such object *)
Record euler_target := {
  ctfCorrection : option string;
  eulerAnglesDetails : option string;
  proc_spec : option (option string)
}.
Definition set_ctfCorrection (v : string) (t : euler_target) : euler_target :=
  {| ctfCorrection := Some v; eulerAnglesDetails := eulerAnglesDetails t;
     proc_spec := proc_spec t |}.
Definition set_eulerAnglesDetails (v : string) (t : euler_target) : euler_target :=
  {| ctfCorrection := ctfCorrection t; eulerAnglesDetails := Some v;
     proc_spec := proc_spec t |}.
(** [im_proc_out.set_details(v)] *)
Definition set_proc_spec_details (v : string) : M euler_target unit :=
  let! t := get_world in
  match proc_spec t with
  | Some _ => modify (fun t => {| ctfCorrection := ctfCorrection t;
                                   eulerAnglesDetails := eulerAnglesDetails t;
                                   proc_spec := Some (Some v) |})
  | None => raise (AttributeError "set_details")
  end.

(** [copy_ctf_and_euler_angles] *)
Definition copy_ctf_and_euler_angles (im_proc_in : image_processing_in) : M euler_target unit :=
  (match ctf_correction im_proc_in with
   | Some (Some ctf_in_details) => modify (set_ctfCorrection ctf_in_details)
   | _ => ret tt
   end) ;;;
  let! r := attempt
    (let! ang_in := lift (final_angle_assignment im_proc_in) in
     match ang_in with
     | Some (Some ang_in_details) => modify (set_eulerAnglesDetails ang_in_details)
     | _ => ret tt
     end) in
  match r with
  | Ok _ => ret tt
  | Raise _ =>
      match imp_details im_proc_in with
      | Some details =>
          if negb (PyStr.find details euler_angles_tag =? -1) then
            let split_details := PyStr.split details euler_angles_tag in
            if (length split_details =? 2)%nat then
              (let! d1 := list_getitem split_details 1 in
               modify (set_eulerAnglesDetails d1)) ;;;
              (let! d0 := list_getitem split_details 0 in
               set_proc_spec_details d0)
            else ret tt
          else ret tt
      | None => ret tt
      end
  end.

(** the details that [adjust_for_Euler_angles_details] leaves in an image
    processing whose details were [current_details] *)
Definition euler_packed (self : translator) (current_details eulerAnglesDetails : option string)
  : option string :=
  snd (snd (adjust_for_Euler_angles_details eulerAnglesDetails (self, current_details))).

(** ** Authors *)

(** What a v3.0 author list holds: an [author_order_type] with its text
    and [order], or, in the list of the entry's authors, a plain string. *)
Inductive author_item : Type :=
| author_order_type (valueOf_ : string) (order : Z)
| author_string (s : string).

(** Modelled from the spec: [hasContent_] of the generated
    [author_order_type], by the rule stated for [chainType] above. *)
Definition author_order_type_hasContent_ (valueOf_ : string) : bool :=
  negb (String.eqb valueOf_ "").

(** [copy_authors]: the object is the list that [add_author] appends to *)
Definition copy_authors {W} (get_authors : M W (option string))
    (add_author : author_item -> M W unit) (simple : bool) : M W unit :=
  let! authors_in := get_authors in
  match authors_in with
  | Some authors_in =>
      let auth_in := PyStr.split (PyStr.replace authors_in ", " ",") "," in
      for_each auth_in
        (fun index auth_str_in =>
           if negb (String.eqb auth_str_in "") then
             if negb simple then
               if author_order_type_hasContent_ auth_str_in then
                 add_author (author_order_type auth_str_in index) ;;;
                 ret (index + 1)
               else ret index
             else add_author (author_string auth_str_in) ;;; ret index
           else ret index)
        1 ;;;
      ret tt
  | None => ret tt
  end.

(** [add_author] of a list of authors *)
Definition add_author (a : author_item) : M (list author_item) unit :=
  modify (fun l => l ++ [a]).

(** [get_authors] of the reverse translation.  An [author_order_type]
    read as a simple author reaches [', '.join] as an object, and a plain
    string has no [get_valueOf_]. *)
Definition get_authors (auth_list_in : list author_item) (simple : bool) : result string :=
  let step (acc : result (list string)) (auth_in : author_item) : result (list string) :=
    match acc with
    | Raise e => Raise e
    | Ok auth_list =>
        match auth_in, simple with
        | author_string s, true => Ok (auth_list ++ [s])
        | author_order_type v _, false => Ok (auth_list ++ [v])
        | author_string _, false => Raise (AttributeError "get_valueOf_")
        | author_order_type _ _, true =>
            Raise (Exception "TypeError" "sequence item: expected string")
        end
    end in
  match fold_left step auth_list_in (Ok []) with
  | Raise e => Raise e
  | Ok auth_list =>
      if (0 <? length auth_list)%nat then Ok (join_comma auth_list) else Ok ""
  end.

(** the author list that the forward pass makes of an authors text, and
    the text that the reverse pass makes of that list *)
Definition authors_forward (self : translator) (authors_in : string) (simple : bool)
  : list author_item :=
  snd (snd (copy_authors (ret (Some authors_in)) add_author simple (self, []))).
Definition authors_there_and_back (self : translator) (authors_in : string) (simple : bool)
  : result string :=
  get_authors (authors_forward self authors_in simple) simple.

(** [auth_str_in != ''] *)
Definition nonempty (n : string) : bool := negb (String.eqb n "").

(** an author list numbered from [first] *)
Fixpoint numbered (first : Z) (names : list string) : list author_item :=
  match names with
  | [] => []
  | n :: names' => author_order_type n first :: numbered (first + 1) names'
  end.

(** ** The contour level of a map and the map details *)

Definition whole_number_marker : string := "{level is a whole number}".

(** v1.9 [contourLevelType]: the forward pass reads the text of the
    level, the reverse pass writes a number *)
Record contourLevelType := {
  cl_valueOf_ : option pyval;            (* [valueOf_] *)
  cl_source : option string              (* [source] *)
}.
(** v3.0 [contourType] *)
Record contourType := {
  primary : bool;
  level : option float;
  cntr_source : option string            (* [source] *)
}.
(** the members of the v3.0 [map_type] and of the v1.9 [mapType] that
    hold the contour level and the details *)
Record map_type := {
  contour_list : option (list contourType);
  map_details : option string            (* [details] *)
}.
Record mapType := {
  contourLevel : option contourLevelType;
  mapType_details : option string        (* [details] *)
}.
Definition map_type_new : map_type := {| contour_list := None; map_details := None |}.
Definition mapType_new : mapType := {| contourLevel := None; mapType_details := None |}.
Definition set_contour_list (v : list contourType) (m : map_type) : map_type :=
  {| contour_list := Some v; map_details := map_details m |}.
Definition set_map_details (v : string) (m : map_type) : map_type :=
  {| contour_list := contour_list m; map_details := Some v |}.
Definition set_contourLevel (v : contourLevelType) (m : mapType) : mapType :=
  {| contourLevel := Some v; mapType_details := mapType_details m |}.
Definition set_mapType_details (v : string) (m : mapType) : mapType :=
  {| contourLevel := contourLevel m; mapType_details := Some v |}.
Definition set_cl_valueOf_ (v : pyval) (c : contourLevelType) : contourLevelType :=
  {| cl_valueOf_ := Some v; cl_source := cl_source c |}.
Definition set_cl_source (v : string) (c : contourLevelType) : contourLevelType :=
  {| cl_valueOf_ := cl_valueOf_ c; cl_source := Some v |}.

Section Contour.
Variable float_of_str : string -> result float.
(** [hasContent_] of the generated v1.9 [contourLevelType] *)
Variable contourLevelType_hasContent_ : contourLevelType -> bool.

(** [copy_map_19_to_30], elements 11 and 14 of [map_type]:
    [contourLevel_in] is [map_in.get_contourLevel()] and [details_in] is
    [map_in.get_details()]. *)
Definition copy_contour_19_to_30 (is_map : bool) (contourLevel_in : option contourLevelType)
    (details_in : option string) : M map_type unit :=
  let! add_contour_level_details :=
    if is_map then
      match contourLevel_in with
      | Some cntr_in =>
          let! marked :=
            match cl_valueOf_ cntr_in with
            | Some level =>
                let! dot := py_find level "." in
                let add := if dot =? -1 then whole_number_marker else "" in
                let! f := py_float float_of_str level in
                ret (add, Some f)
            | None => ret ("", None)
            end in
          let source_in := cl_source cntr_in in
          let cntr := {| primary := true; level := snd marked;
                         cntr_source := match source_in with
                                        | Some s => Some (PyStr.upper s)
                                        | None => None
                                        end |} in
          modify (set_contour_list [cntr]) ;;;
          ret (fst marked)
      | None => ret ""
      end
    else ret "" in
  let map_details := details_in in
  let all_details :=
    match map_details with
    | Some d => d +:+ add_contour_level_details
    | None => add_contour_level_details
    end in
  if negb (String.eqb all_details "") then modify (set_map_details all_details) else ret tt.

(** [copy_map_30_to_19], elements 13 and 11 of [mapType].
    [has_set_contourLevel] is [hasattr(map_out, 'set_contourLevel')]:
    the primary map has the member, a mask or a slice has not. *)
Definition copy_contour_30_to_19 (has_set_contourLevel : bool) (map_in : map_type)
  : M mapType unit :=
  let map_details := map_details map_in in
  (if has_set_contourLevel then
     match contour_list map_in with
     | Some contours =>
         for_each contours
           (fun _ cntr_in =>
              if primary cntr_in then
                let! built := with_new {| cl_valueOf_ := None; cl_source := None |}
                  ((match level cntr_in with
                    | Some cnt_level =>
                        match map_details with
                        | Some d =>
                            if negb (PyStr.find d whole_number_marker =? -1)
                            then let! z := py_int cnt_level in
                                 modify (set_cl_valueOf_ (PyInt z))
                            else modify (set_cl_valueOf_ (PyFloat cnt_level))
                        | None => modify (set_cl_valueOf_ (PyFloat cnt_level))
                        end
                    | None => ret tt
                    end) ;;;
                   check_set (ret (cntr_source cntr_in)) (fun v => modify (set_cl_source v))
                     (Some (fun v => ret (PyStr.lower v)))) in
                let cntr := snd built in
                if contourLevelType_hasContent_ cntr then modify (set_contourLevel cntr)
                else ret tt
              else ret tt)
           tt
     | None => ret tt
     end
   else ret tt) ;;;
  match map_details with
  | Some map_details =>
      let map_details :=
        if negb (PyStr.find map_details whole_number_marker =? -1)
        then PyStr.replace map_details whole_number_marker "" else map_details in
      if negb (String.eqb map_details "") then modify (set_mapType_details map_details)
      else ret tt
  | None =>
      let! self := get_self in
      if negb (roundtrip self) then modify (set_mapType_details "") else ret tt
  end.

(** the v3.0 map that the forward pass makes of a v1.9 primary map *)
Definition contour_forward (self : translator) (contourLevel_in : option contourLevelType)
    (details_in : option string) : map_type :=
  snd (snd (copy_contour_19_to_30 true contourLevel_in details_in (self, map_type_new))).
End Contour.

(** Modelled from the spec: [hasContent_] of the generated v1.9
    [contourLevelType], by the rule stated for [chainType] above. *)
Definition contourLevelType_hasContent_ (c : contourLevelType) : bool :=
  bool_decide (is_Some (cl_valueOf_ c)) || bool_decide (is_Some (cl_source c)).

(** [map_details.find('{level is a whole number}') != -1] for details
    that may be [None] *)
Definition carries_whole_number_marker (details : option string) : bool :=
  match details with
  | Some d => negb (PyStr.find d whole_number_marker =? -1)
  | None => false
  end.

(** ** Crystal growth details kept in the details of a preparation *)

Definition crystal_grow_open : string := "crystalGrowDetails: ".
Definition crystal_grow_close : string := " :crystalGrowDetails".

(** [set_base_preparation], the last statement: the [details] that are
    set on [prep], [None] when [set_details] is not called.
    [spec_prep_in] is given by its [crystalGrowDetails]. *)
Definition pack_crystal_grow_details (spec_prep_in : option (option string)) : option string :=
  match spec_prep_in with
  | Some (Some cryst_grow_details) =>
      if negb (String.eqb cryst_grow_details "")
      then Some (crystal_grow_open +:+ cryst_grow_details +:+ crystal_grow_close)
      else None
  | _ => None
  end.

(** [translate_3_0_to_1_9], a preparation that is not a crystallography
    preparation: the object is the [crystalGrowDetails] of the v1.9
    specimen preparation.  [det2] is a list, and a list has no [find]. *)
Definition unpack_crystal_grow_details (det : option string) : M (option string) unit :=
  match det with
  | Some det =>
      if negb (PyStr.find det crystal_grow_close =? -1) then
        let det2 := PyStr.split det crystal_grow_close in
        if (1 <? length det2)%nat then
          let! det3 := list_getitem det2 0 in
          if negb (PyStr.find det3 crystal_grow_open =? -1) then
            let grow_det := PyStr.replace det3 crystal_grow_open "" in
            set_member grow_det
          else ret tt
        else raise (AttributeError "find")
      else ret tt
  | None => ret tt
  end.

(** ** Image acquisitions dealt to the microscopies *)

(** [l[lo:hi]]: a negative index counts from the end, and both are
    brought into the range of the list *)
Definition py_slice {A} (l : list A) (lo hi : Z) : list A :=
  let n := Z.of_nat (length l) in
  let clamp (i : Z) := if i <? 0 then Z.max 0 (i + n) else Z.min i n in
  take (Z.to_nat (clamp hi - clamp lo)) (drop (Z.to_nat (clamp lo)) l).

(** [set_base_microscopy]: [min_idx] and [max_idx] for the microscopy
    number [i], counted from one, when there are [num_det] image
    acquisitions and [num_imaging_in] imaging elements *)
Definition acquisition_slice (num_det num_imaging_in i : Z) : Z * Z :=
  if num_imaging_in <=? num_det then
    let min_idx := i - 1 in
    let max_idx := if i =? num_imaging_in then num_det else min_idx + 1 in
    (min_idx, max_idx)
  else
    let min_idx := if i <? num_det then i - 1 else num_det - 1 in
    let max_idx := min_idx + 1 in
    (min_idx, max_idx).

(** the image acquisitions that [for im_ac in im_ac_in[min_idx:max_idx]]
    goes through for the microscopy number [i]; none when [num_det] is 0 *)
Definition acquisitions_of {A} (im_ac_in : list A) (num_imaging_in i : Z) : list A :=
  let num_det := Z.of_nat (length im_ac_in) in
  if 0 <? num_det then
    let idx := acquisition_slice num_det num_imaging_in i in
    py_slice im_ac_in (fst idx) (snd idx)
  else [].

(** [for img in imaging_list_in: ...; i += 1]: the acquisitions of each
    microscopy, in the order of the imaging elements; [i] starts at one *)
Fixpoint deal_acquisitions {A B} (im_ac_in : list A) (num_imaging_in : Z)
    (imaging_list_in : list B) (i : Z) : list (list A) :=
  match imaging_list_in with
  | [] => []
  | _ :: rest =>
      acquisitions_of im_ac_in num_imaging_in i
      :: deal_acquisitions im_ac_in num_imaging_in rest (i + 1)
  end.
Definition acquisitions_by_microscopy {A B} (imaging_list_in : list B) (im_ac_in : list A)
  : list (list A) :=
  deal_acquisitions im_ac_in (Z.of_nat (length imaging_list_in)) imaging_list_in 1.

(** ** The data type of a map *)

Definition DATA_TYPE_DICT_19_TO_30 : gmap string string :=
  list_to_map
    [("Envelope stored as signed bytes", "IMAGE STORED AS SIGNED BYTE");
     ("Image stored as Integer*2", "IMAGE STORED AS SIGNED INTEGER (2 BYTES)");
     ("Image stored as Reals", "IMAGE STORED AS FLOATING POINT NUMBER (4 BYTES)")].

(** [d.get(k)] for a key that may be [None], which no dict here holds *)
Definition dict_get (d : gmap string string) (k : option string) : option string :=
  match k with
  | Some k => d !! k
  | None => None
  end.

(** [copy_map_19_to_30]: the value given to [set_data_type] *)
Definition data_type_19_to_30 (data_type_in : option string) : option string :=
  dict_get DATA_TYPE_DICT_19_TO_30 data_type_in.

(** [copy_map_30_to_19]: the dict [data_type_dict_inv], filled by a loop
    over [iteritems()], whose order [items] the language leaves open, and
    the value given to [set_dataType] *)
Definition data_type_dict_inv (items : list (string * string)) : gmap string string :=
  fold_left (fun inv kv => <[snd kv := fst kv]> inv) items ∅.
Definition data_type_30_to_19 (items : list (string * string))
    (map_in_data_type : option string) : option string :=
  dict_get (data_type_dict_inv items) map_in_data_type.

(** ** The specimen holder on the way back *)

Definition SPECIMEN_HOLDER_30_to_19 : gmap string string :=
  list_to_map [
    ("FEI TITAN KRIOS AUTOGRID HOLDER",
     "FEI TITAN KRIOS AUTOGRID HOLDER");
    ("GATAN 626 SINGLE TILT LIQUID NITROGEN CRYO TRANSFER HOLDER",
     "GATAN LIQUID NITROGEN");
    ("GATAN 910 MULTI-SPECIMEN SINGLE TILT CRYO TRANSFER HOLDER",
     "GATAN LIQUID NITROGEN");
    ("GATAN 914 HIGH TILT LIQUID NITROGEN CRYO TRANSFER TOMOGRAPHY HOLDER",
     "GATAN LIQUID NITROGEN");
    ("GATAN 915 DOUBLE TILT LIQUID NITROGEN CRYO TRANSFER HOLDER",
     "GATAN LIQUID NITROGEN");
    ("GATAN CHDT 3504 DOUBLE TILT HIGH RESOLUTION NITROGEN COOLING HOLDER",
     "GATAN LIQUID NITROGEN");
    ("GATAN CT3500 SINGLE TILT LIQUID NITROGEN CRYO TRANSFER HOLDER",
     "GATAN LIQUID NITROGEN");
    ("GATAN CT3500TR SINGLE TILT ROTATION LIQUID NITROGEN CRYO TRANSFER HOLDER",
     "GATAN LIQUID NITROGEN");
    ("GATAN HC 3500 SINGLE TILT HEATING/NITROGEN COOLING HOLDER",
     "GATAN LIQUID NITROGEN");
    ("GATAN HCHDT 3010 DOUBLE TILT HIGH RESOLUTION HELIUM COOLING HOLDER",
     "GATAN HELIUM");
    ("GATAN HCHST 3008 SINGLE TILT HIGH RESOLUTION HELIUM COOLING HOLDER",
     "GATAN HELIUM");
    ("GATAN HELIUM",
     "GATAN HELIUM");
    ("GATAN LIQUID NITROGEN",
     "GATAN LIQUID NITROGEN");
    ("GATAN UHRST 3500 SINGLE TILT ULTRA HIGH RESOLUTION NITROGEN COOLING HOLDER ",
     "GATAN LIQUID NITROGEN");
    ("GATAN ULTDT ULTRA LOW TEMPERATURE DOUBLE TILT HELIUM COOLING HOLDER",
     "GATAN HELIUM");
    ("GATAN ULTST ULTRA LOW TEMPERATURE SINGLE TILT HELIUM COOLING HOLDER",
     "GATAN HELIUM");
    ("HOME BUILD",
     "HOME BUILD");
    ("JEM3400FSC CRYOHOLDER",
     "JEOL");
    ("JEOL ",
     "JEOL");
    ("JEOL 3200FSC CRYOHOLDER",
     "JEOL 3200FSC CRYOHOLDER");
    ("OTHER",
     "OTHER");
    ("PHILIPS ROTATION HOLDER",
     "PHILIPS ROTATION HOLDER");
    ("SIDE ENTRY, EUCENTRIC",
     "SIDE ENTRY, EUCENTRIC");
    ("JEOL3200FSC CRYOHOLDER",
     "JEOL 3200FSC CRYOHOLDER")].

(** [translate_3_0_to_1_9]: the value given to [set_specimenHolderModel];
    [x or 'OTHER'] takes ['OTHER'] for [None] and for the empty string *)
Definition specimen_holder_model_out (specimen_holder_model : option string) : string :=
  let specimen_holder_model_in :=
    match specimen_holder_model with
    | Some s => if String.eqb s "" then "OTHER" else s
    | None => "OTHER"
    end in
  match SPECIMEN_HOLDER_30_to_19 !! specimen_holder_model_in with
  | Some v => v
  | None => specimen_holder_model_in
  end.

(** ** Sites on the way forward *)

(** [translate_1_9_to_3_0]: the [sites] element *)
Definition set_sites (dep_in : depType) : sitesType :=
  {| deposition := depositionSite dep_in; last_processing := processingSite dep_in |}.

(** ** The detector on the way back *)

Definition allowed_detectors_19 : list string :=
  ["AGFA SCIENTA FILM"; "KODAK 4489 FILM"; "KODAK SO-163 FILM"; "GENERIC FILM";
   "GENERIC IMAGE PLATES"; "DIRECT ELECTRON DE-10 (5k x 4k)";
   "DIRECT ELECTRON DE-12 (4k x 3k)"; "DIRECT ELECTRON DE-16 (4k x 4k)";
   "DIRECT ELECTRON DE-20 (5k x 3k)"; "DIRECT ELECTRON DE-64 (8k x 8k)"; "FALCON II";
   "FEI CETA (4k x 4k)"; "FEI EAGLE (2k x 2k)"; "FEI EAGLE (4k x 4k)";
   "FEI FALCON I (4k x 4k)"; "FEI FALCON II (4k x 4k)"; "FEI FALCON III (4k x 4k)";
   "GATAN MULTISCAN"; "GATAN ORIUS SC200 (2k x 2k)"; "GATAN ORIUS SC600 (2.7k x 2.7k)";
   "GATAN ORIUS SC1000 (4k x 2.7k)"; "GATAN ULTRASCAN 1000 (2k x 2k)";
   "GATAN ULTRASCAN 4000 (4k x 4k)"; "GATAN ULTRASCAN 10000 (10k x 10k)"; "GATAN K2 (4k x 4k)";
   "GATAN K2 BASE (4k x 4k)"; "GATAN K2 SUMMIT (4k x 4k)"; "GATAN K2 IS (4k x 4k)";
   "GATAN K2 QUANTUM (4k x 4k)"; "GENERIC GATAN (2k x 2k)"; "GENERIC GATAN (4k x 4k)";
   "GENERIC GATAN"; "PROSCAN TEM-PIV (2k x 2k)"; "SIA 15C (3k x 3k)";
   "TVIPS TEMCAM-F816 (8k x 8k)"; "TVIPS TEMCAM-F415 (4k x 4k)"; "TVIPS TEMCAM-F416 (4k x 4k)";
   "TVIPS TEMCAM-F216 (2k x 2k)"; "TVIPS TEMCAM-F224 (2k x 2k)"; "GENERIC TVIPS (2k x 2k)";
   "GENERIC TVIPS (4k x 4k)"; "GENERIC TVIPS"; "GENERIC CCD (2k x 2k)";
   "GENERIC CCD (4k x 4k)"; "GENERIC CCD"; "OTHER"].

(** [translate_3_0_to_1_9]: [for im_rec_in in im_recs], each recording
    given by its [film_or_detector_model], that by its [valueOf_]; the
    object is the [detector] of the v1.9 imaging *)
Definition set_detector_from (im_recs : list (option (option string)))
  : M (option string) unit :=
  for_each im_recs
    (fun _ fod =>
       match fod with
       | Some det_model_in =>
           if opt_mem det_model_in allowed_detectors_19
           then match det_model_in with
                | Some d => set_member d
                | None => ret tt
                end
           else set_member "OTHER"
       | None => ret tt
       end)
    tt.

(** the detector written for an imaging with one detector, forward and
    back *)
Definition detector_there_and_back (self : translator) (detector_in : string)
  : option string :=
  let fod := member_after (set_film_or_detector_model (Some detector_in)) self in
  snd (snd (set_detector_from [Some fod] (self, None))).

(** ** The command line *)

Definition set_validate (self : translator) (to_validate : bool) : translator :=
  {| warning_level := warning_level self; validate_xml_out := to_validate;
     relaxed := relaxed self; roundtrip := roundtrip self; log := log self |}.
Definition set_v30_schema (self : translator) (is_relaxed : bool) : translator :=
  {| warning_level := warning_level self; validate_xml_out := validate_xml_out self;
     relaxed := is_relaxed; roundtrip := roundtrip self; log := log self |}.

(** [sys.exit(msg)] *)
Definition SystemExit (msg : string) : exn := Exception "SystemExit" msg.

(** what [parser.parse_args()] gives: the options, and the arguments
    that are left *)
Record options := {
  inputSchema : string;
  outputSchema : string;
  outputFile : option string;
  opt_warning_level : Z;                 (* [warning_level] *)
  opt_validate : bool;                   (* [validate] *)
  opt_relaxed : bool;                    (* [relaxed] *)
  opt_roundtrip : bool                   (* [roundtrip] *)
}.

Inductive routine : Type :=
| translate_1_9_to_3_0
| translate_1_9_to_1_9
| translate_3_0_to_1_9.

(** a call of a conversion routine: the routine, the translator it is
    called on, the input file and the output file *)
Record conversion := {
  conv_routine : routine;
  conv_translator : translator;
  conv_input_file : string;
  conv_output_file : option string
}.

Definition not_supported (o : options) : string :=
  "Conversion from version " +:+ inputSchema o +:+ " to " +:+ outputSchema o
  +:+ " not supported!".

Section Main.
(** how a conversion ends *)
Variable convert : conversion -> result unit.

(** the call of a routine: it is recorded, and it ends as [convert] says *)
Definition call_routine (r : routine) (input_file : string) (o : options)
  : M (list conversion) unit :=
  let! translator := get_self in
  let c := {| conv_routine := r; conv_translator := translator;
              conv_input_file := input_file; conv_output_file := outputFile o |} in
  modify (fun calls => calls ++ [c]) ;;;
  lift (convert c).

(** [main], from the check of the arguments on.  The translator of the
    state is the one [main] creates. *)
Definition main (o : options) (args : list string) : M (list conversion) unit :=
  let! input_file :=
    match args with
    | [] => raise (SystemExit "No input file specified!")
    | input_file :: _ => ret input_file
    end in
  (if (negb (String.eqb (inputSchema o) "1.9") && negb (String.eqb (outputSchema o) "3.0"))
      && (negb (String.eqb (inputSchema o) "3.0") && negb (String.eqb (outputSchema o) "1.9"))
   then raise (SystemExit (not_supported o))
   else ret tt) ;;;
  (fun st =>
     let translator := init in
     let translator := set_warning_level translator (opt_warning_level o) in
     let translator := set_validate translator (opt_validate o) in
     let translator := set_v30_schema translator (opt_relaxed o) in
     let translator := set_roundtrip translator (opt_roundtrip o) in
     (Ok tt, (translator, snd st))) ;;;
  (if String.eqb (inputSchema o) "1.9" && String.eqb (outputSchema o) "3.0"
   then call_routine translate_1_9_to_3_0 input_file o else ret tt) ;;;
  (if String.eqb (inputSchema o) "1.9" && String.eqb (outputSchema o) "1.9"
   then call_routine translate_1_9_to_1_9 input_file o else ret tt) ;;;
  (if String.eqb (inputSchema o) "3.0" && String.eqb (outputSchema o) "1.9"
   then call_routine translate_3_0_to_1_9 input_file o else ret tt).

(** the routine for a pair of schema versions, if there is one *)
Definition routine_for (input output : string) : option routine :=
  if String.eqb input "1.9" && String.eqb output "3.0" then Some translate_1_9_to_3_0
  else if String.eqb input "1.9" && String.eqb output "1.9" then Some translate_1_9_to_1_9
  else if String.eqb input "3.0" && String.eqb output "1.9" then Some translate_3_0_to_1_9
  else None.

(** the translator that [main] sets up *)
Definition translator_of (o : options) : translator :=
  set_roundtrip
    (set_v30_schema
       (set_validate (set_warning_level init (opt_warning_level o)) (opt_validate o))
       (opt_relaxed o))
    (opt_roundtrip o).
End Main.

(** ** Validation of a file against a schema *)

Section Validate.
(** The files: [open(name, 'r')] gives the text of a file that can be
    read and raises [IOError] otherwise. *)
Variable files : string -> option string.
(** [isinstance(e, cls)] for the exception classes of [lxml] and
    [IOError] *)
Variable is_instance : exn -> string -> bool.
(** [etree.fromstring(text, parser)], with the parser given by the text
    of its schema; the making of the parser from the text of a schema
    ([etree.XML], [etree.XMLSchema], [etree.XMLParser]); and
    [show_validation_errors] *)
Variable fromstring : string -> string -> result unit.
Variable make_parser : string -> result string.
Variable show_validation_errors : string -> string -> result unit.

(** [EMDBXMLTranslator.validate_file].  When [open] raises, the handler
    returns [False], and then the [finally] clause reads [xml_file],
    which was never bound: the [UnboundLocalError] takes the place of
    the return. *)
Definition validate_file (the_parser xml_filename : string) : result bool :=
  match files xml_filename with
  | Some text =>
      match fromstring text the_parser with
      | Ok _ => Ok true
      | Raise e =>
          if is_instance e "XMLSyntaxError" then Ok false
          else if is_instance e "XMLSchemaError" then Ok false
          else if is_instance e "IOError" then Ok false
          else Raise e
      end
  | None => Raise (UnboundLocalError "xml_file")
  end.

(** [EMDBXMLTranslator.validate]; the same happens to [in_schema] *)
Definition validate (in_xml in_schema_filename : string) : result bool :=
  match files in_schema_filename with
  | Some schema_doc =>
      match make_parser schema_doc with
      | Ok xml_parser =>
          match validate_file xml_parser in_xml with
          | Ok validates =>
              if negb validates then
                match show_validation_errors in_xml in_schema_filename with
                | Ok _ => Ok validates
                | Raise e => Raise e
                end
              else Ok validates
          | Raise e => Raise e
          end
      | Raise e => Raise e
      end
  | None => Raise (UnboundLocalError "in_schema")
  end.
End Validate.

(** ** Calls with keyword arguments *)

Definition TypeError (msg : string) : exn := Exception "TypeError" msg.

(** a function defined with [def]: its name, its parameters, and how
    many of them, the last ones, have a default *)
Record py_function := {
  fn_name : string;
  fn_params : list string;
  fn_defaults : nat
}.

(** The binding of the arguments of a call with [positional] positional
    arguments and the keyword arguments [keywords], in the order of the
    interpreter: too many positional arguments; then, keyword by keyword,
    a name that is no parameter or one that a positional argument has
    filled; then a parameter without a default that was left empty. *)
Definition bind_arguments (f : py_function) (positional : nat) (keywords : list string)
  : result unit :=
  let n := length (fn_params f) in
  if (n <? positional)%nat then
    Raise (TypeError (fn_name f +:+ "() takes too many arguments"))
  else
    let filled_by_position := take positional (fn_params f) in
    let check (acc : result (list string)) (k : string) : result (list string) :=
      match acc with
      | Raise e => Raise e
      | Ok bound =>
          if negb (PyStr.mem k (fn_params f)) then
            Raise (TypeError (fn_name f +:+ "() got an unexpected keyword argument '"
                              +:+ k +:+ "'"))
          else if PyStr.mem k bound then
            Raise (TypeError (fn_name f +:+ "() got multiple values for keyword argument '"
                              +:+ k +:+ "'"))
          else Ok (bound ++ [k])
      end in
    match fold_left check keywords (Ok filled_by_position) with
    | Raise e => Raise e
    | Ok bound =>
        let required := take (n - fn_defaults f) (fn_params f) in
        if forallb (fun p => PyStr.mem p bound) required then Ok tt
        else Raise (TypeError (fn_name f +:+ "() takes too few arguments"))
    end.

(** a call: the arguments are bound, then the body runs *)
Definition py_call {W A} (f : py_function) (positional : nat) (keywords : list string)
    (body : M W A) : M W A :=
  lift (bind_arguments f positional keywords) ;;; body.

(** the three functions of [translate_1_9_to_3_0], as they are defined *)
Definition copy_map_19_to_30_def : py_function :=
  {| fn_name := "copy_map_19_to_30";
     fn_params := ["map_in"; "map_out"; "is_map"]; fn_defaults := 1 |}.
Definition set_final_reconstruction_def : py_function :=
  {| fn_name := "set_final_reconstruction";
     fn_params := ["final_rec"; "reconstruction"; "proc"; "spec_prep_in"; "no_apply_symm"];
     fn_defaults := 2 |}.
Definition set_base_supramolecule_def : py_function :=
  {| fn_name := "set_base_supramolecule";
     fn_params := ["supmol"; "supmol_id"; "supmol_in"; "comp_in"]; fn_defaults := 1 |}.

Section ForwardCalls.
Context {W : Type}.
(** the bodies of the three functions, and what the translation does
    after the primary map *)
Variable copy_map_19_to_30_body : bool -> M W unit.
Variable set_final_reconstruction_body : bool -> M W unit.
Variable set_base_supramolecule_body : M W unit.

(** [translate_1_9_to_3_0]: the primary map, [map_in] being
    [xml_in.get_map()], given by whether it is there *)
Definition translate_primary_map (map_in : bool) : M W unit :=
  if map_in then
    py_call copy_map_19_to_30_def 2 ["is_map"; "spec_prep_in"] (copy_map_19_to_30_body true)
  else ret tt.

(** the calls for a mask and for a slice of the supplement *)
Definition translate_mask_or_slice : M W unit :=
  py_call copy_map_19_to_30_def 2 [] (copy_map_19_to_30_body false).

(** the call of [set_final_reconstruction] in the add-on of each method *)
Definition final_reconstruction_call (em_method : option string) : M W unit :=
  if opt_eqb em_method Constants.EMM_SP then
    py_call set_final_reconstruction_def 4 [] (set_final_reconstruction_body false)
  else if opt_eqb em_method Constants.EMM_HEL then
    py_call set_final_reconstruction_def 4 ["no_apply_symm"; "helical"]
      (set_final_reconstruction_body true)
  else if opt_eqb em_method Constants.EMM_TOM then
    py_call set_final_reconstruction_def 4 [] (set_final_reconstruction_body false)
  else if opt_eqb em_method Constants.EMM_STOM then
    py_call set_final_reconstruction_def 4 [] (set_final_reconstruction_body false)
  else if opt_eqb em_method "twoDCrystal" then
    py_call set_final_reconstruction_def 4 ["no_apply_symm"] (set_final_reconstruction_body true)
  else ret tt.

(** the call of [set_base_supramolecule] for a sample component of type
    [c_type] whose virus, cellular component or ribosome is there; the
    other component types do not call it *)
Definition base_supramolecule_call (c_type : string) : M W unit :=
  if String.eqb c_type "virus" then
    py_call set_base_supramolecule_def 4 [] set_base_supramolecule_body
  else if String.eqb c_type "cellular-component" then
    py_call set_base_supramolecule_def 4 [] set_base_supramolecule_body
  else if PyStr.mem c_type ["ribosome-eukaryote"; "ribosome-prokaryote"] then
    py_call set_base_supramolecule_def 4 ["rib_cat"] set_base_supramolecule_body
  else ret tt.
End ForwardCalls.

(** ** External references *)

(** v1.9 [externalRefType] of a citation *)
Record externalRefType := {
  ref_type : option string;
  ref_valueOf_ : option string
}.

(** v3.0 [external_referencesType], of a citation and of a molecule *)
Record external_referencesType := {
  xref_type : option string;
  xref_valueOf_ : option string
}.

(** v1.9 [externalReferencesType] of a molecule *)
Record externalReferencesType := {
  refUniProt : list (option string);
  refGo : list (option string);
  refInterpro : list (option string)
}.

Definition externalReferencesType_new : externalReferencesType :=
  {| refUniProt := []; refGo := []; refInterpro := [] |}.
Definition add_refUniProt (v : option string) (x : externalReferencesType)
  : externalReferencesType :=
  {| refUniProt := refUniProt x ++ [v]; refGo := refGo x; refInterpro := refInterpro x |}.
Definition add_refGo (v : option string) (x : externalReferencesType)
  : externalReferencesType :=
  {| refUniProt := refUniProt x; refGo := refGo x ++ [v]; refInterpro := refInterpro x |}.
Definition add_refInterpro (v : option string) (x : externalReferencesType)
  : externalReferencesType :=
  {| refUniProt := refUniProt x; refGo := refGo x; refInterpro := refInterpro x ++ [v] |}.

(** the argument [x_refs_in] of [add_mol_references]: [None], a list
    ([isinstance(x_refs_in, list)]) or one object *)
Inductive x_refs_arg : Type :=
| x_refs_none
| x_refs_list (l : list externalReferencesType)
| x_refs_one (x : externalReferencesType).

(** v3.0 [molecular_weight_type] *)
Record molecular_weight_type := {
  experimental : option value_and_units;
  theoretical : option value_and_units;
  mw_method : option string
}.

(** the weights of a v1.9 sample or component *)
Record weights_19 := {
  molWtTheo : option value_and_units;
  molWtExp : option value_and_units;
  molWtMethod : option string
}.

(** [const.U_MDA] *)
Definition U_MDA : string := "MDa".

(** The functions nested in [translate_1_9_to_3_0]. *)
Module To30.

(** [add_external_references]; [ref_out] is the list that
    [ref_out.add_external_references] appends to *)
Definition add_external_references (ext_ref_in : list externalRefType)
  : M (list external_referencesType) unit :=
  for_each ext_ref_in
    (fun _ ref =>
       match ref_type ref with
       | Some t =>
           modify (fun ref_out =>
                     ref_out ++ [{| xref_type := Some (PyStr.upper t);
                                    xref_valueOf_ := ref_valueOf_ ref |}])
       | None => raise (AttributeError "upper")
       end) tt.

Section MolReferences.
Context {W : Type}.
Variable adder_func : external_referencesType -> M W unit.

(** [add_reference] *)
Definition add_reference (x_ref_in : externalReferencesType) : M W unit :=
  for_each (refUniProt x_ref_in)
    (fun _ ref_uni_prot =>
       match ref_uni_prot with
       | Some v => adder_func {| xref_type := Some "UNIPROTKB";
                                 xref_valueOf_ := Some (PyStr.upper v) |}
       | None => ret tt
       end) tt ;;;
  for_each (refGo x_ref_in)
    (fun _ ref_go =>
       match ref_go with
       | Some v => adder_func {| xref_type := Some "GO"; xref_valueOf_ := Some v |}
       | None => ret tt
       end) tt ;;;
  for_each (refInterpro x_ref_in)
    (fun _ ref_inter =>
       match ref_inter with
       | Some v => adder_func {| xref_type := Some "INTERPRO"; xref_valueOf_ := Some v |}
       | None => ret tt
       end) tt.

(** [add_mol_references] *)
Definition add_mol_references (x_refs_in : x_refs_arg) : M W unit :=
  match x_refs_in with
  | x_refs_none => ret tt
  | x_refs_list l => for_each l (fun _ x_ref_in => add_reference x_ref_in) tt
  | x_refs_one x => add_reference x
  end.
End MolReferences.

(** [set_mol_weight].  [setter_func] is handed the new object before its
    members are set; it keeps the object itself, so what it holds at the
    end is the object with the members set. *)
Definition set_mol_weight {W} (setter_func : molecular_weight_type -> M W unit)
    (wt_theo_in wt_exp_in : option value_and_units) (wt_meth_in : option string)
  : M W unit :=
  match wt_theo_in, wt_exp_in, wt_meth_in with
  | None, None, None => ret tt
  | _, _, _ =>
      setter_func
        {| experimental :=
             match wt_exp_in with
             | Some w => Some {| valueOf_ := valueOf_ w; units := units w |}
             | None => None
             end;
           theoretical :=
             match wt_theo_in with
             | Some w => Some {| valueOf_ := valueOf_ w; units := units w |}
             | None => None
             end;
           mw_method := wt_meth_in |}
  end.

End To30.

(** The functions nested in [translate_3_0_to_1_9]. *)
Module To19.

(** [add_external_references]: [ref_type_low] is a local of the function,
    unbound until a reference with a type has been seen, and keeps its
    value from one pass of the loop to the next *)
Definition add_external_references (ext_refs_in : list external_referencesType)
  : M (list externalRefType) unit :=
  for_each ext_refs_in
    (fun (ref_type_low : option string) ext_ref_in =>
       let ref_type_low :=
         match xref_type ext_ref_in with
         | Some ref_type => Some (PyStr.lower ref_type)
         | None => ref_type_low
         end in
       match ref_type_low with
       | None => raise (UnboundLocalError "ref_type_low")
       | Some low =>
           modify (fun ref_out =>
                     ref_out ++ [{| ref_type := Some low;
                                    ref_valueOf_ := xref_valueOf_ ext_ref_in |}]) ;;;
           ret ref_type_low
       end) None ;;;
  ret tt.

(** [copy_external_references] *)
Definition copy_external_references {W}
    (getter : M W (option (list external_referencesType)))
    (setter : externalReferencesType -> M W unit) : M W unit :=
  let! x_refs_in := getter in
  match x_refs_in with
  | None => ret tt
  | Some x_refs_in =>
      if (0 <? length x_refs_in)%nat then
        let! filled_in :=
          with_new externalReferencesType_new
            (for_each x_refs_in
               (fun _ x_ref_in =>
                  let ref_type := xref_type x_ref_in in
                  if opt_eqb ref_type "UNIPROTKB" then
                    match xref_valueOf_ x_ref_in with
                    | Some v => modify (add_refUniProt (Some (PyStr.upper v)))
                    | None => raise (AttributeError "upper")
                    end
                  else if opt_eqb ref_type "GO" then
                    modify (add_refGo (xref_valueOf_ x_ref_in))
                  else if opt_eqb ref_type "INTERPRO" then
                    modify (add_refInterpro (xref_valueOf_ x_ref_in))
                  else ret tt) tt) in
        setter (snd filled_in)
      else ret tt
  end.

(** [set_mol_weight]; [comp] is the v1.9 object in the state *)
Definition set_mol_weight (wt_in : option molecular_weight_type) (meth : bool)
  : M weights_19 unit :=
  match wt_in with
  | None => ret tt
  | Some wt_in =>
      match experimental wt_in with
      | Some exp_weight =>
          modify (fun comp =>
            {| molWtTheo := molWtTheo comp;
               molWtExp := Some {| valueOf_ := valueOf_ exp_weight; units := Some U_MDA |};
               molWtMethod := molWtMethod comp |})
      | None => ret tt
      end ;;;
      match theoretical wt_in with
      | Some theo_weight =>
          modify (fun comp =>
            {| molWtTheo := Some {| valueOf_ := valueOf_ theo_weight; units := Some U_MDA |};
               molWtExp := molWtExp comp;
               molWtMethod := molWtMethod comp |})
      | None => ret tt
      end ;;;
      if meth then
        check_set (ret (mw_method wt_in))
          (fun v => modify (fun comp =>
             {| molWtTheo := molWtTheo comp; molWtExp := molWtExp comp;
                molWtMethod := Some v |}))
          None
      else ret tt
  end.

End To19.

(** the references of a v1.9 citation taken to v3.0 and back *)
Definition citation_references_there_and_back (self : translator)
    (ext_ref_in : list externalRefType) : result (list externalRefType) :=
  match To30.add_external_references ext_ref_in (self, []) with
  | (Ok _, (self', ref_out)) =>
      match To19.add_external_references ref_out (self', []) with
      | (Ok _, (_, back)) => Ok back
      | (Raise e, _) => Raise e
      end
  | (Raise e, _) => Raise e
  end.

(** the references of a v1.9 molecule taken to v3.0, onto an object
    without references, and back *)
Definition mol_references_there_and_back (self : translator) (x_refs_in : x_refs_arg)
  : result (option externalReferencesType) :=
  match To30.add_mol_references
          (fun r => modify (fun refs => refs ++ [r])) x_refs_in (self, []) with
  | (Ok _, (self', external_references)) =>
      match To19.copy_external_references (W := option externalReferencesType)
              (ret (Some external_references))
              (fun x => modify (fun _ => Some x)) (self', None) with
      | (Ok _, (_, back)) => Ok back
      | (Raise e, _) => Raise e
      end
  | (Raise e, _) => Raise e
  end.

(** the members of a list that are not [None] *)
Definition given (l : list (option string)) : list string := omap id l.

(** the weights of a v1.9 sample ([meth] is [true]) or component taken to
    v3.0 and back onto a new v1.9 object *)
Definition weights_there_and_back (self : translator) (w : weights_19) (meth : bool)
  : result weights_19 :=
  match To30.set_mol_weight (W := option molecular_weight_type)
          (fun mol_wt => modify (fun _ => Some mol_wt))
          (molWtTheo w) (molWtExp w) (if meth then molWtMethod w else None)
          (self, None) with
  | (Ok _, (self', molecular_weight)) =>
      match To19.set_mol_weight molecular_weight meth
              (self', {| molWtTheo := None; molWtExp := None; molWtMethod := None |}) with
      | (Ok _, (_, back)) => Ok back
      | (Raise e, _) => Raise e
      end
  | (Raise e, _) => Raise e
  end.

(** what [To19.add_external_references] writes for a reference that is
    given the lower-case type [low] *)
Definition reference_of_type (low : option string) (x : external_referencesType)
  : externalRefType :=
  {| ref_type := low; ref_valueOf_ := xref_valueOf_ x |}.

(** a weight with its units replaced by [const.U_MDA] *)
Definition in_MDa (w : value_and_units) : value_and_units :=
  {| valueOf_ := valueOf_ w; units := Some U_MDA |}.

(** the v3.0 references of one type for a list of values *)
Definition references_of_type (t : string) (values : list string)
  : list external_referencesType :=
  map (fun v => {| xref_type := Some t; xref_valueOf_ := Some v |}) values.

(** the v3.0 references that [To30.add_reference] adds for one v1.9
    object: the UniProt ones in upper case, then the GO ones, then the
    InterPro ones *)
Definition references_30 (x : externalReferencesType) : list external_referencesType :=
  references_of_type "UNIPROTKB" (map PyStr.upper (given (refUniProt x)))
  ++ references_of_type "GO" (given (refGo x))
  ++ references_of_type "INTERPRO" (given (refInterpro x)).

(** ** Specimen preparations *)

(** v1.9 [vitrifType] *)
Record vitrifType := {
  cryogenName : option string;
  humidity : option pyval;
  temperature : option value_and_units;
  vitrif_instrument : option string;
  vitrif_details : option string;
  timeResolvedState : option string;
  vitrif_method : option string
}.

(** v1.9 [bufferType] *)
Record bufferType := {
  buf_ph : option pyval;
  buf_details : option string
}.

(** v1.9 [specimenPreparationType], as far as [set_base_preparation] reads it *)
Record specimenPreparationType := {
  specimenConc : option value_and_units;
  sp_buffer : option bufferType;
  sp_staining : option string;
  specimenSupportDetails : option string;
  crystalGrowDetails : option string
}.

(** v3.0 [vitrification_type] *)
Record vitrification_type := {
  cryogen_name : option string;
  chamber_humidity : option value_and_units;
  chamber_temperature : option value_and_units;
  instrument : option string;
  vitrification_details : option string;
  timed_resolved_state : option string;
  vitrification_method : option string
}.

(** v3.0 [buffer_type] *)
Record buffer_type := {
  ph : option pyval;
  buffer_details : option string
}.

(** v3.0 [stainingType] *)
Record stainingType := {
  staining_type : option string;
  staining_details : option string
}.

(** v3.0 [grid_type] *)
Record grid_type := {
  grid_details : option string
}.

(** v3.0 [crystal_formationType] *)
Record crystal_formationType := {
  crystal_formation_details : option string
}.

(** v3.0 [base_preparation_type] and the types that extend it *)
Record base_preparation_type := {
  original_tagname_ : string;
  preparation_id : option Z;
  concentration : option value_and_units;
  buffer : option buffer_type;
  staining : option stainingType;
  grid : option grid_type;
  vitrification : option vitrification_type;
  preparation_details : option string;
  crystal_formation : option crystal_formationType
}.

Definition vitrification_type_new : vitrification_type :=
  {| cryogen_name := None; chamber_humidity := None; chamber_temperature := None;
     instrument := None; vitrification_details := None; timed_resolved_state := None;
     vitrification_method := None |}.
Definition buffer_type_new : buffer_type := {| ph := None; buffer_details := None |}.
Definition base_preparation_type_new (tagname : string) : base_preparation_type :=
  {| original_tagname_ := tagname; preparation_id := None; concentration := None;
     buffer := None; staining := None; grid := None; vitrification := None;
     preparation_details := None; crystal_formation := None |}.

Definition put_cryogen_name (v : option string) (x : vitrification_type)
  : vitrification_type :=
  {| cryogen_name := v; chamber_humidity := chamber_humidity x;
     chamber_temperature := chamber_temperature x; instrument := instrument x;
     vitrification_details := vitrification_details x;
     timed_resolved_state := timed_resolved_state x;
     vitrification_method := vitrification_method x |}.
Definition set_chamber_humidity (v : value_and_units) (x : vitrification_type)
  : vitrification_type :=
  {| cryogen_name := cryogen_name x; chamber_humidity := Some v;
     chamber_temperature := chamber_temperature x; instrument := instrument x;
     vitrification_details := vitrification_details x;
     timed_resolved_state := timed_resolved_state x;
     vitrification_method := vitrification_method x |}.
Definition set_chamber_temperature (v : value_and_units) (x : vitrification_type)
  : vitrification_type :=
  {| cryogen_name := cryogen_name x; chamber_humidity := chamber_humidity x;
     chamber_temperature := Some v; instrument := instrument x;
     vitrification_details := vitrification_details x;
     timed_resolved_state := timed_resolved_state x;
     vitrification_method := vitrification_method x |}.
Definition set_instrument (v : option string) (x : vitrification_type)
  : vitrification_type :=
  {| cryogen_name := cryogen_name x; chamber_humidity := chamber_humidity x;
     chamber_temperature := chamber_temperature x; instrument := v;
     vitrification_details := vitrification_details x;
     timed_resolved_state := timed_resolved_state x;
     vitrification_method := vitrification_method x |}.
Definition set_vitrification_details (v : string) (x : vitrification_type)
  : vitrification_type :=
  {| cryogen_name := cryogen_name x; chamber_humidity := chamber_humidity x;
     chamber_temperature := chamber_temperature x; instrument := instrument x;
     vitrification_details := Some v; timed_resolved_state := timed_resolved_state x;
     vitrification_method := vitrification_method x |}.
Definition set_timed_resolved_state (v : string) (x : vitrification_type)
  : vitrification_type :=
  {| cryogen_name := cryogen_name x; chamber_humidity := chamber_humidity x;
     chamber_temperature := chamber_temperature x; instrument := instrument x;
     vitrification_details := vitrification_details x; timed_resolved_state := Some v;
     vitrification_method := vitrification_method x |}.
Definition set_vitrification_method (v : string) (x : vitrification_type)
  : vitrification_type :=
  {| cryogen_name := cryogen_name x; chamber_humidity := chamber_humidity x;
     chamber_temperature := chamber_temperature x; instrument := instrument x;
     vitrification_details := vitrification_details x;
     timed_resolved_state := timed_resolved_state x; vitrification_method := Some v |}.
Definition set_ph (v : pyval) (x : buffer_type) : buffer_type :=
  {| ph := Some v; buffer_details := buffer_details x |}.
Definition set_buffer_details (v : string) (x : buffer_type) : buffer_type :=
  {| ph := ph x; buffer_details := Some v |}.
Definition set_preparation_id (v : Z) (x : base_preparation_type) : base_preparation_type :=
  {| original_tagname_ := original_tagname_ x; preparation_id := Some v;
     concentration := concentration x; buffer := buffer x; staining := staining x;
     grid := grid x; vitrification := vitrification x;
     preparation_details := preparation_details x;
     crystal_formation := crystal_formation x |}.
Definition set_concentration (v : value_and_units) (x : base_preparation_type)
  : base_preparation_type :=
  {| original_tagname_ := original_tagname_ x; preparation_id := preparation_id x;
     concentration := Some v; buffer := buffer x; staining := staining x; grid := grid x;
     vitrification := vitrification x; preparation_details := preparation_details x;
     crystal_formation := crystal_formation x |}.
Definition set_buffer (v : buffer_type) (x : base_preparation_type)
  : base_preparation_type :=
  {| original_tagname_ := original_tagname_ x; preparation_id := preparation_id x;
     concentration := concentration x; buffer := Some v; staining := staining x;
     grid := grid x; vitrification := vitrification x;
     preparation_details := preparation_details x;
     crystal_formation := crystal_formation x |}.
Definition set_staining (v : stainingType) (x : base_preparation_type)
  : base_preparation_type :=
  {| original_tagname_ := original_tagname_ x; preparation_id := preparation_id x;
     concentration := concentration x; buffer := buffer x; staining := Some v;
     grid := grid x; vitrification := vitrification x;
     preparation_details := preparation_details x;
     crystal_formation := crystal_formation x |}.
Definition set_grid (v : grid_type) (x : base_preparation_type) : base_preparation_type :=
  {| original_tagname_ := original_tagname_ x; preparation_id := preparation_id x;
     concentration := concentration x; buffer := buffer x; staining := staining x;
     grid := Some v; vitrification := vitrification x;
     preparation_details := preparation_details x;
     crystal_formation := crystal_formation x |}.
Definition set_vitrification (v : vitrification_type) (x : base_preparation_type)
  : base_preparation_type :=
  {| original_tagname_ := original_tagname_ x; preparation_id := preparation_id x;
     concentration := concentration x; buffer := buffer x; staining := staining x;
     grid := grid x; vitrification := Some v;
     preparation_details := preparation_details x;
     crystal_formation := crystal_formation x |}.
Definition set_preparation_details (v : string) (x : base_preparation_type)
  : base_preparation_type :=
  {| original_tagname_ := original_tagname_ x; preparation_id := preparation_id x;
     concentration := concentration x; buffer := buffer x; staining := staining x;
     grid := grid x; vitrification := vitrification x; preparation_details := Some v;
     crystal_formation := crystal_formation x |}.
Definition set_crystal_formation (v : crystal_formationType) (x : base_preparation_type)
  : base_preparation_type :=
  {| original_tagname_ := original_tagname_ x; preparation_id := preparation_id x;
     concentration := concentration x; buffer := buffer x; staining := staining x;
     grid := grid x; vitrification := vitrification x;
     preparation_details := preparation_details x; crystal_formation := Some v |}.

(** [const.U_PERCENTAGE] and [const.U_KEL] *)
Definition U_PERCENTAGE : string := "percentage".
Definition U_KEL : string := "K".

(** [set_base_preparation], nested in [translate_1_9_to_3_0]: the
    statements on [prep].  It reads the variable [i] of the function
    around it, which is the loop variable at the time of the call. *)
Definition set_base_preparation (i : nat) (spec_prep_in : option specimenPreparationType)
    (vitr_in : option (list vitrifType)) : M base_preparation_type unit :=
  match spec_prep_in with
  | Some spec_prep_in =>
      match specimenConc spec_prep_in with
      | Some conc_in =>
          modify (set_concentration {| valueOf_ := valueOf_ conc_in; units := Some "mg/mL" |})
      | None => ret tt
      end ;;;
      match sp_buffer spec_prep_in with
      | Some buf_in =>
          let! buf :=
            with_new buffer_type_new
              (check_set (ret (buf_ph buf_in)) (fun v => modify (set_ph v)) None ;;;
               check_set (ret (buf_details buf_in)) (fun v => modify (set_buffer_details v))
                 None) in
          modify (set_buffer (snd buf))
      | None => ret tt
      end ;;;
      match sp_staining spec_prep_in with
      | Some stain_in =>
          modify (set_staining {| staining_type := Some "NEGATIVE";
                                  staining_details := Some stain_in |})
      | None => ret tt
      end ;;;
      match specimenSupportDetails spec_prep_in with
      | Some grid_in => modify (set_grid {| grid_details := Some grid_in |})
      | None => ret tt
      end
  | None => ret tt
  end ;;;
  match vitr_in with
  | Some vitr_in =>
      let! v_in := list_getitem vitr_in i in
      let! vitr :=
        with_new vitrification_type_new
          (on_member cryogen_name put_cryogen_name (set_cryogen_name (cryogenName v_in)) ;;;
           match humidity v_in with
           | Some humidity_in =>
               modify (set_chamber_humidity
                         {| valueOf_ := humidity_in; units := Some U_PERCENTAGE |})
           | None => ret tt
           end ;;;
           match temperature v_in with
           | Some temperature_in =>
               modify (set_chamber_temperature
                         {| valueOf_ := valueOf_ temperature_in; units := Some U_KEL |})
           | None => ret tt
           end ;;;
           modify (set_instrument (vitrif_instrument v_in)) ;;;
           check_set (ret (vitrif_details v_in))
             (fun v => modify (set_vitrification_details v)) None ;;;
           check_set (ret (timeResolvedState v_in))
             (fun v => modify (set_timed_resolved_state v)) None ;;;
           check_set (ret (vitrif_method v_in))
             (fun v => modify (set_vitrification_method v)) None) in
      modify (set_vitrification (snd vitr))
  | None => ret tt
  end ;;;
  match pack_crystal_grow_details (option_map crystalGrowDetails spec_prep_in) with
  | Some details => modify (set_preparation_details details)
  | None => ret tt
  end.

(** [translate_1_9_to_3_0]: the loop that fills [spec_prep_list], the
    state; [vitr_in] is the list that [exp_in.get_vitrification()]
    returns.  A preparation is added to the list and then given its id,
    so the list holds it with the id. *)
Definition specimen_preparations (em_method : option string)
    (spec_prep_in : option specimenPreparationType) (vitr_in : list vitrifType)
  : M (list base_preparation_type) unit :=
  let n_sp := Nat.max 1 (length vitr_in) in
  for_each (seq 0 n_sp)
    (fun (j : Z) (i : nat) =>
       let based (tagname : string)
         : M (list base_preparation_type) (option base_preparation_type) :=
         let! prep := with_new (base_preparation_type_new tagname)
                        (set_base_preparation i spec_prep_in (Some vitr_in)) in
         ret (Some (snd prep)) in
       let! prep :=
         if opt_eqb em_method Constants.EMM_TOM then based "tomography_preparation"
         else if opt_eqb em_method Constants.EMM_SP then based "single_particle_preparation"
         else if opt_eqb em_method Constants.EMM_STOM
         then based "subtomogram_averaging_preparation"
         else if opt_eqb em_method Constants.EMM_HEL then based "helical_preparation"
         else if opt_eqb em_method "twoDCrystal" then
           let! prep :=
             with_new (base_preparation_type_new "crystallography_preparation")
               (set_base_preparation i spec_prep_in (Some vitr_in) ;;;
                let! x_form :=
                  with_new {| crystal_formation_details := None |}
                    (match spec_prep_in with
                     | Some spec_prep_in =>
                         check_set (ret (crystalGrowDetails spec_prep_in))
                           (fun v => modify (fun _ => {| crystal_formation_details := Some v |}))
                           None
                     | None => raise (AttributeError "get_crystalGrowDetails")
                     end) in
                modify (set_crystal_formation (snd x_form))) in
           ret (Some (snd prep))
         else ret None in
       match prep with
       | Some prep => modify (fun spec_prep_list => spec_prep_list ++ [set_preparation_id j prep])
       | None => ret tt
       end ;;;
       ret (j + 1)) 1 ;;;
  ret tt.

(** the vitrification of the preparation [p] holds what the v1.9
    vitrification [v] holds, apart from the name of the cryogen *)
Definition carries_vitrification (v : vitrifType) (p : base_preparation_type) : Prop :=
  exists vitr,
    vitrification p = Some vitr
    /\ instrument vitr = vitrif_instrument v
    /\ vitrification_details vitr = vitrif_details v
    /\ timed_resolved_state vitr = timeResolvedState v
    /\ vitrification_method vitr = vitrif_method v
    /\ chamber_humidity vitr
       = option_map (fun h => {| valueOf_ := h; units := Some U_PERCENTAGE |}) (humidity v)
    /\ chamber_temperature vitr
       = option_map (fun t => {| valueOf_ := valueOf_ t; units := Some U_KEL |})
           (temperature v).

(** ** The file and the grid of a map *)

(** v1.9 [mapFileType] *)
Record mapFileType := {
  file_valueOf_ : option string;
  file_type : option string;
  file_format : option string;
  file_sizeKb : option Z
}.

(** v1.9 [dimensionType], [originType] and [limitType] *)
Record dimensionType := {
  numRows : option Z;
  numColumns : option Z;
  numSections : option Z
}.
Record originType_19 := {
  originRow : option Z;
  originCol : option Z;
  originSec : option Z
}.
Record limitType := {
  limitRow : Z;
  limitCol : Z;
  limitSec : Z
}.

(** the v1.9 map, as far as its file and its grid go *)
Record map_grid_19 := {
  mapType_file : option mapFileType;
  mapType_dimensions : option dimensionType;
  mapType_origin : option originType_19;
  mapType_limit : option limitType
}.

(** v3.0 [integer_vector_map_type] and [originType] *)
Record integer_vector_map_type := {
  dim_row : option Z;
  dim_col : option Z;
  dim_sec : option Z
}.
Record originType_30 := {
  origin_col : option Z;
  origin_row : option Z;
  origin_sec : option Z
}.

(** the v3.0 map, as far as its file and its grid go *)
Record map_grid_30 := {
  map_file : option string;
  map_format : option string;
  map_size_kbytes : option Z;
  map_dimensions : option integer_vector_map_type;
  map_origin : option originType_30
}.

Definition map_grid_30_new : map_grid_30 :=
  {| map_file := None; map_format := None; map_size_kbytes := None;
     map_dimensions := None; map_origin := None |}.
Definition map_grid_19_new : map_grid_19 :=
  {| mapType_file := None; mapType_dimensions := None; mapType_origin := None;
     mapType_limit := None |}.
Definition set_map_format (v : option string) (m : map_grid_30) : map_grid_30 :=
  {| map_file := map_file m; map_format := v; map_size_kbytes := map_size_kbytes m;
     map_dimensions := map_dimensions m; map_origin := map_origin m |}.
Definition set_map_size_kbytes (v : option Z) (m : map_grid_30) : map_grid_30 :=
  {| map_file := map_file m; map_format := map_format m; map_size_kbytes := v;
     map_dimensions := map_dimensions m; map_origin := map_origin m |}.
Definition set_map_file (v : option string) (m : map_grid_30) : map_grid_30 :=
  {| map_file := v; map_format := map_format m; map_size_kbytes := map_size_kbytes m;
     map_dimensions := map_dimensions m; map_origin := map_origin m |}.
Definition set_map_dimensions (v : integer_vector_map_type) (m : map_grid_30) : map_grid_30 :=
  {| map_file := map_file m; map_format := map_format m;
     map_size_kbytes := map_size_kbytes m; map_dimensions := Some v;
     map_origin := map_origin m |}.
Definition set_map_origin (v : originType_30) (m : map_grid_30) : map_grid_30 :=
  {| map_file := map_file m; map_format := map_format m;
     map_size_kbytes := map_size_kbytes m; map_dimensions := map_dimensions m;
     map_origin := Some v |}.
Definition set_mapType_file (v : mapFileType) (m : map_grid_19) : map_grid_19 :=
  {| mapType_file := Some v; mapType_dimensions := mapType_dimensions m;
     mapType_origin := mapType_origin m; mapType_limit := mapType_limit m |}.
Definition set_mapType_dimensions (v : dimensionType) (m : map_grid_19) : map_grid_19 :=
  {| mapType_file := mapType_file m; mapType_dimensions := Some v;
     mapType_origin := mapType_origin m; mapType_limit := mapType_limit m |}.
Definition set_mapType_origin (v : originType_19) (m : map_grid_19) : map_grid_19 :=
  {| mapType_file := mapType_file m; mapType_dimensions := mapType_dimensions m;
     mapType_origin := Some v; mapType_limit := mapType_limit m |}.
Definition set_mapType_limit (v : limitType) (m : map_grid_19) : map_grid_19 :=
  {| mapType_file := mapType_file m; mapType_dimensions := mapType_dimensions m;
     mapType_origin := mapType_origin m; mapType_limit := Some v |}.

(** [copy_map_19_to_30]: the statements on the file, the dimensions and
    the origin of [map_out], the state.  The origin is read before it is
    compared with [None]. *)
Definition copy_map_grid_19_to_30 (map_in : map_grid_19) : M map_grid_30 unit :=
  match mapType_file map_in with
  | None => raise (AttributeError "get_format")
  | Some map_in_file =>
      modify (set_map_format (file_format map_in_file)) ;;;
      modify (set_map_size_kbytes (file_sizeKb map_in_file)) ;;;
      let map_filename := file_valueOf_ map_in_file in
      (if negb (opt_eqb map_filename "") then modify (set_map_file map_filename)
       else warnM 1 (Text "No file name given for a map!") ;;;
            modify (set_map_file (Some "emd_0000.map.gz"))) ;;;
      match mapType_dimensions map_in with
      | Some dim_in =>
          modify (set_map_dimensions
                    {| dim_row := numRows dim_in; dim_col := numColumns dim_in;
                       dim_sec := numSections dim_in |})
      | None => ret tt
      end ;;;
      match mapType_origin map_in with
      | Some orig_in =>
          modify (set_map_origin
                    {| origin_col := originCol orig_in; origin_row := originRow orig_in;
                       origin_sec := originSec orig_in |})
      | None => raise (AttributeError "get_originCol")
      end
  end.

(** [a + b - 1] for an [int] and a member that may be [None] *)
Definition limit_of {W} (origin : Z) (num : option Z) : M W Z :=
  match num with
  | Some n => ret (origin + n - 1)
  | None => raise (TypeError "unsupported operand type(s) for +: 'int' and 'NoneType'")
  end.

(** [origin_row = -1], then [origin_row = int(orig_row)] when [orig_row]
    is not [None]; the same for the column and the section *)
Definition origin_or_minus_one (o : option Z) : Z :=
  match o with Some v => v | None => -1 end.

(** [copy_map_30_to_19]: the statements on the file, the dimensions, the
    origin and the limit of [map_out], the state.  The members of the
    origin are integers, which [int] leaves as they are. *)
Definition copy_map_grid_30_to_19 (map_in : map_grid_30) : M map_grid_19 unit :=
  let! self := get_self in
  let! map_file_valueOf_ :=
    match map_file map_in with
    | Some map_in_file =>
        let map_in_file_lower := PyStr.lower map_in_file in
        if negb (String.eqb map_in_file_lower "") then ret (Some map_in_file_lower)
        else
          warnM 1 (Text "No file name given for a map") ;;;
          if negb (roundtrip self) then ret (Some "emd_0000.map.gz") else ret (Some "")
    | None => ret None
    end in
  modify (set_mapType_file
            {| file_valueOf_ := map_file_valueOf_; file_type := Some "map";
               file_format := map_format map_in; file_sizeKb := map_size_kbytes map_in |}) ;;;
  match map_dimensions map_in with
  | Some dim_in =>
      modify (set_mapType_dimensions
                {| numRows := dim_row dim_in; numColumns := dim_col dim_in;
                   numSections := dim_sec dim_in |})
  | None => ret tt
  end ;;;
  match map_origin map_in with
  | Some orig_in =>
      modify (set_mapType_origin
                {| originRow := Some (origin_or_minus_one (origin_row orig_in));
                   originCol := Some (origin_or_minus_one (origin_col orig_in));
                   originSec := Some (origin_or_minus_one (origin_sec orig_in)) |})
  | None => ret tt
  end ;;;
  match map_dimensions map_in, map_origin map_in with
  | Some dim_in, Some orig_in =>
      let! limit_row := limit_of (origin_or_minus_one (origin_row orig_in)) (dim_row dim_in) in
      let! limit_col := limit_of (origin_or_minus_one (origin_col orig_in)) (dim_col dim_in) in
      let! limit_sec := limit_of (origin_or_minus_one (origin_sec orig_in)) (dim_sec dim_in) in
      modify (set_mapType_limit
                {| limitRow := limit_row; limitCol := limit_col; limitSec := limit_sec |})
  | _, _ => ret tt
  end.

(** the file and the grid of a v1.9 map taken to v3.0 and back *)
Definition map_grid_there_and_back (self : translator) (map_in : map_grid_19)
  : result map_grid_19 :=
  match copy_map_grid_19_to_30 map_in (self, map_grid_30_new) with
  | (Ok _, (self', map_out)) =>
      match copy_map_grid_30_to_19 map_out (self', map_grid_19_new) with
      | (Ok _, (_, back)) => Ok back
      | (Raise e, _) => Raise e
      end
  | (Raise e, _) => Raise e
  end.

(** v1.9 dimensions with all three numbers given *)
Definition dimensions_of (d : Z * Z * Z) : dimensionType :=
  let '(rows, columns, sections) := d in
  {| numRows := Some rows; numColumns := Some columns; numSections := Some sections |}.

(** ** The energy window of a microscopy *)

(** v1.9 [eWindowType] *)
Record eWindowType := {
  eWindow_valueOf_ : option string;
  eWindow_units : option string
}.

(** v3.0 [energy_filterType] *)
Record energy_filterType := {
  egf_name : option string;
  lower_energy_threshold : option value_and_units;
  upper_energy_threshold : option value_and_units
}.

Definition set_egf_name (v : string) (egf : energy_filterType) : energy_filterType :=
  {| egf_name := Some v; lower_energy_threshold := lower_energy_threshold egf;
     upper_energy_threshold := upper_energy_threshold egf |}.
Definition set_lower_energy_threshold (v : value_and_units) (egf : energy_filterType)
  : energy_filterType :=
  {| egf_name := egf_name egf; lower_energy_threshold := Some v;
     upper_energy_threshold := upper_energy_threshold egf |}.
Definition set_upper_energy_threshold (v : value_and_units) (egf : energy_filterType)
  : energy_filterType :=
  {| egf_name := egf_name egf; lower_energy_threshold := lower_energy_threshold egf;
     upper_energy_threshold := Some v |}.

Section EnergyWindow.
(** Python's [float] on a string, which is not the translator's code. *)
Variable float_of_str : string -> result float.

(** [set_base_microscopy], the energy filter: the statements on [egf],
    the state, for [img.get_energyFilter()] and [img.get_energyWindow()] *)
Definition set_energy_filter (egf_in : option string) (energy_window_in : option eWindowType)
  : M energy_filterType unit :=
  match egf_in with
  | Some egf_in => modify (set_egf_name egf_in)
  | None => ret tt
  end ;;;
  match energy_window_in with
  | Some energy_window_in =>
      match eWindow_valueOf_ energy_window_in with
      | None => raise (TypeError "object of type 'NoneType' has no len()")
      | Some e_val_in =>
          let is_negative :=
            match e_val_in with
            | String "-" _ => true
            | _ => false
            end in
          let e_units_in := eWindow_units energy_window_in in
          let energy_window_values := PyStr.split e_val_in "-" in
          let len_energy_window_values := length energy_window_values in
          if (2 <=? len_energy_window_values)%nat then
            let! lower_text :=
              list_getitem energy_window_values (len_energy_window_values - 2) in
            let! lower := lift (float_of_str lower_text) in
            modify (set_lower_energy_threshold
                      {| valueOf_ := PyFloat (if is_negative then lower * -1 else lower)%float;
                         units := e_units_in |}) ;;;
            let! upper_text :=
              list_getitem energy_window_values (len_energy_window_values - 1) in
            let! upper := lift (float_of_str upper_text) in
            modify (set_upper_energy_threshold
                      {| valueOf_ := PyFloat upper; units := e_units_in |})
          else
            modify (set_upper_energy_threshold
                      {| valueOf_ := PyFloat (-1.0)%float; units := e_units_in |})
      end
  | None => ret tt
  end.
End EnergyWindow.

(** ** Sample inputs *)

Module SampleInputs.
(** a command line that asks for v3.0 from v3.0 *)
Definition same_version : options :=
  {| inputSchema := "3.0"; outputSchema := "3.0"; outputFile := Some "out.xml";
     opt_warning_level := 1; opt_validate := false; opt_relaxed := false;
     opt_roundtrip := false |}.

(** a vitrification in ethane with the given instrument *)
Definition plunged (instrument : string) : vitrifType :=
  {| cryogenName := Some "ETHANE"; humidity := None; temperature := None;
     vitrif_instrument := Some instrument; vitrif_details := None;
     timeResolvedState := None; vitrif_method := None |}.

(** a class of image processing without an angle assignment *)
Definition no_angle_assignment : exn := AttributeError "get_final_angle_assignment".
End SampleInputs.

(** * Properties *)

(** ** The monad *)

Lemma bind_ok {W A B} (m : M W A) (k : A -> M W B) st a st' :
  m st = (Ok a, st') -> bind m k st = k a st'.
Proof. intros H. unfold bind. rewrite H. reflexivity. Qed.

Lemma bind_raise {W A B} (m : M W A) (k : A -> M W B) st e st' :
  m st = (Raise e, st') -> bind m k st = (Raise e, st').
Proof. intros H. unfold bind. rewrite H. reflexivity. Qed.

Lemma attempt_never_raises {W A} (m : M W A) st :
  attempt m st = (Ok (fst (m st)), snd (m st)).
Proof. unfold attempt. destruct (m st); reflexivity. Qed.

(** ** The guarded copy [check_set] *)

Section CheckSetFacts.
Context {W V : Type}.
Implicit Types (get_value : M W (option V)) (set_value : V -> M W unit).
Implicit Types (transform : option (V -> M W V)) (st : translator * W).

Lemma check_set_none get_value set_value transform st st1 :
  get_value st = (Ok None, st1) ->
  check_set get_value set_value transform st = (Ok tt, st1).
Proof. intros H. unfold check_set. rewrite (bind_ok _ _ _ _ _ H). reflexivity. Qed.

Lemma check_set_transform_raises get_value set_value tr st v st1 e st2 :
  get_value st = (Ok (Some v), st1) ->
  tr v st1 = (Raise e, st2) ->
  check_set get_value set_value (Some tr) st
  = (Ok tt, warned check_set_transform_msg e st2).
Proof.
  intros Hg Ht. unfold check_set. rewrite (bind_ok _ _ _ _ _ Hg).
  unfold bind, attempt. rewrite Ht. reflexivity.
Qed.

Lemma check_set_setter_runs get_value set_value transform st v st1 v' st2 :
  get_value st = (Ok (Some v), st1) ->
  apply_transform transform v st1 = (Ok v', st2) ->
  check_set get_value set_value transform st
  = match set_value v' st2 with
    | (Ok _, st3) => (Ok tt, st3)
    | (Raise e, st3) => (Ok tt, warned check_set_setter_msg e st3)
    end.
Proof.
  intros Hg Ht. unfold check_set. rewrite (bind_ok _ _ _ _ _ Hg).
  destruct transform as [tr|]; simpl in Ht.
  - unfold bind, attempt. rewrite Ht. simpl.
    destruct (set_value v' st2) as [[[]|e] st3]; reflexivity.
  - inversion Ht; subst. unfold bind, attempt, ret.
    destruct (set_value v' st2) as [[[]|e] st3]; reflexivity.
Qed.

Lemma check_set_returns get_value set_value transform st r st1 :
  get_value st = (Ok r, st1) ->
  exists st', check_set get_value set_value transform st = (Ok tt, st').
Proof.
  intros Hg. destruct r as [v|].
  - destruct (apply_transform transform v st1) as [[v'|e] st2] eqn:Ht.
    + rewrite (check_set_setter_runs _ _ _ _ _ _ _ _ Hg Ht).
      destruct (set_value v' st2) as [[[]|e] st3]; eauto.
    + destruct transform as [tr|]; simpl in Ht; [|discriminate].
      rewrite (check_set_transform_raises _ _ _ _ _ _ _ _ Hg Ht). eauto.
  - rewrite (check_set_none _ _ _ _ _ Hg). eauto.
Qed.

Lemma check_set_getter_raises get_value set_value transform st e st1 :
  get_value st = (Raise e, st1) ->
  check_set get_value set_value transform st = (Raise e, st1).
Proof. intros H. unfold check_set. apply bind_raise, H. Qed.
End CheckSetFacts.

(** The two [warn] calls of a handler reach the log at warning level 3,
    and only there. *)
Lemma warned_log {W} fmt e (st : translator * W) :
  (3 <= warning_level (fst st) ->
   log (fst (warned fmt e st)) = log (fst st) ++ [Formatted fmt e; Traceback e]) /\
  (warning_level (fst st) < 3 -> warned fmt e st = st).
Proof.
  unfold warned, warn. destruct st as [self w]. cbn [fst snd].
  destruct (3 <=? warning_level self) eqn:E.
  - split; [|apply Z.leb_le in E; lia]. intros _.
    cbn [warning_level logging_warning]. rewrite E.
    cbn [log logging_warning]. rewrite <- app_assoc. reflexivity.
  - split; [apply Z.leb_gt in E; lia|]. intros _. rewrite E. reflexivity.
Qed.

(** C2.  Whenever the getter returns, [check_set] returns normally: no
    exception of the transform or of the setter reaches the caller.  If the
    getter returned [None] the state is the one the getter left, whatever
    the setter is.  If the transform raises, the state is the one the
    transform left plus the two level-3 [warn] calls, again whatever the
    setter is: it was not invoked.  If the setter raises, its exception is
    handed to the two level-3 [warn] calls of the second handler.  The two
    [warn] calls add the message and the traceback to the log when the
    warning level is 3, and nothing below that. *)
Theorem check_set_guarded {W V : Type}
    (get_value : M W (option V)) (set_value : V -> M W unit)
    (transform : option (V -> M W V)) (st : translator * W)
    (r : option V) (st1 : translator * W) :
  get_value st = (Ok r, st1) ->
  (exists st', check_set get_value set_value transform st = (Ok tt, st')) /\
  (r = None ->
     forall set_value', check_set get_value set_value' transform st = (Ok tt, st1)) /\
  (forall v tr e st2,
     r = Some v -> transform = Some tr -> tr v st1 = (Raise e, st2) ->
     forall set_value',
       check_set get_value set_value' transform st
       = (Ok tt, warned check_set_transform_msg e st2)) /\
  (forall v v' st2 e st3,
     r = Some v -> apply_transform transform v st1 = (Ok v', st2) ->
     set_value v' st2 = (Raise e, st3) ->
     check_set get_value set_value transform st
     = (Ok tt, warned check_set_setter_msg e st3)) /\
  (forall fmt e (st' : translator * W),
     (3 <= warning_level (fst st') ->
      log (fst (warned fmt e st')) = log (fst st') ++ [Formatted fmt e; Traceback e]) /\
     (warning_level (fst st') < 3 -> warned fmt e st' = st')).
Proof.
  intros Hg. split; [|split; [|split; [|split]]].
  - eapply check_set_returns, Hg.
  - intros -> set'. apply check_set_none, Hg.
  - intros v tr e st2 -> -> Ht set'. eapply check_set_transform_raises; eauto.
  - intros v v' st2 e st3 -> Ht Hs.
    rewrite (check_set_setter_runs _ _ _ _ _ _ _ _ Hg Ht), Hs. reflexivity.
  - intros fmt e st'. apply warned_log.
Qed.

Lemma check_set_guarded_witness :
  Sample.get_x Sample.verbose = (Ok (Some "x"), Sample.verbose) /\
  check_set Sample.get_x Sample.set_y (Some Sample.bad_transform) Sample.verbose
  = (Ok tt, warned check_set_transform_msg (ValueError "x") Sample.verbose).
Proof.
  split; [reflexivity|].
  destruct (check_set_guarded Sample.get_x Sample.set_y (Some Sample.bad_transform)
              Sample.verbose (Some "x") Sample.verbose eq_refl) as (_ & _ & H & _).
  exact (H "x" Sample.bad_transform (ValueError "x") Sample.verbose
           eq_refl eq_refl eq_refl Sample.set_y).
Defined.

(** ** The getter is not guarded *)

Section UnitPrimitiveFacts.
Context {W X Y U Val : Type}.
Variables (get_units : X -> U) (get_valueOf_ : X -> Val) (constructor : Val -> U -> Y).

Lemma set_value_and_units_getter_raises
    (getter : M W (option X)) (setter : Y -> M W unit) units transform st e st1 :
  getter st = (Raise e, st1) ->
  set_value_and_units get_units get_valueOf_ constructor getter setter units transform st
  = (Raise e, st1).
Proof. intros H. unfold set_value_and_units. apply bind_raise, H. Qed.

(** A transform that raises leaves [z_value] unbound, and the exception
    of the second handler escapes. *)
Lemma set_value_and_units_transform_raises
    (getter : M W (option X)) (setter : Y -> M W unit) units tr st x st1 e st2 :
  getter st = (Ok (Some x), st1) ->
  tr (constructor (get_valueOf_ x)
        (match units with None => get_units x | Some u => u end)) st1
  = (Raise e, st2) ->
  set_value_and_units get_units get_valueOf_ constructor getter setter units (Some tr) st
  = (Raise (UnboundLocalError "z_value"), warned svu_transform_msg e st2).
Proof.
  intros Hg Ht. unfold set_value_and_units. rewrite (bind_ok _ _ _ _ _ Hg).
  unfold bind, attempt. rewrite Ht. reflexivity.
Qed.
End UnitPrimitiveFacts.

(** C10.  Both primitives call the getter outside of any handler: when the
    getter raises, the exception leaves the primitive with the state the
    getter left, and whatever statements follow in the translator are not
    run. *)
Theorem getter_exception_propagates :
  (forall (W V : Type) (get_value : M W (option V)) (set_value : V -> M W unit)
          (transform : option (V -> M W V)) (st : translator * W) e st1,
     get_value st = (Raise e, st1) ->
     check_set get_value set_value transform st = (Raise e, st1) /\
     forall (B : Type) (rest : M W B),
       (check_set get_value set_value transform ;;; rest) st = (Raise e, st1)) /\
  (forall (W X Y U Val : Type) (get_units : X -> U) (get_valueOf_ : X -> Val)
          (constructor : Val -> U -> Y) (getter : M W (option X))
          (setter : Y -> M W unit) (units : option U)
          (transform : option (Y -> M W Y)) (st : translator * W) e st1,
     getter st = (Raise e, st1) ->
     set_value_and_units get_units get_valueOf_ constructor getter setter units transform st
     = (Raise e, st1) /\
     forall (B : Type) (rest : M W B),
       (set_value_and_units get_units get_valueOf_ constructor getter setter units transform
        ;;; rest) st = (Raise e, st1)).
Proof.
  split.
  - intros W V get_value set_value transform st e st1 H.
    pose proof (check_set_getter_raises _ set_value transform _ _ _ H) as Hc.
    split; [exact Hc|]. intros B rest. apply bind_raise, Hc.
  - intros W X Y U Val gu gv c getter setter units transform st e st1 H.
    pose proof (set_value_and_units_getter_raises gu gv c _ setter units transform _ _ _ H)
      as Hc.
    split; [exact Hc|]. intros B rest. apply bind_raise, Hc.
Qed.

Lemma getter_exception_propagates_witness :
  Sample.get_fails Sample.verbose = (Raise (AttributeError "get_x"), Sample.verbose) /\
  check_set Sample.get_fails Sample.set_y None Sample.verbose
  = (Raise (AttributeError "get_x"), Sample.verbose).
Proof.
  split; [reflexivity|].
  exact (proj1 (proj1 getter_exception_propagates _ _ Sample.get_fails Sample.set_y None
                  Sample.verbose _ _ eq_refl)).
Defined.

(** ** Accession codes *)

Lemma span_all_chars p s : PyStr.all_chars p (fst (PyStr.span p s)) = true.
Proof.
  induction s as [|c s IH]; simpl; [reflexivity|].
  destruct (p c) eqn:Hc; [|reflexivity].
  destruct (PyStr.span p s) as [a b]. simpl in *. rewrite Hc, IH. reflexivity.
Qed.

Lemma digits_at_Some g s m :
  Constants.digits_at g s = Some m ->
  fst m = g /\ snd m = fst (PyStr.span PyStr.is_digit s) /\
  (4 <= String.length (snd m))%nat /\
  PyStr.all_chars PyStr.is_digit (snd m) = true.
Proof.
  unfold Constants.digits_at.
  destruct (4 <=? _)%nat eqn:Hl; [|discriminate].
  intros [= <-]. simpl. apply Nat.leb_le in Hl.
  repeat split; [exact Hl | apply span_all_chars].
Qed.

Lemma EMDB_PAT_match_digits s g1 digits :
  Constants.EMDB_PAT_match s = Some (g1, digits) ->
  (4 <= String.length digits)%nat /\ PyStr.all_chars PyStr.is_digit digits = true.
Proof.
  unfold Constants.EMDB_PAT_match. intros H.
  assert (exists g s', Constants.digits_at g s' = Some (g1, digits)) as (g & s' & Hd).
  { destruct s as [|c0 [|c1 [|c2 [|c3 rest]]]]; eauto.
    destruct (String.eqb _ _); [|eauto].
    destruct (Constants.digits_at (Some _) _) eqn:E; [|eauto].
    inversion H; subst. eauto. }
  apply digits_at_Some in Hd. simpl in Hd. tauto.
Qed.

Lemma format_emdb_code_match {W} code_in number_only (st : translator * W) g1 digits :
  Constants.EMDB_PAT_match code_in = Some (g1, digits) ->
  format_emdb_code code_in number_only st
  = (Ok (if number_only then digits else "EMD-" +:+ digits), st).
Proof.
  intros H. unfold format_emdb_code. rewrite H. unfold bind, ret. simpl.
  destruct number_only; reflexivity.
Qed.

Lemma format_emdb_code_no_match {W} code_in number_only (st : translator * W) :
  Constants.EMDB_PAT_match code_in = None ->
  format_emdb_code code_in number_only st
  = (Ok (if number_only then "0000" else "EMD-0000"),
     (warn (fst st) 1 (Text (dummy_code_warning code_in "EMD-0000")), snd st)).
Proof.
  intros H. unfold format_emdb_code. rewrite H. unfold bind, ret, warnM. simpl.
  destruct number_only; reflexivity.
Qed.

(** The matcher agrees with the reading of the regular expression. *)
Lemma span_app p s : s = fst (PyStr.span p s) +:+ snd (PyStr.span p s).
Proof.
  induction s as [|c s IH]; simpl; [reflexivity|].
  destruct (p c); [|reflexivity].
  destruct (PyStr.span p s) as [a b]. cbn [fst snd] in *.
  change (String c a +:+ b) with (String c (a +:+ b)). f_equal. exact IH.
Qed.

Lemma span_rest p s c r : snd (PyStr.span p s) = String c r -> p c = false.
Proof.
  induction s as [|c' s IH]; simpl; [discriminate|].
  destruct (p c') eqn:Hc.
  - destruct (PyStr.span p s) as [a b]. simpl in *. exact IH.
  - simpl. intros [= -> _]. exact Hc.
Qed.

Lemma span_unique p a b :
  PyStr.all_chars p a = true ->
  (forall c r, b = String c r -> p c = false) ->
  PyStr.span p (a +:+ b) = (a, b).
Proof.
  intros Ha Hb. induction a as [|c a IH].
  - destruct b as [|c r]; [reflexivity|]. simpl. rewrite (Hb c r eq_refl). reflexivity.
  - cbn [PyStr.all_chars] in Ha. apply andb_prop in Ha as [Hc Ha].
    change (String c a +:+ b) with (String c (a +:+ b)).
    cbn [PyStr.span]. rewrite Hc, (IH Ha). reflexivity.
Qed.

Lemma digits_at_iff g s g' ds :
  Constants.digits_at g s = Some (g', ds) <->
  g' = g /\ exists rest,
    s = ds +:+ rest /\ PyStr.all_chars PyStr.is_digit ds = true /\
    (4 <= String.length ds)%nat /\
    (forall c rest', rest = String c rest' -> PyStr.is_digit c = false).
Proof.
  unfold Constants.digits_at. split.
  - destruct (Nat.leb_spec 4 (String.length (fst (PyStr.span PyStr.is_digit s)))) as [Hl|];
      [|discriminate].
    intros [= <- <-]. split; [reflexivity|].
    exists (snd (PyStr.span PyStr.is_digit s)).
    split; [apply span_app|]. split; [apply span_all_chars|]. split; [exact Hl|].
    intros c r. apply span_rest.
  - intros [-> (rest & -> & Hall & Hl & Hrest)].
    rewrite (span_unique _ _ _ Hall Hrest). cbn [fst].
    apply Nat.leb_le in Hl. rewrite Hl. reflexivity.
Qed.

Lemma digit_is_not_prefix_letter c0 c1 c2 c3 :
  PyStr.is_digit c0 = true ->
  String.eqb (PyStr.lower (String c0 (String c1 (String c2 (String c3 ""))))) "emd-" = false.
Proof.
  intros H. apply String.eqb_neq. intros E. simpl in E. injection E as E0 _.
  revert H E0. destruct c0 as [[] [] [] [] [] [] [] []]; vm_compute; congruence.
Qed.

Lemma lower_length_4 p :
  PyStr.lower p = "emd-" ->
  exists c0 c1 c2 c3, p = String c0 (String c1 (String c2 (String c3 ""))).
Proof.
  destruct p as [|c0 [|c1 [|c2 [|c3 [|c4 r]]]]]; simpl; try discriminate.
  eauto.
Qed.

Lemma emd_prefix_is_not_digit c0 c1 c2 c3 :
  String.eqb (PyStr.lower (String c0 (String c1 (String c2 (String c3 ""))))) "emd-" = true ->
  PyStr.is_digit c0 = false.
Proof.
  intros H. destruct (PyStr.is_digit c0) eqn:E; [|reflexivity].
  rewrite (digit_is_not_prefix_letter _ c1 c2 c3 E) in H. discriminate.
Qed.

Lemma digits_at_starts_with_digit g s m :
  Constants.digits_at g s = Some m -> exists c r, s = String c r /\ PyStr.is_digit c = true.
Proof.
  destruct m as [g' ds]. intros H. apply digits_at_iff in H as [_ (rest & -> & Hall & Hl & _)].
  destruct ds as [|c ds]; [simpl in Hl; lia|].
  simpl in Hall. apply andb_prop in Hall as [Hc _]. simpl. eauto.
Qed.

Lemma EMDB_PAT_match_iff s g1 digits :
  Constants.EMDB_PAT_match s = Some (g1, digits) <-> Constants.EMDB_PAT_matches s g1 digits.
Proof.
  unfold Constants.EMDB_PAT_matches. split.
  - intros H.
    assert (Constants.digits_at None s = Some (g1, digits) ->
            exists rest,
              s = default "" g1 +:+ digits +:+ rest /\
              (forall p, g1 = Some p -> PyStr.lower p = "emd-") /\
              PyStr.all_chars PyStr.is_digit digits = true /\
              (4 <= String.length digits)%nat /\
              (forall c rest', rest = String c rest' -> PyStr.is_digit c = false)) as Hnone.
    { intros Hd. apply digits_at_iff in Hd as [-> (rest & -> & Hall & Hl & Hrest)].
      exists rest. simpl. repeat split; auto. discriminate. }
    unfold Constants.EMDB_PAT_match in H.
    destruct s as [|c0 [|c1 [|c2 [|c3 rest]]]]; try (apply Hnone, H).
    destruct (String.eqb_spec
                (PyStr.lower (String c0 (String c1 (String c2 (String c3 ""))))) "emd-")
      as [Hpre|]; [|apply Hnone, H].
    destruct (Constants.digits_at (Some _) rest) as [m|] eqn:Hd; [|apply Hnone, H].
    injection H as ->. apply digits_at_iff in Hd as [-> (rest' & -> & Hall & Hl & Hrest)].
    exists rest'. simpl. repeat split; auto. intros p [= <-]. exact Hpre.
  - intros (rest & -> & Hg & Hall & Hl & Hrest).
    assert (Constants.digits_at None (digits +:+ rest) = Some (None, digits)) as Hnone.
    { apply digits_at_iff. split; [reflexivity|]. exists rest. auto. }
    destruct g1 as [p|].
    + pose proof (Hg p eq_refl) as Hp.
      destruct (lower_length_4 p Hp) as (c0 & c1 & c2 & c3 & ->).
      change (default "" (Some (String c0 (String c1 (String c2 (String c3 "")))))
              +:+ digits +:+ rest)
        with (String c0 (String c1 (String c2 (String c3 (digits +:+ rest))))).
      unfold Constants.EMDB_PAT_match. cbv beta iota zeta.
      rewrite (proj2 (String.eqb_eq _ _) Hp).
      assert (Constants.digits_at (Some (String c0 (String c1 (String c2 (String c3 "")))))
                (digits +:+ rest)
              = Some (Some (String c0 (String c1 (String c2 (String c3 "")))), digits)) as ->.
      { apply digits_at_iff. split; [reflexivity|]. exists rest. auto. }
      reflexivity.
    + change (default "" None +:+ digits +:+ rest) with (digits +:+ rest).
      destruct digits as [|d0 [|d1 [|d2 [|d3 ds]]]]; cbn [String.length] in Hl; try lia.
      cbn [PyStr.all_chars] in Hall. pose proof Hall as Hall'.
      apply andb_prop in Hall' as [H0 _].
      change (String d0 (String d1 (String d2 (String d3 ds))) +:+ rest)
        with (String d0 (String d1 (String d2 (String d3 (ds +:+ rest))))) in *.
      unfold Constants.EMDB_PAT_match. cbv beta iota zeta.
      rewrite (digit_is_not_prefix_letter _ d1 d2 d3 H0). exact Hnone.
Qed.

(** C8.  [format_emdb_code] maps ["1234"] and ["emd-1234"] to
    ["EMD-1234"]; an input that [EMDB_PAT] does not match yields the dummy
    code ["EMD-0000"] (its digits with [number_only]) and one level-1
    [warn] call, which reaches the log at the default warning level and at
    any level of at least 1; a matched input yields the prefix and the
    matched digits.  In every case the result is ["EMD-"] followed by at
    least four decimal digits, and just those digits with [number_only].
    An input is matched exactly when it starts with an optional [EMD-],
    in any case, and four or more digits. *)
Theorem format_emdb_code_accession {W : Type} (st : translator * W) :
  format_emdb_code "1234" false st = (Ok "EMD-1234", st) /\
  format_emdb_code "emd-1234" false st = (Ok "EMD-1234", st) /\
  (forall code_in number_only,
     Constants.EMDB_PAT_match code_in = None ->
     format_emdb_code code_in number_only st
     = (Ok (if number_only then "0000" else "EMD-0000"),
        (warn (fst st) 1 (Text (dummy_code_warning code_in "EMD-0000")), snd st)) /\
     (1 <= warning_level (fst st) ->
      log (fst (snd (format_emdb_code code_in number_only st)))
      = log (fst st) ++ [Text (dummy_code_warning code_in "EMD-0000")])) /\
  (forall code_in g1 digits number_only,
     Constants.EMDB_PAT_match code_in = Some (g1, digits) ->
     format_emdb_code code_in number_only st
     = (Ok (if number_only then digits else "EMD-" +:+ digits), st)) /\
  (forall code_in, exists digits,
     fst (format_emdb_code code_in false st) = Ok ("EMD-" +:+ digits) /\
     fst (format_emdb_code code_in true st) = Ok digits /\
     (4 <= String.length digits)%nat /\
     PyStr.all_chars PyStr.is_digit digits = true) /\
  (forall code_in g1 digits,
     Constants.EMDB_PAT_match code_in = Some (g1, digits)
     <-> Constants.EMDB_PAT_matches code_in g1 digits).
Proof.
  split; [reflexivity|]. split; [reflexivity|].
  split; [|split; [|split; [|exact EMDB_PAT_match_iff]]].
  - intros code_in number_only H.
    rewrite (format_emdb_code_no_match _ _ _ H). split; [reflexivity|].
    intros Hl. simpl. unfold warn.
    destruct (Z.leb_spec 1 (warning_level (fst st))); [reflexivity | lia].
  - intros code_in g1 digits number_only H. apply format_emdb_code_match with g1, H.
  - intros code_in. destruct (Constants.EMDB_PAT_match code_in) as [[g1 ds]|] eqn:H.
    + exists ds. rewrite !(format_emdb_code_match _ _ _ _ _ H). simpl.
      destruct (EMDB_PAT_match_digits _ _ _ H). auto.
    + exists "0000". rewrite !(format_emdb_code_no_match _ _ _ H). simpl. auto.
Qed.

Lemma format_emdb_code_accession_witness :
  Constants.EMDB_PAT_match "map-12" = None /\
  format_emdb_code "map-12" false (init, tt)
  = (Ok "EMD-0000",
     (logging_warning init
        (Text "EMDB accession code: map-12 does not match any standards. Using dummy code: EMD-0000"),
      tt)).
Proof.
  split; [reflexivity|].
  exact (proj1 (proj1 (proj2 (proj2 (format_emdb_code_accession (init, tt))))
                  "map-12" false eq_refl)).
Defined.

(** ** Site codes on the reverse pass *)

Lemma PROC_SITE_30_TO_19_domain k :
  is_Some (Constants.PROC_SITE_30_TO_19 !! k) <-> k = "pdbe" \/ k = "rcsb" \/ k = "pdbj".
Proof.
  unfold Constants.PROC_SITE_30_TO_19. simpl.
  rewrite !lookup_insert_is_Some, lookup_empty, is_Some_alt. split.
  - intros [ <- | [_ [ <- | [_ [ <- | [_ []]]]]]]; auto.
  - intros [ -> | [ -> | -> ]]; [left; reflexivity | right; split; [discriminate|] ..].
    + left; reflexivity.
    + right; split; [discriminate|]. left; reflexivity.
Qed.

Lemma dict_getitem_missing {W} d k (st : translator * W) :
  d !! k = None -> dict_getitem d k st = (Raise (KeyError k), st).
Proof. intros H. unfold dict_getitem. rewrite H. reflexivity. Qed.

Lemma dict_getitem_found {W} d k v (st : translator * W) :
  d !! k = Some v -> dict_getitem d k st = (Ok v, st).
Proof. intros H. unfold dict_getitem. rewrite H. reflexivity. Qed.

Lemma translate_sites_deposition_unknown sites_in code st :
  deposition sites_in = Some code ->
  Constants.PROC_SITE_30_TO_19 !! PyStr.lower code = None ->
  translate_sites sites_in st = (Raise (KeyError (PyStr.lower code)), st).
Proof.
  intros Hd Hk. unfold translate_sites. rewrite Hd. apply bind_raise. simpl.
  unfold bind, ret. rewrite (dict_getitem_missing _ _ _ Hk). reflexivity.
Qed.

Lemma translate_sites_processing_unknown sites_in dcode v code st :
  deposition sites_in = Some dcode ->
  Constants.PROC_SITE_30_TO_19 !! PyStr.lower dcode = Some v ->
  last_processing sites_in = Some code ->
  Constants.PROC_SITE_30_TO_19 !! PyStr.lower code = None ->
  translate_sites sites_in st
  = (Raise (KeyError (PyStr.lower code)), snd (set_depositionSite v st)).
Proof.
  intros Hd Hv Hp Hk. unfold translate_sites. rewrite Hd, Hp. simpl.
  unfold bind, ret. rewrite (dict_getitem_found _ _ _ _ Hv). simpl.
  rewrite (dict_getitem_missing _ _ _ Hk). reflexivity.
Qed.

Lemma translate_sites_known sites_in dcode v st :
  deposition sites_in = Some dcode ->
  Constants.PROC_SITE_30_TO_19 !! PyStr.lower dcode = Some v ->
  translate_sites sites_in st
  = match last_processing sites_in with
    | None => set_depositionSite v st
    | Some code =>
        match Constants.PROC_SITE_30_TO_19 !! PyStr.lower code with
        | Some v' => set_processingSite v' (snd (set_depositionSite v st))
        | None => (Raise (KeyError (PyStr.lower code)), snd (set_depositionSite v st))
        end
    end.
Proof.
  intros Hd Hv. unfold translate_sites. rewrite Hd. simpl.
  unfold bind, ret. rewrite (dict_getitem_found _ _ _ _ Hv). simpl.
  destruct (last_processing sites_in) as [code|]; [|reflexivity].
  unfold dict_getitem. destruct (_ !! PyStr.lower code); reflexivity.
Qed.

(** C5.  The reverse pass looks the lower-cased deposition-site and
    last-processing-site codes up in [PROC_SITE_30_TO_19], whose keys are
    exactly [pdbe], [rcsb] and [pdbj].  A code outside the table raises
    [KeyError]: the result is the exception, no site is set in its place,
    and the statements that follow in the translation are not run. *)
Theorem unknown_site_code_is_a_hard_error (sites_in : sitesType) (st : translator * depType) :
  (forall k, is_Some (Constants.PROC_SITE_30_TO_19 !! k)
             <-> k = "pdbe" \/ k = "rcsb" \/ k = "pdbj") /\
  (forall code,
     deposition sites_in = Some code ->
     Constants.PROC_SITE_30_TO_19 !! PyStr.lower code = None ->
     translate_sites sites_in st = (Raise (KeyError (PyStr.lower code)), st) /\
     forall (B : Type) (rest : M depType B),
       (translate_sites sites_in ;;; rest) st = (Raise (KeyError (PyStr.lower code)), st)) /\
  (forall dcode v code,
     deposition sites_in = Some dcode ->
     Constants.PROC_SITE_30_TO_19 !! PyStr.lower dcode = Some v ->
     last_processing sites_in = Some code ->
     Constants.PROC_SITE_30_TO_19 !! PyStr.lower code = None ->
     processingSite (snd (snd (translate_sites sites_in st))) = processingSite (snd st) /\
     fst (translate_sites sites_in st) = Raise (KeyError (PyStr.lower code)) /\
     forall (B : Type) (rest : M depType B),
       fst ((translate_sites sites_in ;;; rest) st) = Raise (KeyError (PyStr.lower code))) /\
  (forall dcode v code v',
     deposition sites_in = Some dcode ->
     Constants.PROC_SITE_30_TO_19 !! PyStr.lower dcode = Some v ->
     last_processing sites_in = Some code ->
     Constants.PROC_SITE_30_TO_19 !! PyStr.lower code = Some v' ->
     fst (translate_sites sites_in st) = Ok tt /\
     depositionSite (snd (snd (translate_sites sites_in st))) = Some v /\
     processingSite (snd (snd (translate_sites sites_in st))) = Some v').
Proof.
  split; [exact PROC_SITE_30_TO_19_domain|]. split; [|split].
  - intros code Hd Hk.
    pose proof (translate_sites_deposition_unknown _ _ st Hd Hk) as H.
    split; [exact H|]. intros B rest. apply bind_raise, H.
  - intros dcode v code Hd Hv Hp Hk.
    pose proof (translate_sites_processing_unknown _ _ _ _ st Hd Hv Hp Hk) as H.
    rewrite H. split; [reflexivity|]. split; [reflexivity|].
    intros B rest. rewrite (bind_raise _ _ _ _ _ H). reflexivity.
  - intros dcode v code v' Hd Hv Hp Hk.
    rewrite (translate_sites_known _ _ _ st Hd Hv), Hp, Hk. auto.
Qed.

Lemma unknown_site_code_is_a_hard_error_witness :
  Constants.PROC_SITE_30_TO_19 !! PyStr.lower "EBI" = None /\
  translate_sites {| deposition := Some "EBI"; last_processing := None |} (init, depType_new)
  = (Raise (KeyError "ebi"), (init, depType_new)).
Proof.
  split; [reflexivity|].
  exact (proj1 (proj1 (proj2 (unknown_site_code_is_a_hard_error
                                {| deposition := Some "EBI"; last_processing := None |}
                                (init, depType_new)))
                  "EBI" eq_refl eq_refl)).
Defined.

(** ** Technique dispatch *)

Lemma opt_eqb_outside em_method s :
  (forall tag, em_method = Some tag -> tag <> s) -> opt_eqb em_method s = false.
Proof.
  intros H. destruct em_method as [tag|]; [|reflexivity].
  simpl. apply String.eqb_neq, H. reflexivity.
Qed.

Lemma unknown_technique_builds_nothing em_method :
  (forall tag, em_method = Some tag -> ~ In tag source_techniques) ->
  structure_determination_method em_method = None /\
  preparation_variant em_method = None /\
  image_processing_variant em_method = None /\
  forall (W : Type) (st : translator * W),
    microscopy_variant em_method st = (Raise (UnboundLocalError "mic"), st).
Proof.
  intros H.
  assert (forall s, In s source_techniques -> opt_eqb em_method s = false) as E.
  { intros s Hs. apply opt_eqb_outside. intros tag Ht ->. exact (H _ Ht Hs). }
  pose proof (E Constants.EMM_SP) as E1. pose proof (E Constants.EMM_HEL) as E2.
  pose proof (E Constants.EMM_TOM) as E3. pose proof (E Constants.EMM_STOM) as E4.
  pose proof (E "twoDCrystal") as E5. simpl in E1, E2, E3, E4, E5.
  unfold structure_determination_method, preparation_variant, image_processing_variant,
    microscopy_variant.
  rewrite E1, E2, E3, E4, E5 by tauto. auto.
Qed.




(** ** Fields with a closed enumeration *)

Lemma check_set_copy (o : option string) self w :
  check_set (ret o) set_member None (self, w)
  = (Ok tt, (self, match o with Some v => Some v | None => w end)).
Proof. destruct o; reflexivity. Qed.

Lemma film_or_detector_model_value self v :
  member_after (set_film_or_detector_model (Some v)) self
  = Some (if roundtrip self then v
          else if PyStr.mem (PyStr.upper v) allowed_detectors then PyStr.upper v
               else "OTHER").
Proof.
  unfold member_after, set_film_or_detector_model, bind, get_self. cbn [fst snd].
  destruct (roundtrip self); [reflexivity|].
  destruct (PyStr.mem _ _); reflexivity.
Qed.

Lemma cryogen_name_value self v :
  member_after (set_cryogen_name (Some v)) self
  = Some (if roundtrip self then v
          else if PyStr.mem v allowed_cryo_names then v else "OTHER").
Proof.
  unfold member_after, set_cryogen_name, bind, get_self. cbn [fst snd].
  destruct (roundtrip self); [reflexivity|].
  destruct (PyStr.mem _ _); reflexivity.
Qed.

Lemma specimen_holder_model_value self v :
  member_after (set_specimen_holder_model (Some v)) self = Some v.
Proof. reflexivity. Qed.

Lemma refinement_protocol_value self v :
  member_after (set_refinement_protocol (Some v)) self
  = Some (if roundtrip self then renamed_protocol v
          else if PyStr.mem (renamed_protocol v) allowed_rec_protocols then v
               else "OTHER").
Proof.
  unfold member_after, set_refinement_protocol, bind, get_self. cbn [fst snd].
  fold (renamed_protocol v).
  destruct (roundtrip self); [reflexivity|].
  destruct (PyStr.mem _ _); reflexivity.
Qed.

Lemma resolution_method_value self v :
  member_after (set_resolution_method (Some v)) self
  = Some (if PyStr.mem v allowed_res_methods then v else "OTHER").
Proof.
  unfold member_after, set_resolution_method, opt_mem.
  destruct (PyStr.mem _ _); reflexivity.
Qed.




(** An allow-listed detector model that holds lower-case letters is not
    found again once it is upper-cased. *)
Lemma allow_listed_detector_is_clamped :
  PyStr.mem "FEI FALCON II (4k x 4k)" allowed_detectors = true /\
  member_after (set_film_or_detector_model (Some "FEI FALCON II (4k x 4k)")) init
  = Some "OTHER".
Proof. split; reflexivity. Qed.

(** ** PDB chains of a fitted model *)

Lemma chain_at_Some code sep rest m :
  chain_at code sep rest = Some m ->
  m = (code, sep, fst (PyStr.span PyStr.is_alnum rest)) /\ snd m <> "".
Proof.
  unfold chain_at. destruct (String.eqb_spec (fst (PyStr.span PyStr.is_alnum rest)) "");
    [discriminate|].
  intros [= <-]. auto.
Qed.

Lemma PDB_CHAIN_PAT_match_chain s code sep ch :
  PDB_CHAIN_PAT_match s = Some (code, sep, ch) ->
  ch <> "" /\ PyStr.all_chars PyStr.is_alnum ch = true /\ String.length code = 4%nat.
Proof.
  unfold PDB_CHAIN_PAT_match.
  destruct s as [|c0 [|c1 [|c2 [|c3 rest]]]]; try discriminate.
  destruct (_ && _); [|discriminate].
  intros H.
  assert (exists sep' rest',
            chain_at (String c0 (String c1 (String c2 (String c3 ""))))
              sep' rest' = Some (code, sep, ch)) as (sep' & rest' & Hc).
  { destruct rest as [|c rest']; [discriminate|].
    destruct (is_chain_separator c); [|eauto].
    destruct (chain_at _ (String c "") rest') eqn:E; [|eauto].
    inversion H; subst. eauto. }
  apply chain_at_Some in Hc as [[= -> -> ->] Hne]. simpl in Hne.
  split; [exact Hne|]. split; [apply span_all_chars | reflexivity].
Qed.

Lemma translate_chain_match p_in ch_in code sep ch :
  PDB_CHAIN_PAT_match ch_in = Some (code, sep, ch) ->
  translate_chain p_in ch_in
  = (if String.eqb code p_in then set_chain_id ch chainType_new else chainType_new, true).
Proof.
  intros H. unfold translate_chain. rewrite H.
  destruct (PDB_CHAIN_PAT_match_chain _ _ _ _ H) as [Hne _].
  apply String.eqb_neq in Hne. rewrite Hne. reflexivity.
Qed.

Lemma add_chains_spec p_in chains_in pdb_model given :
  add_chains p_in chains_in pdb_model given
  = ({| access_code := access_code pdb_model;
        chain := chain pdb_model
                 ++ List.filter chainType_hasContent_
                      (map (fun ch_in => fst (translate_chain p_in ch_in)) chains_in) |},
     given || existsb (fun ch_in => snd (translate_chain p_in ch_in)) chains_in).
Proof.
  unfold add_chains. revert pdb_model given.
  induction chains_in as [|ch_in l IH]; intros pdb_model given.
  - simpl. rewrite app_nil_r, orb_false_r. destruct pdb_model; reflexivity.
  - cbn [fold_left map existsb]. destruct (translate_chain p_in ch_in) as [c matched] eqn:E.
    cbn [fst snd List.filter]. rewrite IH.
    destruct (chainType_hasContent_ c) eqn:Hc; simpl.
    + rewrite <- app_assoc, orb_assoc. reflexivity.
    + rewrite orb_assoc. reflexivity.
Qed.

Lemma for_each_keeps_translator {W A X} (body : A -> X -> M W A) :
  (forall acc x st, fst (snd (body acc x st)) = fst st) ->
  forall l acc st, fst (snd (for_each l body acc st)) = fst st.
Proof.
  intros Hb l. induction l as [|x l IH]; intros acc st; [reflexivity|].
  simpl. unfold bind. specialize (Hb acc x st).
  destruct (body acc x st) as [[a|e] st']; simpl in *; [|exact Hb].
  rewrite IH. exact Hb.
Qed.

Lemma add_initial_models_logs_nothing l st :
  pdbEntryId l <> [] ->
  fst (snd (add_initial_models (Some l) st)) = fst st.
Proof.
  intros Hne. unfold add_initial_models.
  destruct (pdbEntryId l) as [|p ps] eqn:E; [congruence|].
  change (0 <? length (p :: ps))%nat with true. cbv iota.
  set (body := fun (given : bool) (p_in : string) => _).
  assert (forall acc x st0, fst (snd (body acc x st0)) = fst st0) as Hb.
  { intros acc x st0. unfold body.
    destruct (add_chains x (pdbChainId l) (initial_modelType_new x) acc). reflexivity. }
  pose proof (for_each_keeps_translator body Hb (p :: ps) false st) as H.
  unfold bind. destruct (for_each (p :: ps) body false st) as [[g|e] st']; exact H.
Qed.

Lemma chain_at_iff code sep rest code' sep' ch :
  chain_at code sep rest = Some (code', sep', ch) <->
  code' = code /\ sep' = sep /\ exists r,
    rest = ch +:+ r /\ ch <> "" /\ PyStr.all_chars PyStr.is_alnum ch = true /\
    (forall c r', r = String c r' -> PyStr.is_alnum c = false).
Proof.
  unfold chain_at. split.
  - destruct (String.eqb_spec (fst (PyStr.span PyStr.is_alnum rest)) "") as [|Hne];
      [discriminate|].
    intros [= <- <- <-]. split; [reflexivity|]. split; [reflexivity|].
    exists (snd (PyStr.span PyStr.is_alnum rest)).
    split; [apply span_app|]. split; [exact Hne|]. split; [apply span_all_chars|].
    intros c r. apply span_rest.
  - intros (-> & -> & r & -> & Hne & Hall & Hr).
    rewrite (span_unique _ _ _ Hall Hr). cbn [fst].
    apply String.eqb_neq in Hne. rewrite Hne. reflexivity.
Qed.

Lemma alnum_is_not_separator c : PyStr.is_alnum c = true -> is_chain_separator c = false.
Proof. destruct c as [[] [] [] [] [] [] [] []]; vm_compute; congruence. Qed.

Lemma PDB_CHAIN_PAT_match_iff s code sep ch :
  PDB_CHAIN_PAT_match s = Some (code, sep, ch) <-> PDB_CHAIN_PAT_matches s code sep ch.
Proof.
  unfold PDB_CHAIN_PAT_matches. split.
  - unfold PDB_CHAIN_PAT_match.
    destruct s as [|c0 [|c1 [|c2 [|c3 rest]]]]; try discriminate.
    destruct (PyStr.is_digit c0) eqn:H0; [|discriminate].
    destruct (PyStr.is_alnum c1) eqn:H1; [|discriminate].
    destruct (PyStr.is_alnum c2) eqn:H2; [|discriminate].
    destruct (PyStr.is_alnum c3) eqn:H3; [|discriminate].
    cbn [andb]. intros H.
    assert (exists sep0 rest0,
              rest = sep0 +:+ rest0 /\
              (sep0 = "" \/ exists c, sep0 = String c "" /\ is_chain_separator c = true) /\
              chain_at (String c0 (String c1 (String c2 (String c3 "")))) sep0 rest0
              = Some (code, sep, ch)) as (sep0 & rest0 & -> & Hsep & Hc).
    { destruct rest as [|c rest']; [discriminate|].
      destruct (is_chain_separator c) eqn:Hs.
      - destruct (chain_at _ (String c "") rest') as [m|] eqn:E.
        + injection H as ->. exists (String c ""), rest'. eauto 6.
        + exists "", (String c rest'). auto.
      - exists "", (String c rest'). auto. }
    apply chain_at_iff in Hc as (-> & -> & r & -> & Hne & Hall & Hr).
    exists c0, c1, c2, c3, r. repeat split; auto.
  - intros (c0 & c1 & c2 & c3 & rest & -> & -> & H0 & H1 & H2 & H3 & Hsep & Hne & Hall & Hr).
    assert (forall sep0,
              chain_at (String c0 (String c1 (String c2 (String c3 "")))) sep0 (ch +:+ rest)
              = Some (String c0 (String c1 (String c2 (String c3 ""))), sep0, ch)) as Hc.
    { intros sep0. apply chain_at_iff. split; [reflexivity|]. split; [reflexivity|].
      exists rest. auto. }
    destruct Hsep as [->|(c & -> & Hs)].
    + change (String c0 (String c1 (String c2 (String c3 ""))) +:+ "" +:+ ch +:+ rest)
        with (String c0 (String c1 (String c2 (String c3 (ch +:+ rest))))).
      unfold PDB_CHAIN_PAT_match. rewrite H0, H1, H2, H3. cbv beta iota zeta. cbn [andb].
      destruct ch as [|c ch']; [congruence|].
      change (String c ch' +:+ rest) with (String c (ch' +:+ rest)) in *.
      cbn [PyStr.all_chars] in Hall. pose proof Hall as Hall'.
      apply andb_prop in Hall' as [Ha _].
      rewrite (alnum_is_not_separator _ Ha). apply Hc.
    + change (String c0 (String c1 (String c2 (String c3 "")))
              +:+ String c "" +:+ ch +:+ rest)
        with (String c0 (String c1 (String c2 (String c3 (String c (ch +:+ rest)))))).
      unfold PDB_CHAIN_PAT_match. rewrite H0, H1, H2, H3. cbv beta iota zeta. cbn [andb].
      rewrite Hs, Hc. reflexivity.
Qed.

(** C7, as the code has it.  ["1ABC_A"] is split into code ["1ABC"] and
    chain ["A"], and with the declared code ["1ABC"] the chain id is
    ["A"].  For every chain string that matches the pattern: when its
    code is the declared one the chain id is the chain part, which is
    never empty; when it differs the chain is left as it was created and
    has no content.  A string that does not match keeps its text without
    the commas.  A model gets exactly the chains that have content, so a
    mismatched chain is not among them.  While the models of a list with
    at least one PDB code are built the translator is left untouched:
    nothing is logged.  A chain string matches exactly when it starts
    with a digit and three letters or digits, at most one separator, and
    one or more letters or digits. *)
Theorem pdb_chain_parsing (p_in ch_in : string) :
  translate_chain "1ABC" "1ABC_A" = (set_chain_id "A" chainType_new, true) /\
  (forall code sep ch,
     PDB_CHAIN_PAT_match ch_in = Some (code, sep, ch) ->
     ch <> "" /\
     (code = p_in -> fst (translate_chain p_in ch_in) = set_chain_id ch chainType_new) /\
     (code <> p_in ->
      fst (translate_chain p_in ch_in) = chainType_new /\
      chainType_hasContent_ (fst (translate_chain p_in ch_in)) = false)) /\
  (PDB_CHAIN_PAT_match ch_in = None ->
   fst (translate_chain p_in ch_in)
   = set_chain_id (PyStr.replace ch_in "," "") chainType_new) /\
  (forall chains_in pdb_model given,
     chain (fst (add_chains p_in chains_in pdb_model given))
     = chain pdb_model
       ++ List.filter chainType_hasContent_
            (map (fun ch_in => fst (translate_chain p_in ch_in)) chains_in)) /\
  (forall l st, pdbEntryId l <> [] ->
     fst (snd (add_initial_models (Some l) st)) = fst st) /\
  (forall code sep ch,
     PDB_CHAIN_PAT_match ch_in = Some (code, sep, ch)
     <-> PDB_CHAIN_PAT_matches ch_in code sep ch).
Proof.
  split; [reflexivity|]. split; [|split; [|split; [|split; [|apply PDB_CHAIN_PAT_match_iff]]]].
  - intros code sep ch H. rewrite (translate_chain_match _ _ _ _ _ H).
    destruct (PDB_CHAIN_PAT_match_chain _ _ _ _ H) as [Hne _].
    split; [exact Hne|]. split.
    + intros ->. rewrite String.eqb_refl. reflexivity.
    + intros Hd. apply String.eqb_neq in Hd. rewrite Hd. split; reflexivity.
  - intros H. unfold translate_chain. rewrite H. reflexivity.
  - intros chains_in pdb_model given. rewrite add_chains_spec. reflexivity.
  - intros l st Hne. apply add_initial_models_logs_nothing, Hne.
Qed.

Lemma pdb_chain_parsing_witness :
  PDB_CHAIN_PAT_match "1ABC_A" = Some ("1ABC", "_", "A") /\ "1ABC" <> "2XYZ" /\
  fst (translate_chain "2XYZ" "1ABC_A") = chainType_new.
Proof.
  split; [reflexivity|]. split; [discriminate|].
  refine (proj1 (proj2 (proj2 (proj1 (proj2 (pdb_chain_parsing "2XYZ" "1ABC_A"))
                                 "1ABC" "_" "A" eq_refl)) _)).
  discriminate.
Defined.

(** C7 as stated fails: a chain whose code differs from the declared PDB
    code is dropped without any warning, even at the highest warning
    level. *)
Lemma mismatched_chain_is_dropped_silently :
  add_initial_models (Some {| pdbEntryId := ["2XYZ"]; pdbChainId := ["1ABC_A"] |})
    (set_warning_level init 3, modelling_type_new)
  = (Ok (true, true),
     (set_warning_level init 3,
      add_initial_model {| access_code := "2XYZ"; chain := [] |} modelling_type_new)) /\
  log (fst (snd (add_initial_models
                   (Some {| pdbEntryId := ["2XYZ"]; pdbChainId := ["1ABC_A"] |})
                   (set_warning_level init 3, modelling_type_new)))) = [].
Proof. split; reflexivity. Qed.

(** ** A fitting record taken forward and back *)

(** C1 at a failing input.  In round-trip mode the forward pass renames
    the fitting protocol ["flexible"] to ["FLEXIBLE FIT"]; the reverse
    pass lower-cases it to ["flexible fit"], which is neither an allowed
    protocol nor a known issue, and sets no protocol.  The record that
    comes back has lost its [refProtocol]; every other member is as it
    was.  The protocol ["rigid body"] does come back. *)
Theorem flexible_fitting_does_not_round_trip :
  refinement_protocol
    (snd (snd (translate_fitting SampleFitting.flexible
                 (SampleFitting.round_trip_translator, modelling_type_new))))
  = Some "FLEXIBLE FIT" /\
  fitting_there_and_back SampleFitting.round_trip_translator SampleFitting.flexible
  = Ok (Some {| pdbEntryIdList := pdbEntryIdList SampleFitting.flexible;
                software := software SampleFitting.flexible;
                refProtocol := None;
                targetCriteria := targetCriteria SampleFitting.flexible;
                overallBValue := overallBValue SampleFitting.flexible;
                refSpace := refSpace SampleFitting.flexible;
                fit_details := fit_details SampleFitting.flexible |}) /\
  fitting_there_and_back SampleFitting.round_trip_translator SampleFitting.flexible
  <> Ok (Some SampleFitting.flexible) /\
  fitting_there_and_back SampleFitting.round_trip_translator SampleFitting.rigid
  = Ok (Some SampleFitting.rigid).
Proof.
  split; [reflexivity|]. split; [reflexivity|]. split; [|reflexivity].
  intros H. discriminate H.
Qed.

(** ** Nominal defocus *)

Section DefocusFacts.
Variable float_of_str : string -> result float.

Lemma set_nominal_defocus_min_nm text f details self mic :
  PyStr.find text "." = -1 ->
  float_of_str text = Ok f ->
  set_nominal_defocus float_of_str
    {| nominalDefocusMin := Some (SampleDefocus.in_nm text); nominalDefocusMax := None;
       img_details := details |} (self, mic)
  = (Ok tt,
     (self,
      {| nominal_defocus_min :=
           Some {| valueOf_ := PyFloat (f * 0.001)%float; units := Some Constants.U_MICROM |};
         nominal_defocus_max := nominal_defocus_max mic;
         mic_details := Some (match details with
                              | Some d => d +:+ min_is_int_marker
                              | None => min_is_int_marker
                              end) |})).
Proof.
  intros Hdot Hf. unfold set_nominal_defocus. simpl.
  unfold bind, py_find, py_float, lift, ret, modify. simpl.
  rewrite Hdot, Hf. simpl.
  destruct details as [d|]; reflexivity.
Qed.

Lemma set_nominal_defocus_max_nm text f details self mic :
  PyStr.find text "." = -1 ->
  float_of_str text = Ok f ->
  set_nominal_defocus float_of_str
    {| nominalDefocusMin := None; nominalDefocusMax := Some (SampleDefocus.in_nm text);
       img_details := details |} (self, mic)
  = (Ok tt,
     (self,
      {| nominal_defocus_min := nominal_defocus_min mic;
         nominal_defocus_max :=
           Some {| valueOf_ := PyFloat (f * 0.001)%float; units := Some Constants.U_MICROM |};
         mic_details := Some (match details with
                              | Some d => d +:+ max_is_int_marker
                              | None => max_is_int_marker
                              end) |})).
Proof.
  intros Hdot Hf. unfold set_nominal_defocus. simpl.
  unfold bind, py_find, py_float, lift, ret, modify. simpl.
  rewrite Hdot, Hf. simpl.
  destruct details as [d|]; reflexivity.
Qed.

Lemma defocus_in_nm_value {W} marker mic_details nom f (self : translator) (w : W) :
  float_of float_of_str (valueOf_ nom) = Ok f ->
  defocus_in_nm float_of_str marker mic_details nom (self, w)
  = if roundtrip self
       && match mic_details with
          | Some d => negb (PyStr.find d marker =? -1)
          | None => false
          end
    then match int_of_float (f * 1000)%float with
         | Ok z => (Ok {| valueOf_ := PyInt z; units := Some "nm" |}, (self, w))
         | Raise e => (Raise e, (self, w))
         end
    else (Ok {| valueOf_ := PyFloat (f * 1000)%float; units := Some "nm" |}, (self, w)).
Proof.
  intros Hf. unfold defocus_in_nm, bind, py_float, py_int, lift, get_self, ret.
  rewrite Hf. cbn [fst snd].
  destruct (roundtrip self); [|reflexivity].
  destruct mic_details as [d|]; [|reflexivity]. cbn [andb].
  destruct (negb _); [|reflexivity].
  destruct (int_of_float _); reflexivity.
Qed.
End DefocusFacts.



(** The integer that comes back is the truncation of a binary64 product,
    which is not always the integer that went in: ["4007"] goes forward
    as [4.007] and comes back as [4006], whether the reverse pass reads
    the float or its text. *)
Lemma integer_defocus_4007_comes_back_as_4006 :
  nominal_defocus_min (SampleDefocus.forward "4007")
  = Some {| valueOf_ := PyFloat 4.007%float; units := Some Constants.U_MICROM |} /\
  nominalDefocusMin (snd (SampleDefocus.back (SampleDefocus.forward "4007")))
  = Some {| valueOf_ := PyInt 4006; units := Some "nm" |} /\
  nominalDefocusMin
    (snd (SampleDefocus.back (SampleDefocus.as_read "4.007" (SampleDefocus.forward "4007"))))
  = Some {| valueOf_ := PyInt 4006; units := Some "nm" |}.
Proof. repeat split; vm_compute; reflexivity. Qed.

(** ** Image acquisitions on the reverse pass *)

Section AcquisitionFacts.
Context {number : Type} `{EqDecision number}.
Variable hasContent_ : @imgScanType number -> bool.
#[local] Abbreviation dict := (gmap string (@cfgval number)) (only parsing).
Lemma build_im_ac_spec {W} aux (r : @image_recordingType number) self (w : W) :
  with_new imgScanType_new (build_im_ac aux r) (self, w)
  = (Ok (configuration aux r, acquisition aux r), (self, w)).
Proof.
  destruct r as [nri dd odr bpp det].
  destruct nri, dd as [[sc [si|]]|], odr, aux as [[|l0 ls]|], bpp, det; try destruct sc; reflexivity.
Qed.

Lemma size_map_seq (seen : list dict) : size (map_seq 1 seen : gmap nat dict) = length seen.
Proof.
  induction seen as [|c seen IH] using rev_ind; [reflexivity|].
  rewrite map_seq_snoc, map_size_insert_None by apply map_seq_snoc_disjoint.
  rewrite IH, length_app. simpl. lia.
Qed.

Lemma map_seq_append (seen : list dict) c :
  <[(size (map_seq 1 seen : gmap nat dict) + 1)%nat := c]> (map_seq 1 seen)
  = (map_seq 1 (seen ++ [c]) : gmap nat dict).
Proof. rewrite map_seq_snoc, size_map_seq. f_equal. lia. Qed.

Lemma map_seq_empty_iff (seen : list dict) :
  (map_seq 1 seen : gmap nat dict) = ∅ <-> seen = [].
Proof.
  rewrite <- map_size_empty_iff, size_map_seq. destruct seen; simpl; split; congruence || lia.
Qed.

Lemma is_same_as_one_of_seen (seen : list dict) c :
  is_same_as_one_of (map_seq 1 seen) c = bool_decide (c ∈ seen).
Proof.
  unfold is_same_as_one_of. apply eq_true_iff_eq.
  rewrite existsb_exists, bool_decide_eq_true. split.
  - intros ([k v] & Hin & Hv). apply bool_decide_eq_true in Hv. simpl in Hv. subst v.
    apply list_elem_of_In, elem_of_map_to_list, lookup_map_seq_Some in Hin as [_ Hin].
    eapply list_elem_of_lookup_2, Hin.
  - intros Hin. apply list_elem_of_lookup in Hin as [i Hi].
    exists ((1 + i)%nat, c). split.
    + apply list_elem_of_In, elem_of_map_to_list, lookup_map_seq_Some_inv, Hi.
    + apply bool_decide_eq_true. reflexivity.
Qed.

Lemma configuration_nonempty aux (r : @image_recordingType number) :
  configuration aux r <> ∅.
Proof. unfold configuration. apply insert_non_empty. Qed.

(** what one record adds to the output *)
Lemma add_imageAcquisition_spec a self (out : list (@imgScanType number)) :
  add_imageAcquisition hasContent_ a (self, out)
  = (Ok tt, (self, out ++ (if roundtrip self && negb (hasContent_ a) then [] else [a]))).
Proof.
  unfold add_imageAcquisition, bind, get_self, modify, ret. cbn [fst snd].
  destruct (roundtrip self); [|reflexivity].
  destruct (hasContent_ a); simpl; [reflexivity | rewrite app_nil_r; reflexivity].
Qed.

Lemma image_acquisition_body_spec aux (seen : list dict) r self out :
  image_acquisition_body hasContent_ aux (map_seq 1 seen) r (self, out)
  = if bool_decide (configuration aux r ∈ seen)
    then (Ok (map_seq 1 seen), (self, out))
    else (Ok (map_seq 1 (seen ++ [configuration aux r])),
          (self, out ++ (if roundtrip self && negb (hasContent_ (acquisition aux r))
                         then [] else [acquisition aux r]))).
Proof.
  unfold image_acquisition_body.
  rewrite (bind_ok _ _ _ _ _ (build_im_ac_spec aux r self out)). cbn [fst snd].
  rewrite (bool_decide_true (configuration aux r <> ∅)) by apply configuration_nonempty.
  rewrite is_same_as_one_of_seen.
  destruct seen as [|c0 seen'].
  - rewrite bool_decide_false by (intros Hne; apply Hne; reflexivity).
    rewrite bool_decide_false by apply not_elem_of_nil.
    unfold bind. rewrite add_imageAcquisition_spec. reflexivity.
  - rewrite bool_decide_true
      by (rewrite map_seq_empty_iff; discriminate).
    destruct (bool_decide (configuration aux r ∈ c0 :: seen')); [reflexivity|].
    cbn [negb]. unfold bind. rewrite add_imageAcquisition_spec.
    unfold ret. rewrite map_seq_append. reflexivity.
Qed.

Lemma first_of_each_app {A} (f : A -> dict) seen l1 l2 :
  first_of_each f seen (l1 ++ l2)
  = first_of_each f seen l1
    ++ first_of_each f (seen ++ map f (first_of_each f seen l1)) l2.
Proof.
  revert seen. induction l1 as [|x l1 IH]; intros seen; simpl.
  - rewrite app_nil_r. reflexivity.
  - destruct (bool_decide (f x ∈ seen)); [apply IH|].
    simpl. rewrite IH, <- app_assoc. reflexivity.
Qed.


Lemma emitted_cons self a l :
  emitted hasContent_ self (a :: l)
  = (if roundtrip self && negb (hasContent_ a) then [] else [a]) ++ emitted hasContent_ self l.
Proof.
  unfold emitted. destruct (roundtrip self); [|reflexivity].
  simpl. destruct (hasContent_ a); reflexivity.
Qed.

Lemma recordings_loop aux recs (seen : list dict) self out :
  for_each recs (image_acquisition_body hasContent_ aux) (map_seq 1 seen) (self, out)
  = (Ok (map_seq 1 (seen ++ map (configuration aux)
                              (first_of_each (configuration aux) seen recs))),
     (self, out ++ emitted hasContent_ self
                     (map (acquisition aux) (first_of_each (configuration aux) seen recs)))).
Proof.
  revert seen out. induction recs as [|r recs IH]; intros seen out.
  - unfold emitted. destruct (roundtrip self); simpl; rewrite !app_nil_r; reflexivity.
  - cbn [for_each first_of_each]. unfold bind at 1. rewrite image_acquisition_body_spec.
    destruct (bool_decide (configuration aux r ∈ seen)); [apply IH|].
    rewrite IH. cbn [map]. rewrite emitted_cons, <- !app_assoc. reflexivity.
Qed.

Lemma microscopies_loop aux mics (seen : list dict) self out :
  for_each mics
    (fun image_acquasitions mic_in =>
       match image_recording_list mic_in with
       | Some im_recs =>
           for_each im_recs (image_acquisition_body hasContent_ aux) image_acquasitions
       | None => ret image_acquasitions
       end) (map_seq 1 seen) (self, out)
  = (Ok (map_seq 1 (seen ++ map (configuration aux)
                              (first_of_each (configuration aux) seen (all_recordings mics)))),
     (self, out ++ emitted hasContent_ self
                     (map (acquisition aux)
                        (first_of_each (configuration aux) seen (all_recordings mics))))).
Proof.
  revert seen out. induction mics as [|m mics IH]; intros seen out.
  - unfold emitted. destruct (roundtrip self); simpl; rewrite !app_nil_r; reflexivity.
  - cbn [for_each]. unfold bind at 1.
    change (all_recordings (m :: mics))
      with (default [] (image_recording_list m) ++ all_recordings mics).
    rewrite first_of_each_app.
    destruct (image_recording_list m) as [im_recs|]; cbn [default].
    + rewrite recordings_loop, IH. rewrite !map_app, <- !app_assoc.
      unfold emitted. destruct (roundtrip self); [|reflexivity].
      rewrite List.filter_app. reflexivity.
    + unfold ret. cbn [first_of_each map]. rewrite !app_nil_r. apply IH.
Qed.

Lemma translate_image_acquisitions_spec aux mics self :
  translate_image_acquisitions hasContent_ aux mics (self, [])
  = (Ok tt,
     (self, emitted hasContent_ self
              (map (acquisition aux)
                 (first_of_each (configuration aux) [] (all_recordings mics))))).
Proof.
  unfold translate_image_acquisitions, bind.
  change (∅ : gmap nat dict) with (map_seq 1 ([] : list dict) : gmap nat dict).
  rewrite microscopies_loop. reflexivity.
Qed.

Lemma first_of_each_elem {A} (f : A -> dict) seen l c :
  c ∈ map f (first_of_each f seen l) <-> c ∈ map f l /\ c ∉ seen.
Proof.
  revert seen. induction l as [|x l IH]; intros seen; simpl.
  - rewrite elem_of_nil. tauto.
  - destruct (bool_decide_reflect (f x ∈ seen)) as [Hin|Hout].
    + rewrite IH, elem_of_cons. split; [tauto|].
      intros [[->|Hc] Hs]; [contradiction | tauto].
    + simpl. rewrite !elem_of_cons, IH, elem_of_app, list_elem_of_singleton.
      split.
      * intros [->|[Hc Hs]]; [tauto|]. split; [tauto|]. intros Hn. apply Hs. tauto.
      * intros [[->|Hc] Hs]; [tauto|].
        destruct (decide (c = f x)) as [->|Hne]; [tauto|]. right. split; [exact Hc|].
        intros [Hn|Hn]; contradiction.
Qed.

Lemma first_of_each_NoDup {A} (f : A -> dict) seen l :
  NoDup (map f (first_of_each f seen l)).
Proof.
  revert seen. induction l as [|x l IH]; intros seen; simpl; [constructor|].
  destruct (bool_decide (f x ∈ seen)); [apply IH|].
  simpl. constructor; [|apply IH].
  rewrite first_of_each_elem, elem_of_app, list_elem_of_singleton. tauto.
Qed.

Lemma first_of_each_all_seen {A} (f : A -> dict) seen l :
  (forall x, x ∈ l -> f x ∈ seen) -> first_of_each f seen l = [].
Proof.
  induction l as [|x l IH]; intros Hall; simpl; [reflexivity|].
  rewrite bool_decide_true by (apply Hall; left).
  apply IH. intros y Hy. apply Hall. right. exact Hy.
Qed.

Lemma first_of_each_same {A} (f : A -> dict) r rest :
  (forall r', r' ∈ rest -> f r' = f r) -> first_of_each f [] (r :: rest) = [r].
Proof.
  intros Hsame. cbn [first_of_each]. rewrite bool_decide_false by apply not_elem_of_nil.
  rewrite first_of_each_all_seen; [reflexivity|].
  intros x Hx. rewrite (Hsame x Hx). cbn [app]. left.
Qed.
End AcquisitionFacts.




(** * Further properties of the translator *)

(** ** Occurrences of a text in a text *)

Lemma append_cons (c : ascii) (a b : string) : String c a +:+ b = String c (a +:+ b).
Proof. reflexivity. Qed.

Lemma append_nil_l (s : string) : "" +:+ s = s.
Proof. reflexivity. Qed.

Lemma append_nil_r (s : string) : s +:+ "" = s.
Proof. induction s as [|c s IH]; [reflexivity | now rewrite append_cons, IH]. Qed.

Lemma append_assoc (a b c : string) : (a +:+ b) +:+ c = a +:+ (b +:+ c).
Proof. induction a as [|x a IH]; [reflexivity | now rewrite !append_cons, IH]. Qed.

Lemma append_length (a b : string) :
  String.length (a +:+ b) = (String.length a + String.length b)%nat.
Proof. induction a as [|x a IH]; [reflexivity | rewrite append_cons; simpl; now rewrite IH]. Qed.

Lemma prefix_nil (s : string) : String.prefix "" s = true.
Proof. now destruct s. Qed.

Lemma prefix_refl_app (sub r : string) : String.prefix sub (sub +:+ r) = true.
Proof.
  induction sub as [|c sub IH]; [apply prefix_nil|]. rewrite append_cons; simpl.
  destruct (ascii_dec c c); [exact IH | congruence].
Qed.

Lemma prefix_app_cases (t sub r : string) :
  String.prefix sub (t +:+ r) = true ->
  String.prefix sub t = true \/ exists sub2, sub = t +:+ sub2 /\ String.prefix sub2 r = true.
Proof.
  revert sub; induction t as [|a t IH]; intros sub H.
  - right; exists sub; split; [reflexivity | exact H].
  - destruct sub as [|b sub]; [left; apply prefix_nil|].
    rewrite append_cons in H.
    simpl in H; destruct (ascii_dec b a) as [->|]; [|discriminate].
    destruct (IH _ H) as [Hp | (sub2 & -> & Hp)].
    + left; simpl; destruct (ascii_dec a a); [exact Hp | congruence].
    + right; exists sub2; split; [reflexivity | exact Hp].
Qed.

Lemma prefix_app_l (sub t r : string) :
  String.prefix sub t = true -> String.prefix sub (t +:+ r) = true.
Proof.
  revert t; induction sub as [|b sub IH]; intros t H; [apply prefix_nil|].
  destruct t as [|a t]; [discriminate|]. rewrite append_cons.
  simpl in *; destruct (ascii_dec b a); [now apply IH | discriminate].
Qed.

Lemma lacks_app (c : ascii) (a b : string) :
  lacks c (a +:+ b) = lacks c a && lacks c b.
Proof.
  unfold lacks; induction a as [|x a IH]; [reflexivity|].
  rewrite append_cons; simpl. now rewrite IH, andb_assoc.
Qed.

Lemma lacks_cons (c x : ascii) (s : string) :
  lacks c (String x s) = negb (Ascii.eqb x c) && lacks c s.
Proof. reflexivity. Qed.

Lemma prefix_lacks (c : ascii) (sub t : string) :
  String.prefix sub t = true -> lacks c t = true -> lacks c sub = true.
Proof.
  revert t; induction sub as [|b sub IH]; intros t H L; [reflexivity|].
  destruct t as [|a t]; [discriminate|].
  simpl in H; destruct (ascii_dec b a) as [->|]; [|discriminate].
  rewrite lacks_cons in *; apply andb_true_iff in L as [L1 L2].
  rewrite L1; simpl; eauto.
Qed.

Lemma none_starts_cons (sub : string) (c : ascii) (d rest : string) :
  none_starts sub (String c d) rest
  = negb (String.prefix sub (String c (d +:+ rest))) && none_starts sub d rest.
Proof. reflexivity. Qed.

Lemma none_starts_nil_iff (sub s : string) :
  none_starts sub s "" = true <->
  forall a c b, s = a +:+ String c b -> String.prefix sub (String c b) = false.
Proof.
  induction s as [|x s IH].
  - split; [|reflexivity]. intros _ [|] c b E; discriminate.
  - rewrite none_starts_cons, append_nil_r, andb_true_iff, negb_true_iff, IH; split.
    + intros [H1 H2] [|y a] c b E; rewrite ?append_cons, ?append_nil_l in E;
        injection E as -> ->; eauto.
    + intros H; split; [apply (H "" x s eq_refl)|].
      intros a c b ->. apply (H (String x a) c b eq_refl).
Qed.

(** [s.find(sub) == -1] says that [sub] does not occur in [s] *)
Lemma find_from_nonneg (sub s : string) (i : Z) :
  0 <= i -> PyStr.find_from sub s i = -1 \/ i <= PyStr.find_from sub s i.
Proof.
  revert i; induction s as [|c s IH]; intros i Hi; cbn [PyStr.find_from].
  - destruct sub; simpl; [right; lia | left; reflexivity].
  - destruct (String.prefix sub (String c s)); [right; lia|].
    destruct (IH (i + 1) ltac:(lia)) as [E|E]; [left; exact E | right; lia].
Qed.

Lemma find_from_none (sub s : string) (i : Z) :
  0 <= i -> sub <> "" ->
  (PyStr.find_from sub s i = -1 <-> none_starts sub s "" = true).
Proof.
  intros Hi Hsub; revert i Hi; induction s as [|c s IH]; intros i Hi.
  - destruct sub; [congruence|]; simpl; tauto.
  - rewrite none_starts_cons, append_nil_r. cbn [PyStr.find_from].
    destruct (String.prefix sub (String c s)); simpl.
    + split; [lia | discriminate].
    + apply IH; lia.
Qed.

Lemma find_none (s sub : string) :
  sub <> "" -> (PyStr.find s sub = -1 <-> none_starts sub s "" = true).
Proof. intros; apply find_from_none; [lia | assumption]. Qed.

Lemma find_from_found (sub d x : string) (i : Z) :
  0 <= i -> PyStr.find_from sub (d +:+ sub +:+ x) i <> -1.
Proof.
  revert i; induction d as [|c d IH]; intros i Hi.
  - rewrite append_nil_l. destruct sub as [|b sub]; [destruct x; simpl; lia|].
    rewrite append_cons. cbn [PyStr.find_from].
    rewrite <- append_cons, prefix_refl_app; lia.
  - rewrite append_cons. cbn [PyStr.find_from].
    destruct (String.prefix sub _); [lia | apply IH; lia].
Qed.

Lemma find_found (sub d x : string) : PyStr.find (d +:+ sub +:+ x) sub <> -1.
Proof. apply find_from_found; lia. Qed.

(** A text without [sub], followed by a text that starts like [sub]: when
    the first character of [sub] occurs nowhere else in it, no occurrence
    starts in the first text. *)
Lemma none_starts_before_head (c0 : ascii) (sub' d y : string) :
  lacks c0 sub' = true ->
  none_starts (String c0 sub') d "" = true ->
  none_starts (String c0 sub') d (String c0 y) = true.
Proof.
  intros L; induction d as [|c d IH]; [reflexivity|].
  rewrite !none_starts_cons, append_nil_r, !andb_true_iff, !negb_true_iff.
  intros [H1 H2]; split; [|now apply IH].
  change (String c (d +:+ String c0 y)) with (String c d +:+ String c0 y).
  destruct (String.prefix _ (String c d +:+ _)) eqn:E; [|reflexivity].
  apply prefix_app_cases in E as [E | (sub2 & E1 & E2)]; [congruence|].
  rewrite append_cons in E1; injection E1 as -> ->.
  destruct sub2 as [|b sub2].
  - rewrite append_nil_r in H1. simpl in H1.
    destruct (ascii_dec c c); [|congruence].
    rewrite <- (append_nil_r d) in H1 at 2. now rewrite prefix_refl_app in H1.
  - simpl in E2; destruct (ascii_dec b c) as [->|]; [|discriminate].
    rewrite lacks_app, lacks_cons, Ascii.eqb_refl in L; simpl in L.
    now rewrite andb_false_r in L.
Qed.

Lemma none_starts_unique_head (c0 : ascii) (sub' d x : string) :
  lacks c0 sub' = true ->
  none_starts (String c0 sub') d "" = true ->
  none_starts (String c0 sub') d (String c0 sub' +:+ x) = true.
Proof. intros L H. rewrite append_cons. now apply none_starts_before_head. Qed.

Lemma none_starts_app (sub a b rest : string) :
  none_starts sub (a +:+ b) rest = none_starts sub a (b +:+ rest) && none_starts sub b rest.
Proof.
  induction a as [|c a IH]; [reflexivity|].
  rewrite append_cons, !none_starts_cons, IH, append_assoc, andb_assoc. reflexivity.
Qed.

Lemma prefix_app_inv (p q s : string) :
  String.prefix (p +:+ q) s = true ->
  exists s2, s = p +:+ s2 /\ String.prefix q s2 = true.
Proof.
  revert s; induction p as [|b p IH]; intros s H; [now exists s|].
  destruct s as [|a s]; [discriminate|]. rewrite append_cons in H.
  simpl in H; destruct (ascii_dec b a) as [->|]; [|discriminate].
  destruct (IH _ H) as (s2 & -> & Hq). now exists s2.
Qed.

Lemma split_at_char (c : ascii) (t pre post sub2 : string) :
  lacks c t = true ->
  pre +:+ String c post = t +:+ sub2 ->
  exists pre2, pre = t +:+ pre2 /\ sub2 = pre2 +:+ String c post.
Proof.
  revert pre; induction t as [|a t IH]; intros pre L E; [now exists pre|].
  rewrite lacks_cons, andb_true_iff in L; destruct L as [La Lt].
  destruct pre as [|b pre]; rewrite ?append_cons, ?append_nil_l in E; injection E as -> E.
  - now rewrite Ascii.eqb_refl in La.
  - destruct (IH _ Lt E) as (pre2 & -> & ->). now exists pre2.
Qed.

Lemma char_not_before (c : ascii) (u y p z : string) :
  lacks c u = true -> u +:+ y = p +:+ String c z ->
  (String.length u <= String.length p)%nat.
Proof.
  revert u; induction p as [|b p IH]; intros u L E.
  - destruct u as [|a u]; [simpl; lia|].
    rewrite append_cons, append_nil_l in E; injection E as -> _.
    now rewrite lacks_cons, Ascii.eqb_refl in L.
  - destruct u as [|a u]; [simpl; lia|].
    rewrite !append_cons in E; injection E as -> E.
    rewrite lacks_cons, andb_true_iff in L; destruct L as [_ L].
    specialize (IH _ L E); simpl; lia.
Qed.

(** The same when some character of [sub] occurs once in it and not at
    all in the text before. *)
Lemma none_starts_pinned (c : ascii) (pre post d x : string) :
  lacks c pre = true -> lacks c d = true ->
  none_starts (pre +:+ String c post) d ((pre +:+ String c post) +:+ x) = true.
Proof.
  intros Lpre; induction d as [|a d IH]; [reflexivity|].
  intros Lt. pose proof Lt as Lt'.
  rewrite lacks_cons, andb_true_iff in Lt'; destruct Lt' as [La Ld].
  rewrite none_starts_cons, andb_true_iff, negb_true_iff; split; [|now apply IH].
  change (String a (d +:+ (pre +:+ String c post) +:+ x))
    with (String a d +:+ ((pre +:+ String c post) +:+ x)).
  destruct (String.prefix _ _) eqn:E; [|reflexivity]. exfalso.
  apply prefix_app_cases in E as [E | (sub2 & E1 & E2)].
  - apply (prefix_lacks c) in E; [|exact Lt].
    rewrite lacks_app, lacks_cons, Ascii.eqb_refl in E; simpl in E.
    now rewrite andb_false_r in E.
  - destruct (split_at_char _ _ _ _ _ Lt E1) as (pre2 & -> & ->).
    apply prefix_app_inv in E2 as (s2 & E2 & Hq).
    destruct s2 as [|b s2]; [discriminate|].
    simpl in Hq; destruct (ascii_dec c b) as [<-|]; [|discriminate].
    rewrite !append_assoc in E2.
    assert (L2 : lacks c (String a d +:+ pre2) = true) by exact Lpre.
    assert (H := char_not_before c (String a d +:+ pre2) _ pre2 _ L2
                   ltac:(rewrite append_assoc; exact E2)).
    rewrite append_length in H; simpl in H; lia.
Qed.

Lemma none_starts_lacks (ch : ascii) (sub s : string) :
  lacks ch sub = false -> lacks ch s = true -> none_starts sub s "" = true.
Proof.
  intros Hsub Hs. apply none_starts_nil_iff. intros a c b ->.
  destruct (String.prefix sub (String c b)) eqn:E; [|reflexivity].
  apply (prefix_lacks ch) in E; [congruence|].
  rewrite lacks_app in Hs. now apply andb_true_iff in Hs as [_ Hs].
Qed.

(** *** [replace] and [split] around an occurrence *)

Lemma replace_from_skip (old new a r : string) :
  PyStr.replace_from old new (String.length a) (a +:+ r) = PyStr.replace_from old new 0 r.
Proof. induction a as [|c a IH]; [reflexivity|]. rewrite append_cons. exact IH. Qed.

Lemma replace_from_occ (c : ascii) (old' new r : string) :
  PyStr.replace_from (String c old') new 0 (String c old' +:+ r)
  = new +:+ PyStr.replace_from (String c old') new 0 r.
Proof.
  rewrite append_cons. cbn [PyStr.replace_from].
  rewrite <- append_cons, prefix_refl_app. f_equal.
  change (String.length (String c old') - 1)%nat with (String.length old' - 0)%nat.
  rewrite Nat.sub_0_r. apply replace_from_skip.
Qed.

Lemma replace_from_clean (old new d rest : string) :
  none_starts old d rest = true ->
  PyStr.replace_from old new 0 (d +:+ rest) = d +:+ PyStr.replace_from old new 0 rest.
Proof.
  induction d as [|c d IH]; [reflexivity|].
  rewrite none_starts_cons, andb_true_iff, negb_true_iff; intros [H1 H2].
  rewrite !append_cons. cbn [PyStr.replace_from]. rewrite H1. f_equal. now apply IH.
Qed.

Lemma replace_none (s old new : string) :
  none_starts old s "" = true -> PyStr.replace s old new = s.
Proof.
  intros H. unfold PyStr.replace.
  rewrite <- (append_nil_r s) at 1. rewrite replace_from_clean by exact H.
  apply append_nil_r.
Qed.

Lemma replace_clean (c : ascii) (old' new d r : string) :
  none_starts (String c old') d (String c old' +:+ r) = true ->
  PyStr.replace (d +:+ String c old' +:+ r) (String c old') new
  = d +:+ new +:+ PyStr.replace r (String c old') new.
Proof.
  intros H. unfold PyStr.replace. now rewrite replace_from_clean, replace_from_occ.
Qed.

Lemma split_from_skip (sep a r : string) :
  PyStr.split_from sep (String.length a) (a +:+ r) = PyStr.split_from sep 0 r.
Proof. induction a as [|c a IH]; [reflexivity|]. rewrite append_cons. exact IH. Qed.

Lemma split_from_occ (c : ascii) (sep' r : string) :
  PyStr.split_from (String c sep') 0 (String c sep' +:+ r)
  = ("", PyStr.split r (String c sep')).
Proof.
  rewrite append_cons. cbn [PyStr.split_from].
  rewrite <- append_cons, prefix_refl_app. f_equal.
  change (String.length (String c sep') - 1)%nat with (String.length sep' - 0)%nat.
  rewrite Nat.sub_0_r, split_from_skip. reflexivity.
Qed.

Lemma split_from_clean (sep d rest : string) :
  none_starts sep d rest = true ->
  PyStr.split_from sep 0 (d +:+ rest)
  = (d +:+ fst (PyStr.split_from sep 0 rest), snd (PyStr.split_from sep 0 rest)).
Proof.
  induction d as [|c d IH].
  - intros _. rewrite !append_nil_l. now destruct (PyStr.split_from sep 0 rest).
  - rewrite none_starts_cons, andb_true_iff, negb_true_iff; intros [H1 H2].
    rewrite !append_cons. cbn [PyStr.split_from]. rewrite H1, (IH H2). reflexivity.
Qed.

Lemma split_none (s sep : string) :
  none_starts sep s "" = true -> PyStr.split s sep = [s].
Proof.
  intros H. unfold PyStr.split.
  rewrite <- (append_nil_r s) at 1. rewrite split_from_clean by exact H.
  cbn. now rewrite append_nil_r.
Qed.

Lemma split_clean (c : ascii) (sep' d r : string) :
  none_starts (String c sep') d (String c sep' +:+ r) = true ->
  PyStr.split (d +:+ String c sep' +:+ r) (String c sep') = d :: PyStr.split r (String c sep').
Proof.
  intros H. unfold PyStr.split at 1.
  rewrite split_from_clean by exact H. rewrite split_from_occ.
  cbn. now rewrite append_nil_r.
Qed.

(** ** Details of a component and of its molecule in one member *)

Lemma flag_pinned (d x : string) :
  lacks "{" d = true ->
  none_starts comp_details_flag d (comp_details_flag +:+ x) = true.
Proof. apply (none_starts_pinned "{" " " "comp details}: "). reflexivity. Qed.

Lemma flag_absent (s : string) :
  lacks "{" s = true -> none_starts comp_details_flag s "" = true.
Proof. apply none_starts_lacks. reflexivity. Qed.

Lemma find_found_eqb (sub d x : string) :
  (PyStr.find (d +:+ sub +:+ x) sub =? -1) = false.
Proof. apply Z.eqb_neq, find_found. Qed.

Lemma find_none_eqb (s sub : string) :
  sub <> "" -> none_starts sub s "" = true -> (PyStr.find s sub =? -1) = true.
Proof. intros H1 H2. now apply Z.eqb_eq, find_none. Qed.

Lemma set_oddity_details_packs (self : translator) (base comp : option string) :
  set_oddity_details base (Some comp) (self, None)
  = (Ok tt, (self, match filled comp with
                   | Some c => Some (default "" (filled base) +:+ comp_details_flag +:+ c)
                   | None => filled base
                   end)).
Proof. destruct base as [[|a b]|], comp as [[|a' c]|]; reflexivity. Qed.

Lemma unpack_odd_details_flagged (self : translator) (b c : string) :
  lacks "{" b = true -> lacks "{" c = true ->
  unpack_odd_details (Some (b +:+ comp_details_flag +:+ c)) (self, odd_details_new)
  = (Ok tt, (self, {| comp_details := filled (Some b);
                      spec_comp_details := filled (Some c) |})).
Proof.
  intros Hb Hc. unfold unpack_odd_details.
  rewrite find_found_eqb. cbn [negb].
  pose proof (flag_pinned b c Hb) as Hp. pose proof (flag_absent c Hc) as Ha.
  unfold comp_details_flag in *.
  rewrite (split_clean " " "{comp details}: " b c Hp), (split_none c _ Ha).
  destruct b as [|x b], c as [|y c]; reflexivity.
Qed.

Lemma unpack_odd_details_plain (self : translator) (b : string) :
  lacks "{" b = true ->
  unpack_odd_details (Some b) (self, odd_details_new)
  = (Ok tt, (self, {| comp_details := Some b; spec_comp_details := None |})).
Proof.
  intros Hb. unfold unpack_odd_details.
  rewrite find_none_eqb; [reflexivity | discriminate | now apply flag_absent].
Qed.

(** X1: the details of a v1.9 component and of the molecule inside it,
    which [set_oddity_details] packs into one v3.0 member, come back
    apart from [unpack_odd_details] when neither holds an opening brace:
    each is restored, an empty one as absent. *)
Theorem oddity_details_round_trip (self : translator) (base comp : option string) :
  lacks "{" (default "" base) = true ->
  lacks "{" (default "" comp) = true ->
  oddity_there_and_back self base comp
  = (Ok tt, {| comp_details := filled base; spec_comp_details := filled comp |}).
Proof.
  intros Hb Hc. unfold oddity_there_and_back.
  rewrite set_oddity_details_packs. cbn [snd].
  destruct comp as [[|a' c]|]; cbn [filled String.eqb].
  1,3: destruct base as [[|a b]|]; cbn [filled String.eqb]; try reflexivity;
       now rewrite unpack_odd_details_plain.
  destruct base as [[|a b]|]; cbn [filled String.eqb default from_option id].
  1,3: now rewrite (unpack_odd_details_flagged self "" (String a' c)).
  now rewrite (unpack_odd_details_flagged self (String a b) (String a' c)).
Qed.

Lemma oddity_details_round_trip_witness :
  oddity_there_and_back init (Some "dimer") (Some "expressed in E. coli")
  = (Ok tt, {| comp_details := Some "dimer";
               spec_comp_details := Some "expressed in E. coli" |}).
Proof.
  apply (oddity_details_round_trip init (Some "dimer") (Some "expressed in E. coli"));
    reflexivity.
Defined.

(** The brace matters: a text that ends like the start of the flag moves
    the split. *)
Lemma oddity_details_split_moves :
  oddity_there_and_back init (Some "x {comp details}:") (Some "y")
  = (Ok tt, {| comp_details := Some "x";
               spec_comp_details := Some "{comp details}: y" |}).
Proof. reflexivity. Qed.

(** ** Euler angle details of a tomography *)

Lemma euler_tag_clean (d x : string) :
  PyStr.find d euler_angles_tag = -1 ->
  none_starts euler_angles_tag d (euler_angles_tag +:+ x) = true.
Proof.
  intros H. apply (none_starts_unique_head "{" "eulerAnglesDetails}: "); [reflexivity|].
  apply find_none in H; [exact H | discriminate].
Qed.

Lemma euler_packed_value (self : translator) (d : option string) (a : string) :
  a <> "" ->
  euler_packed self d (Some a) = Some (default "" d +:+ euler_angles_tag +:+ a).
Proof. intros Ha. destruct a as [|c a]; [congruence|]. now destruct d. Qed.

(** X2: the Euler angle details that [adjust_for_Euler_angles_details]
    appends to the details of an image processing come back from
    [copy_ctf_and_euler_angles] when the class of the image processing
    has no angle assignment (its getter raises) and neither text holds
    the tag: the angles go to the reconstruction and the details are
    restored, as the empty string when there were none.  A class that has
    the member is not unpacked, and without a v1.9 processing object the
    unpacking raises. *)
Theorem euler_angles_details_round_trip (self : translator) (d : option string) (a : string)
    (ctf : option (option string)) (e : exn) (t : euler_target) :
  a <> "" ->
  PyStr.find (default "" d) euler_angles_tag = -1 ->
  PyStr.find a euler_angles_tag = -1 ->
  let packed := euler_packed self d (Some a) in
  let ctf_out := match ctf with
                 | Some (Some c) => Some c
                 | _ => ctfCorrection t
                 end in
  (forall spec0, proc_spec t = Some spec0 ->
     copy_ctf_and_euler_angles
       {| ctf_correction := ctf; final_angle_assignment := Raise e; imp_details := packed |}
       (self, t)
     = (Ok tt, (self, {| ctfCorrection := ctf_out; eulerAnglesDetails := Some a;
                         proc_spec := Some (Some (default "" d)) |}))) /\
  (proc_spec t = None ->
     copy_ctf_and_euler_angles
       {| ctf_correction := ctf; final_angle_assignment := Raise e; imp_details := packed |}
       (self, t)
     = (Raise (AttributeError "set_details"),
        (self, {| ctfCorrection := ctf_out; eulerAnglesDetails := Some a;
                  proc_spec := None |}))) /\
  (forall ang,
     proc_spec (snd (snd (copy_ctf_and_euler_angles
       {| ctf_correction := ctf; final_angle_assignment := Ok ang; imp_details := packed |}
       (self, t)))) = proc_spec t).
Proof.
  intros Ha Hd Hfa packed ctf_out. subst packed.
  rewrite euler_packed_value by exact Ha.
  pose proof (euler_tag_clean _ a Hd) as Hclean.
  assert (Hsplit : PyStr.split (default "" d +:+ euler_angles_tag +:+ a) euler_angles_tag
                   = [default "" d; a]).
  { unfold euler_angles_tag in *.
    rewrite (split_clean "{" "eulerAnglesDetails}: " _ a Hclean).
    rewrite (split_none a); [reflexivity|].
    apply find_none in Hfa; [exact Hfa | discriminate]. }
  assert (Hfind : (PyStr.find (default "" d +:+ euler_angles_tag +:+ a) euler_angles_tag =? -1)
                  = false) by apply find_found_eqb.
  repeat split.
  - intros spec0 Hspec. unfold copy_ctf_and_euler_angles.
    cbn [imp_details ctf_correction final_angle_assignment].
    destruct t as [c0 e0 p0]; cbn in Hspec; subst p0. subst ctf_out.
    destruct ctf as [[c|]|]; cbv [bind attempt lift modify ret fst snd];
      rewrite Hfind, Hsplit; reflexivity.
  - intros Hspec. unfold copy_ctf_and_euler_angles.
    cbn [imp_details ctf_correction final_angle_assignment].
    destruct t as [c0 e0 p0]; cbn in Hspec; subst p0. subst ctf_out.
    destruct ctf as [[c|]|]; cbv [bind attempt lift modify ret fst snd];
      rewrite Hfind, Hsplit; reflexivity.
  - intros ang. destruct t as [c0 e0 p0].
    destruct ctf as [[c|]|], ang as [[x|]|]; reflexivity.
Qed.

Lemma euler_angles_details_round_trip_witness :
  copy_ctf_and_euler_angles
    {| ctf_correction := None;
       final_angle_assignment := Raise SampleInputs.no_angle_assignment;
       imp_details :=
         euler_packed init (Some "weighted back projection") (Some "5 degree steps") |}
    (init, {| ctfCorrection := None; eulerAnglesDetails := None; proc_spec := Some None |})
  = (Ok tt, (init, {| ctfCorrection := None; eulerAnglesDetails := Some "5 degree steps";
                      proc_spec := Some (Some "weighted back projection") |})).
Proof.
  exact (proj1 (euler_angles_details_round_trip init (Some "weighted back projection")
                  "5 degree steps" None SampleInputs.no_angle_assignment
                  {| ctfCorrection := None; eulerAnglesDetails := None;
                     proc_spec := Some None |}
                  ltac:(discriminate) eq_refl eq_refl) None eq_refl).
Defined.

(** ** Authors *)

Lemma comma_space_clean (n x : string) :
  lacks "," n = true -> none_starts ", " n (", " +:+ x) = true.
Proof. apply (none_starts_pinned "," "" " " n x). reflexivity. Qed.

Lemma comma_clean (n x : string) :
  lacks "," n = true -> none_starts "," n ("," +:+ x) = true.
Proof. apply (none_starts_pinned "," "" "" n x). reflexivity. Qed.

Lemma split_replace_join (names : list string) :
  names <> [] -> Forall (fun n => lacks "," n = true) names ->
  PyStr.split (PyStr.replace (join_comma names) ", " ",") "," = names.
Proof.
  induction names as [|n names IH]; [congruence|]. intros _ H.
  apply Forall_cons in H as [Hn H].
  destruct names as [|m names].
  - cbn [join_comma]. rewrite replace_none by (apply (none_starts_lacks ","); auto).
    apply split_none. apply (none_starts_lacks ","); auto.
  - change (join_comma (n :: m :: names)) with (n +:+ ", " +:+ join_comma (m :: names)).
    rewrite (replace_clean "," " " "," n _ (comma_space_clean _ _ Hn)).
    rewrite (split_clean "," "" n _ (comma_clean _ _ Hn)).
    f_equal. apply IH; [discriminate | exact H].
Qed.

Lemma copy_authors_loop (self : translator) (pieces : list string) (simple : bool)
    (index : Z) (acc : list author_item) :
  for_each pieces
    (fun index auth_str_in =>
       if negb (String.eqb auth_str_in "") then
         if negb simple then
           if author_order_type_hasContent_ auth_str_in then
             add_author (author_order_type auth_str_in index) ;;; ret (index + 1)
           else ret index
         else add_author (author_string auth_str_in) ;;; ret index
       else ret index)
    index (self, acc)
  = (Ok (if simple then index else index + Z.of_nat (length (List.filter nonempty pieces))),
     (self, acc ++ (if simple then map author_string (List.filter nonempty pieces)
                    else numbered index (List.filter nonempty pieces)))).
Proof.
  destruct simple; cbn [negb];
    match goal with |- for_each _ ?f _ _ = _ => set (body := f) end;
    revert index acc; induction pieces as [|p pieces IH]; intros index acc.
  - cbn. now rewrite app_nil_r.
  - change (List.filter nonempty (p :: pieces))
      with (if negb (String.eqb p "") then p :: List.filter nonempty pieces
            else List.filter nonempty pieces).
    cbn [for_each]. unfold body at 1.
    destruct (String.eqb p "") eqn:E; cbn [negb].
    + unfold bind at 1, ret at 1. apply IH.
    + unfold bind at 1 2, add_author at 1, modify at 1, ret at 1. cbn [fst snd].
      rewrite IH. cbn [map]. now rewrite <- app_assoc.
  - cbn. now rewrite app_nil_r, Z.add_0_r.
  - change (List.filter nonempty (p :: pieces))
      with (if negb (String.eqb p "") then p :: List.filter nonempty pieces
            else List.filter nonempty pieces).
    cbn [for_each]. unfold body at 1, author_order_type_hasContent_.
    destruct (String.eqb p "") eqn:E; cbn [negb].
    + unfold bind at 1, ret at 1. apply IH.
    + unfold bind at 1 2, add_author at 1, modify at 1, ret at 1. cbn [fst snd].
      rewrite IH. cbn [numbered length]. rewrite <- app_assoc. cbn [app].
      rewrite Nat2Z.inj_succ. do 2 f_equal. lia.
Qed.

Lemma authors_forward_value (self : translator) (authors_in : string) (simple : bool) :
  authors_forward self authors_in simple
  = let names := List.filter nonempty (PyStr.split (PyStr.replace authors_in ", " ",") ",") in
    if simple then map author_string names else numbered 1 names.
Proof.
  unfold authors_forward, copy_authors. unfold bind at 1, ret at 1.
  unfold bind at 1. rewrite copy_authors_loop. reflexivity.
Qed.

Lemma get_authors_numbered (names : list string) (first : Z) :
  get_authors (numbered first names) false = Ok (join_comma names).
Proof.
  unfold get_authors.
  assert (H : forall acc first,
            fold_left
              (fun (acc : result (list string)) (auth_in : author_item) =>
                 match acc with
                 | Raise e => Raise e
                 | Ok auth_list =>
                     match auth_in, false with
                     | author_string s, true => Ok (auth_list ++ [s])
                     | author_order_type v _, false => Ok (auth_list ++ [v])
                     | author_string _, false => Raise (AttributeError "get_valueOf_")
                     | author_order_type _ _, true =>
                         Raise (Exception "TypeError" "sequence item: expected string")
                     end
                 end) (numbered first names) (Ok acc) = Ok (acc ++ names)).
  { induction names as [|n names IH]; intros acc k; cbn; [now rewrite app_nil_r|].
    rewrite IH. now rewrite <- app_assoc. }
  rewrite H. cbn [app]. now destruct names.
Qed.

Lemma get_authors_strings (names : list string) :
  get_authors (map author_string names) true = Ok (join_comma names).
Proof.
  unfold get_authors.
  assert (H : forall acc,
            fold_left
              (fun (acc : result (list string)) (auth_in : author_item) =>
                 match acc with
                 | Raise e => Raise e
                 | Ok auth_list =>
                     match auth_in, true with
                     | author_string s, true => Ok (auth_list ++ [s])
                     | author_order_type v _, false => Ok (auth_list ++ [v])
                     | author_string _, false => Raise (AttributeError "get_valueOf_")
                     | author_order_type _ _, true =>
                         Raise (Exception "TypeError" "sequence item: expected string")
                     end
                 end) (map author_string names) (Ok acc) = Ok (acc ++ names)).
  { induction names as [|n names IH]; intros acc; cbn; [now rewrite app_nil_r|].
    rewrite IH. now rewrite <- app_assoc. }
  rewrite H. cbn [app]. now destruct names.
Qed.

Lemma filter_nonempty_all (names : list string) :
  Forall (fun n => n <> "") names -> List.filter nonempty names = names.
Proof.
  induction 1 as [|n names Hn _ IH]; [reflexivity|].
  cbn. unfold nonempty at 1. destruct (String.eqb_spec n ""); [congruence|].
  cbn. now rewrite IH.
Qed.

(** X3: whatever the authors text of a v1.9 citation, the journal authors
    that [copy_authors] makes of it are numbered 1, 2, 3, ... without a
    gap, none of them is empty, and the reverse [get_authors] joins them
    again with [', ']. *)
Theorem journal_authors_are_numbered (self : translator) (authors_in : string) :
  exists names,
    authors_forward self authors_in false = numbered 1 names /\
    Forall (fun n => n <> "") names /\
    authors_there_and_back self authors_in false = Ok (join_comma names).
Proof.
  exists (List.filter nonempty (PyStr.split (PyStr.replace authors_in ", " ",") ",")).
  unfold authors_there_and_back. rewrite authors_forward_value. cbn zeta.
  split; [reflexivity|]. split; [|apply get_authors_numbered].
  apply Forall_forall. intros n Hn. apply list_elem_of_In, filter_In in Hn as [_ Hn].
  unfold nonempty in Hn. now destruct (String.eqb_spec n "").
Qed.

(** X4: an authors text that is a list of names joined with [', '], each
    name non-empty and without a comma, is split into exactly these
    names by the forward [copy_authors], and the reverse [get_authors]
    gives the text back. *)
Theorem authors_round_trip (self : translator) (names : list string) (simple : bool) :
  Forall (fun n => n <> "" /\ lacks "," n = true) names ->
  authors_forward self (join_comma names) simple
  = (if simple then map author_string names else numbered 1 names) /\
  authors_there_and_back self (join_comma names) simple = Ok (join_comma names).
Proof.
  intros H.
  assert (H1 : Forall (fun n => n <> "") names)
    by (eapply Forall_impl; [exact H | intros n [? ?]; assumption]).
  assert (H2 : Forall (fun n => lacks "," n = true) names)
    by (eapply Forall_impl; [exact H | intros n [? ?]; assumption]).
  assert (E : List.filter nonempty
                (PyStr.split (PyStr.replace (join_comma names) ", " ",") ",") = names).
  { destruct names as [|n names]; [reflexivity|].
    rewrite split_replace_join by (discriminate || assumption).
    now apply filter_nonempty_all. }
  unfold authors_there_and_back. rewrite authors_forward_value. cbn zeta. rewrite E.
  split; [reflexivity|].
  destruct simple; [apply get_authors_strings | apply get_authors_numbered].
Qed.

Lemma authors_round_trip_witness :
  authors_forward init "Smith J, Jones AB, Li X" false
  = [author_order_type "Smith J" 1; author_order_type "Jones AB" 2;
     author_order_type "Li X" 3] /\
  authors_there_and_back init "Smith J, Jones AB, Li X" false = Ok "Smith J, Jones AB, Li X".
Proof.
  apply (authors_round_trip init ["Smith J"; "Jones AB"; "Li X"] false).
  repeat constructor; discriminate.
Defined.

(** ** Crystal growth details *)

Lemma crystal_open_clean (g x : string) :
  g <> "" -> lacks ":" g = true ->
  none_starts crystal_grow_close crystal_grow_open (g +:+ x) = true.
Proof.
  intros Hg L. destruct g as [|c g]; [congruence|].
  rewrite lacks_cons in L. apply andb_true_iff in L as [L _].
  rewrite append_cons. unfold crystal_grow_close, crystal_grow_open.
  cbv [none_starts append String.prefix negb andb].
  repeat match goal with
         | |- context [ascii_dec ?a ?b] =>
             destruct (ascii_dec a b) as [?|?]; try discriminate
         end; try reflexivity.
  subst c. discriminate L.
Qed.

(** X5: crystal growth details that [set_base_preparation] packs into the
    details of a preparation, between its two tags, come back from the
    reverse pass when they are not empty and hold no colon. *)
Theorem crystal_grow_details_round_trip (self : translator) (g : string) :
  g <> "" -> lacks ":" g = true ->
  unpack_crystal_grow_details (pack_crystal_grow_details (Some (Some g))) (self, None)
  = (Ok tt, (self, Some g)).
Proof.
  intros Hg L. unfold pack_crystal_grow_details.
  destruct (String.eqb_spec g ""); [congruence|]. cbn [negb].
  unfold unpack_crystal_grow_details.
  assert (E : crystal_grow_open +:+ g +:+ crystal_grow_close
              = (crystal_grow_open +:+ g) +:+ crystal_grow_close +:+ "")
    by now rewrite append_assoc, append_nil_r.
  rewrite E, find_found_eqb. cbn [negb].
  assert (Hclean : none_starts crystal_grow_close (crystal_grow_open +:+ g)
                     (crystal_grow_close +:+ "") = true).
  { rewrite none_starts_app, crystal_open_clean by assumption.
    apply (none_starts_pinned ":" " " "crystalGrowDetails" g ""); [reflexivity | exact L]. }
  unfold crystal_grow_close in *.
  rewrite (split_clean " " ":crystalGrowDetails" _ "" Hclean).
  change (PyStr.split "" " :crystalGrowDetails") with [""].
  cbn [length Nat.ltb Nat.leb]. unfold list_getitem. cbn [lookup list_lookup].
  unfold bind at 1, ret at 1.
  pose proof (find_found_eqb crystal_grow_open "" g) as Hf.
  rewrite append_nil_l in Hf. rewrite Hf. cbn [negb].
  unfold PyStr.replace, crystal_grow_open.
  rewrite (replace_from_occ "c" "rystalGrowDetails: " "" g), append_nil_l.
  fold (PyStr.replace g "crystalGrowDetails: " "").
  rewrite replace_none; [reflexivity|].
  apply (none_starts_lacks ":"); [reflexivity | exact L].
Qed.

Lemma crystal_grow_details_round_trip_witness :
  unpack_crystal_grow_details
    (pack_crystal_grow_details (Some (Some "vapour diffusion, 4 weeks"))) (init, None)
  = (Ok tt, (init, Some "vapour diffusion, 4 weeks")).
Proof.
  apply (crystal_grow_details_round_trip init "vapour diffusion, 4 weeks");
    [discriminate | reflexivity].
Defined.

(** ** The markers of an integer defocus and the details *)

Lemma find_none_starts (s sub : string) :
  sub <> "" -> PyStr.find s sub = -1 -> none_starts sub s "" = true.
Proof. intros H1 H2. now apply find_none in H2. Qed.

Lemma markers_stripped (d m1 m2 : string) :
  m1 = "" \/ m1 = min_is_int_marker ->
  m2 = "" \/ m2 = max_is_int_marker ->
  PyStr.find d min_is_int_marker = -1 ->
  PyStr.find d max_is_int_marker = -1 ->
  let s0 := d +:+ m1 +:+ m2 in
  let s1 := if negb (PyStr.find s0 min_is_int_marker =? -1)
            then PyStr.replace s0 min_is_int_marker "" else s0 in
  let s2 := if negb (PyStr.find s1 max_is_int_marker =? -1)
            then PyStr.replace s1 max_is_int_marker "" else s1 in
  s2 = d.
Proof.
  intros H1 H2 Hmin Hmax.
  pose proof (find_none_starts d min_is_int_marker ltac:(discriminate) Hmin) as Nmin.
  pose proof (find_none_starts d max_is_int_marker ltac:(discriminate) Hmax) as Nmax.
  assert (Cmin : forall y, none_starts min_is_int_marker d (String "{" y) = true).
  { intros y. now apply (none_starts_before_head "{" "nominal defocus min is int}"). }
  assert (Cmax : forall y, none_starts max_is_int_marker d (String "{" y) = true).
  { intros y. now apply (none_starts_before_head "{" "nominal defocus max is int}"). }
  assert (Smax : PyStr.replace (d +:+ max_is_int_marker) max_is_int_marker "" = d).
  { rewrite <- (append_nil_r max_is_int_marker) at 1.
    unfold max_is_int_marker at 1 2.
    rewrite (replace_clean "{" "nominal defocus max is int}" "" d "" (Cmax _)).
    change (PyStr.replace "" _ "") with "". now rewrite !append_nil_r. }
  assert (Fmax : (PyStr.find (d +:+ max_is_int_marker) max_is_int_marker =? -1) = false).
  { rewrite <- (append_nil_r max_is_int_marker) at 1. apply find_found_eqb. }
  destruct H1 as [-> | ->], H2 as [-> | ->]; cbv zeta.
  - rewrite !append_nil_r, Hmin, Z.eqb_refl. cbn [negb]. rewrite Hmax. reflexivity.
  - rewrite append_nil_l.
    assert (F : PyStr.find (d +:+ max_is_int_marker) min_is_int_marker = -1).
    { apply find_none; [discriminate|].
      rewrite none_starts_app, append_nil_r. unfold max_is_int_marker at 1.
      rewrite (Cmin _). reflexivity. }
    rewrite F, Z.eqb_refl. cbn [negb]. rewrite Fmax. cbn [negb]. exact Smax.
  - rewrite append_nil_r.
    assert (F : (PyStr.find (d +:+ min_is_int_marker) min_is_int_marker =? -1) = false).
    { rewrite <- (append_nil_r min_is_int_marker) at 1. apply find_found_eqb. }
    rewrite F. cbn [negb].
    assert (S : PyStr.replace (d +:+ min_is_int_marker) min_is_int_marker "" = d).
    { rewrite <- (append_nil_r min_is_int_marker) at 1.
      unfold min_is_int_marker at 1 2.
      rewrite (replace_clean "{" "nominal defocus min is int}" "" d "" (Cmin _)).
      change (PyStr.replace "" _ "") with "". now rewrite !append_nil_r. }
    rewrite S, Hmax. reflexivity.
  - rewrite find_found_eqb. cbn [negb].
    assert (S : PyStr.replace (d +:+ min_is_int_marker +:+ max_is_int_marker)
                  min_is_int_marker "" = d +:+ max_is_int_marker).
    { unfold min_is_int_marker.
      rewrite (replace_clean "{" "nominal defocus min is int}" "" d _ (Cmin _)).
      reflexivity. }
    rewrite S, Fmax. cbn [negb]. exact Smax.
Qed.

Section DefocusDetails.
Variable float_of_str : string -> result float.

Lemma defocus_in_nm_keeps_state {W} marker mic_details nom (st : translator * W) :
  snd (defocus_in_nm float_of_str marker mic_details nom st) = st.
Proof.
  unfold defocus_in_nm, bind, py_float, py_int, lift, get_self, ret.
  destruct (float_of float_of_str (valueOf_ nom)); [|reflexivity]. cbn [fst snd].
  destruct (roundtrip (fst st)); [|now destruct st].
  destruct mic_details as [d|]; [|now destruct st].
  destruct (negb _); [|now destruct st].
  destruct (int_of_float _); now destruct st.
Qed.
Lemma defocus_step_keeps_details marker md (o : option value_and_units)
    (setter : value_and_units -> imgType -> imgType) (st : translator * imgType) :
  (forall v img, img_details (setter v img) = img_details img) ->
  img_details (snd (snd (match o with
                         | Some nom =>
                             let! v := defocus_in_nm float_of_str marker md nom in
                             modify (setter v)
                         | None => ret tt
                         end st))) = img_details (snd st).
Proof.
  intros Hset. destruct o as [nom|]; [|reflexivity].
  unfold bind. pose proof (defocus_in_nm_keeps_state marker md nom st) as K.
  destruct (defocus_in_nm _ _ _ _ _) as [[v|e] st']; cbn in K; subst st';
    [apply Hset | reflexivity].
Qed.
End DefocusDetails.

(** X6: when the reverse translation of a microscopy completes, the
    markers that the forward pass appended for an integer defocus are
    gone from the v1.9 details and the text before them is as it was;
    details that consisted of the markers alone are not written.  The
    text must not itself hold a marker. *)
Theorem defocus_markers_leave_the_details (float_of_str : string -> result float)
    (self : translator) (mic_in : base_microscopy_type) (img0 : imgType) (d m1 m2 : string) :
  mic_details mic_in = Some (d +:+ m1 +:+ m2) ->
  m1 = "" \/ m1 = min_is_int_marker ->
  m2 = "" \/ m2 = max_is_int_marker ->
  PyStr.find d min_is_int_marker = -1 ->
  PyStr.find d max_is_int_marker = -1 ->
  fst (set_nominalDefocus float_of_str mic_in (self, img0)) = Ok tt ->
  img_details (snd (snd (set_nominalDefocus float_of_str mic_in (self, img0))))
  = if String.eqb d "" then img_details img0 else Some d.
Proof.
  intros Hd H1 H2 Hmin Hmax. unfold set_nominalDefocus. rewrite Hd.
  pose proof (markers_stripped d m1 m2 H1 H2 Hmin Hmax) as Hs. cbv zeta in Hs.
  rewrite Hs. clear Hs.
  match goal with
  | |- context [bind ?a (fun _ => bind ?b (fun _ => ?c))] =>
      set (A := a); set (B := b); set (C := c)
  end.
  pose proof (defocus_step_keeps_details float_of_str min_is_int_marker
                (Some (d +:+ m1 +:+ m2)) (nominal_defocus_min mic_in)
                set_nominalDefocusMin (self, img0) ltac:(reflexivity)) as KA.
  fold A in KA. unfold bind.
  destruct (A (self, img0)) as [[[]|e] stA]; [|discriminate].
  pose proof (defocus_step_keeps_details float_of_str max_is_int_marker
                (Some (d +:+ m1 +:+ m2)) (nominal_defocus_max mic_in)
                set_nominalDefocusMax stA ltac:(reflexivity)) as KB.
  fold B in KB.
  destruct (B stA) as [[[]|e] stB]; [|discriminate].
  intros _. subst C. cbn [snd] in KA, KB.
  destruct (String.eqb d ""); cbn [negb]; [|reflexivity].
  cbn. congruence.
Qed.

Lemma defocus_markers_leave_the_details_witness :
  img_details (snd (snd (set_nominalDefocus decimal_float
                           (SampleDefocus.forward "12")
                           (SampleDefocus.round_trip_translator, imgType_new))))
  = Some "low dose".
Proof.
  apply (defocus_markers_leave_the_details decimal_float
           SampleDefocus.round_trip_translator (SampleDefocus.forward "12") imgType_new
           "low dose" min_is_int_marker "");
    [reflexivity | right; reflexivity | left; reflexivity | reflexivity | reflexivity
    | vm_compute; reflexivity].
Defined.

(** ** The contour level of a map *)

Section ContourFacts.
Variable float_of_str : string -> result float.
Variable hasContent : contourLevelType -> bool.
Hypothesis valued_has_content :
  forall c, is_Some (cl_valueOf_ c) -> hasContent c = true.

Lemma contour_forward_value (self : translator) (text : string) (f : float)
    (src d : option string) :
  float_of_str text = Ok f ->
  contour_forward float_of_str self
    (Some {| cl_valueOf_ := Some (PyStr text); cl_source := src |}) d
  = {| contour_list :=
         Some [{| primary := true; level := Some f;
                  cntr_source := match src with
                                 | Some s => Some (PyStr.upper s)
                                 | None => None
                                 end |}];
       map_details :=
         let all := default "" d +:+ (if PyStr.find text "." =? -1
                                      then whole_number_marker else "") in
         if negb (String.eqb all "") then Some all else None |}.
Proof.
  intros Hf. unfold contour_forward, copy_contour_19_to_30.
  cbv [bind ret modify py_find py_float lift float_of cl_valueOf_ cl_source fst snd].
  rewrite Hf. cbv [fst snd set_contour_list map_type_new contour_list map_details].
  destruct d as [d|]; cbv [default from_option id];
    [|rewrite append_nil_l]; destruct (negb (String.eqb _ "")); reflexivity.
Qed.

Lemma copy_contour_30_to_19_primary (self : translator) (f : float) (z : Z)
    (src pd : option string) :
  int_of_float f = Ok z ->
  copy_contour_30_to_19 hasContent true
    {| contour_list := Some [{| primary := true; level := Some f; cntr_source := src |}];
       map_details := pd |} (self, mapType_new)
  = (Ok tt,
     (self,
      {| contourLevel :=
           Some {| cl_valueOf_ := Some (if carries_whole_number_marker pd
                                        then PyInt z else PyFloat f);
                   cl_source := match src with
                                | Some s => Some (PyStr.lower s)
                                | None => None
                                end |};
         mapType_details :=
           match pd with
           | Some p =>
               let p' := if carries_whole_number_marker pd
                         then PyStr.replace p whole_number_marker "" else p in
               if negb (String.eqb p' "") then Some p' else None
           | None => if roundtrip self then None else Some ""
           end |})).
Proof.
  intros Hz. unfold copy_contour_30_to_19, carries_whole_number_marker.
  cbv [contour_list map_details for_each primary level cntr_source].
  destruct pd as [p|].
  - destruct (negb (PyStr.find p whole_number_marker =? -1)) eqn:E;
      destruct src as [s|];
      cbv [bind ret modify with_new check_set attempt py_int lift fst snd
           set_cl_valueOf_ set_cl_source cl_valueOf_ cl_source];
      rewrite ?Hz; cbv [fst snd];
      rewrite valued_has_content by (eexists; reflexivity);
      cbv [set_contourLevel mapType_new contourLevel mapType_details fst snd];
      destruct (negb (String.eqb _ "")); reflexivity.
  - destruct src as [s|];
      cbv [bind ret modify with_new check_set attempt py_int lift fst snd get_self
           set_cl_valueOf_ set_cl_source cl_valueOf_ cl_source];
      rewrite valued_has_content by (eexists; reflexivity);
      cbv [set_contourLevel mapType_new contourLevel mapType_details fst snd];
      destruct (roundtrip self); reflexivity.
Qed.

Lemma whole_number_marker_stripped (d : string) :
  PyStr.find d whole_number_marker = -1 ->
  (PyStr.find (d +:+ whole_number_marker) whole_number_marker =? -1) = false /\
  PyStr.replace (d +:+ whole_number_marker) whole_number_marker "" = d.
Proof.
  intros H. split.
  - rewrite <- (append_nil_r whole_number_marker) at 1. apply find_found_eqb.
  - rewrite <- (append_nil_r whole_number_marker) at 1.
    unfold whole_number_marker at 1 2.
    rewrite (replace_clean "{" "level is a whole number}" "" d "").
    + change (PyStr.replace "" _ "") with "". now rewrite !append_nil_r.
    + apply (none_starts_unique_head "{" "level is a whole number}"); [reflexivity|].
      now apply find_none_starts.
Qed.

End ContourFacts.


(** ** Image acquisitions dealt to the microscopies *)

Lemma py_slice_in_range {A} (l : list A) (lo hi : Z) :
  0 <= lo <= hi -> hi <= Z.of_nat (length l) ->
  py_slice l lo hi = take (Z.to_nat (hi - lo)) (drop (Z.to_nat lo) l).
Proof.
  intros H1 H2. unfold py_slice.
  destruct (Z.ltb_spec hi 0), (Z.ltb_spec lo 0); try lia.
  rewrite !Z.min_l by lia. reflexivity.
Qed.

Lemma py_slice_one {A} (l : list A) (k : nat) (x : A) :
  l !! k = Some x -> py_slice l (Z.of_nat k) (Z.of_nat k + 1) = [x].
Proof.
  intros H. pose proof (lookup_lt_Some _ _ _ H) as Hk.
  rewrite py_slice_in_range by lia.
  replace (Z.to_nat (Z.of_nat k + 1 - Z.of_nat k)) with 1%nat by lia.
  rewrite Nat2Z.id, (drop_S _ _ _ H). reflexivity.
Qed.

Lemma py_slice_rest {A} (l : list A) (k : nat) :
  (k <= length l)%nat -> py_slice l (Z.of_nat k) (Z.of_nat (length l)) = drop k l.
Proof.
  intros Hk. rewrite py_slice_in_range by lia.
  rewrite Nat2Z.id. apply take_ge. rewrite length_drop. lia.
Qed.

Lemma deal_acquisitions_enough {A B} (im_ac_in : list A) (n : nat) (rest : list B) (k : nat) :
  rest <> [] -> (k + length rest = n)%nat -> (n <= length im_ac_in)%nat ->
  concat (deal_acquisitions im_ac_in (Z.of_nat n) rest (Z.of_nat k + 1)) = drop k im_ac_in.
Proof.
  revert k; induction rest as [|b rest IH]; intros k Hne Hk Hn; [congruence|].
  cbn [deal_acquisitions concat]. cbn [length] in Hk.
  assert (Hdet : (0 <? Z.of_nat (length im_ac_in)) = true) by (apply Z.ltb_lt; lia).
  assert (Hle : (Z.of_nat n <=? Z.of_nat (length im_ac_in)) = true) by (apply Z.leb_le; lia).
  unfold acquisitions_of, acquisition_slice. rewrite Hdet, Hle. cbn [fst snd].
  destruct rest as [|b' rest].
  - cbn [deal_acquisitions concat]. cbn [length] in Hk. rewrite app_nil_r.
    replace (Z.of_nat k + 1 =? Z.of_nat n) with true by (symmetry; apply Z.eqb_eq; lia).
    replace (Z.of_nat k + 1 - 1) with (Z.of_nat k) by lia.
    apply py_slice_rest. lia.
  - cbn [length] in Hk.
    replace (Z.of_nat k + 1 =? Z.of_nat n) with false by (symmetry; apply Z.eqb_neq; lia).
    replace (Z.of_nat k + 1 - 1) with (Z.of_nat k) by lia.
    destruct (lookup_lt_is_Some_2 im_ac_in k ltac:(lia)) as [x Hx].
    rewrite (py_slice_one _ _ _ Hx), (drop_S _ _ _ Hx). cbn [app]. f_equal.
    replace (Z.of_nat k + 1 + 1) with (Z.of_nat (S k) + 1) by lia.
    apply IH; [discriminate | cbn [length]; lia | lia].
Qed.

Lemma deal_acquisitions_lookup {A B} (im_ac_in : list A) (n : Z) (rest : list B)
    (i : Z) (k : nat) :
  (k < length rest)%nat ->
  deal_acquisitions im_ac_in n rest i !! k = Some (acquisitions_of im_ac_in n (i + Z.of_nat k)).
Proof.
  revert i k; induction rest as [|b rest IH]; intros i k Hk; [cbn in Hk; lia|].
  destruct k as [|k]; cbn [deal_acquisitions].
  - rewrite Z.add_0_r. reflexivity.
  - change ((?x :: ?l) !! S k) with (l !! k). cbn [length] in Hk.
    rewrite IH by lia. do 2 f_equal. lia.
Qed.



(** ** The data type of a map *)

Lemma inv_lookup_elem (items : list (string * string)) (acc : gmap string string) k v :
  fold_left (fun inv kv => <[snd kv := fst kv]> inv) items acc !! v = Some k ->
  (k, v) ∈ items \/ acc !! v = Some k.
Proof.
  revert acc; induction items as [|[k' v'] items IH]; intros acc H; [now right|].
  cbn [fold_left fst snd] in H. destruct (IH _ H) as [Hin | Hacc].
  - left. now apply list_elem_of_further.
  - destruct (decide (v' = v)) as [->|Hne].
    + rewrite lookup_insert_eq in Hacc. injection Hacc as ->. left. apply list_elem_of_here.
    + rewrite lookup_insert_ne in Hacc by exact Hne. now right.
Qed.

Lemma inv_lookup_other (items : list (string * string)) (acc : gmap string string) v :
  v ∉ map snd items ->
  fold_left (fun inv kv => <[snd kv := fst kv]> inv) items acc !! v = acc !! v.
Proof.
  revert acc; induction items as [|[k' v'] items IH]; intros acc H; [reflexivity|].
  cbn [fold_left fst snd map] in *. apply not_elem_of_cons in H as [H1 H2].
  rewrite IH by exact H2. now apply lookup_insert_ne.
Qed.

Lemma inv_lookup_found (items : list (string * string)) (acc : gmap string string) k v :
  NoDup (map snd items) -> (k, v) ∈ items ->
  fold_left (fun inv kv => <[snd kv := fst kv]> inv) items acc !! v = Some k.
Proof.
  revert acc; induction items as [|[k' v'] items IH]; intros acc Hnd Hin.
  - now apply elem_of_nil in Hin.
  - cbn [map snd] in Hnd. apply NoDup_cons in Hnd as [Hfresh Hnd].
    cbn [fold_left fst snd]. apply elem_of_cons in Hin as [E | Hin].
    + injection E as -> ->. rewrite inv_lookup_other by exact Hfresh.
      apply lookup_insert_eq.
    + now apply IH.
Qed.

Lemma data_type_items (items : list (string * string)) :
  items ≡ₚ map_to_list DATA_TYPE_DICT_19_TO_30 ->
  items ≡ₚ [("Envelope stored as signed bytes", "IMAGE STORED AS SIGNED BYTE");
            ("Image stored as Integer*2", "IMAGE STORED AS SIGNED INTEGER (2 BYTES)");
            ("Image stored as Reals", "IMAGE STORED AS FLOATING POINT NUMBER (4 BYTES)")].
Proof.
  intros H. rewrite H. unfold DATA_TYPE_DICT_19_TO_30.
  apply map_to_list_to_map. apply (bool_decide_unpack _). vm_compute. exact I.
Qed.

(** X9: the data type of a map there and back.  Whatever order the loop
    of the reverse pass goes through the dict in, the inverse dict takes
    each of the three v3.0 data types back to the v1.9 one it was made
    from; a data type outside the dict is set to [None] by the forward
    pass and stays [None]. *)
Theorem map_data_type_round_trip (items : list (string * string)) :
  items ≡ₚ map_to_list DATA_TYPE_DICT_19_TO_30 ->
  (forall t t30, data_type_19_to_30 (Some t) = Some t30 ->
                 data_type_30_to_19 items (Some t30) = Some t) /\
  (forall t30 t, data_type_30_to_19 items (Some t30) = Some t ->
                 data_type_19_to_30 (Some t) = Some t30) /\
  (forall t, DATA_TYPE_DICT_19_TO_30 !! t = None ->
             data_type_30_to_19 items (data_type_19_to_30 (Some t)) = None) /\
  data_type_30_to_19 items (data_type_19_to_30 None) = None.
Proof.
  intros Hperm. pose proof (data_type_items items Hperm) as Hlist.
  assert (Hnd : NoDup (map snd items)).
  { rewrite Hlist. apply (bool_decide_unpack _). vm_compute. exact I. }
  assert (Hin : forall k v, (k, v) ∈ items <-> DATA_TYPE_DICT_19_TO_30 !! k = Some v).
  { intros k v. rewrite Hperm. apply elem_of_map_to_list. }
  unfold data_type_19_to_30, data_type_30_to_19, dict_get, data_type_dict_inv.
  repeat split.
  - intros t t30 H. apply inv_lookup_found; [exact Hnd | now apply Hin].
  - intros t30 t H. apply inv_lookup_elem in H as [H | H]; [now apply Hin|].
    now rewrite lookup_empty in H.
  - intros t H. now rewrite H.
Qed.

Lemma map_data_type_round_trip_witness :
  data_type_30_to_19 (map_to_list DATA_TYPE_DICT_19_TO_30)
    (Some "IMAGE STORED AS FLOATING POINT NUMBER (4 BYTES)") = Some "Image stored as Reals".
Proof.
  apply (proj1 (map_data_type_round_trip (map_to_list DATA_TYPE_DICT_19_TO_30)
                  ltac:(reflexivity))).
  reflexivity.
Defined.

(** ** The specimen holder on the way back *)

Lemma holder_values_are_fixed (x v : string) :
  SPECIMEN_HOLDER_30_to_19 !! x = Some v ->
  v <> "" /\ specimen_holder_model_out (Some v) = v.
Proof.
  intros H. apply elem_of_list_to_map_2 in H.
  repeat (apply elem_of_cons in H as [H | H];
          [injection H as _ ->; split; [discriminate | vm_compute; reflexivity]|]).
  now apply elem_of_nil in H.
Qed.

(** X10: the specimen holder model that the reverse pass writes is never
    absent and never empty (a missing or empty one becomes [OTHER]), and
    the renaming through [SPECIMEN_HOLDER_30_to_19] is a normal form: a
    name that was written is written unchanged when it is read again. *)
Theorem specimen_holder_is_normalised (specimen_holder_model : option string) :
  let out := specimen_holder_model_out specimen_holder_model in
  out <> "" /\
  specimen_holder_model_out (Some out) = out /\
  (filled specimen_holder_model = None -> out = "OTHER").
Proof.
  cbv zeta. remember (specimen_holder_model_out specimen_holder_model) as out eqn:Eout.
  unfold specimen_holder_model_out in Eout.
  set (x := match specimen_holder_model with
            | Some s => if String.eqb s "" then "OTHER" else s
            | None => "OTHER"
            end) in Eout.
  assert (Hx : x <> "").
  { subst x. destruct specimen_holder_model as [[|a s]|]; discriminate. }
  assert (Hfilled : filled specimen_holder_model = None -> x = "OTHER").
  { subst x. destruct specimen_holder_model as [[|a s]|];
      [reflexivity | discriminate | reflexivity]. }
  destruct (SPECIMEN_HOLDER_30_to_19 !! x) as [v|] eqn:E; subst out.
  - destruct (holder_values_are_fixed x v E) as [H1 H2]. repeat split; [exact H1 | exact H2|].
    intros F. rewrite (Hfilled F) in E. vm_compute in E. now injection E as <-.
  - repeat split; [exact Hx | | exact Hfilled].
    unfold specimen_holder_model_out. destruct x as [|a x]; [congruence|].
    cbn [String.eqb]. now rewrite E.
Qed.

(** ** Site names there and back *)

Lemma PROC_SITE_30_TO_19_values k v :
  Constants.PROC_SITE_30_TO_19 !! k = Some v ->
  (k, v) = ("pdbe", "PDBe") \/ (k, v) = ("rcsb", "RCSB") \/ (k, v) = ("pdbj", "PDBj").
Proof.
  intros H. apply elem_of_list_to_map_2 in H.
  repeat (apply elem_of_cons in H as [H | H]; [auto|]).
  now apply elem_of_nil in H.
Qed.

(** X11: the site names of a v1.9 deposition there and back.  The forward
    pass copies them; the reverse pass looks them up in lower case.  Both
    names come back as they were exactly when each is one of [PDBe],
    [RCSB], [PDBj] in this spelling. *)
Theorem site_names_round_trip (self : translator) (dep proc : string) :
  translate_sites
    (set_sites {| depositionSite := Some dep; processingSite := Some proc |})
    (self, depType_new)
  = (Ok tt, (self, {| depositionSite := Some dep; processingSite := Some proc |}))
  <-> In dep ["PDBe"; "RCSB"; "PDBj"] /\ In proc ["PDBe"; "RCSB"; "PDBj"].
Proof.
  unfold set_sites. cbn [depositionSite processingSite]. split.
  - intros H.
    destruct (Constants.PROC_SITE_30_TO_19 !! PyStr.lower dep) as [v|] eqn:Ed.
    + rewrite (translate_sites_known {| deposition := Some dep; last_processing := Some proc |}
                 dep v (self, depType_new) eq_refl Ed) in H. cbn [last_processing] in H.
      destruct (Constants.PROC_SITE_30_TO_19 !! PyStr.lower proc) as [v'|] eqn:Ep;
        [|discriminate].
      cbv [set_processingSite set_depositionSite modify depType_new fst snd
           depositionSite processingSite] in H.
      injection H as -> ->.
      apply PROC_SITE_30_TO_19_values in Ed, Ep.
      split.
      * destruct Ed as [E | [E | E]]; injection E as _ <-; cbn; auto.
      * destruct Ep as [E | [E | E]]; injection E as _ <-; cbn; auto.
    + rewrite (translate_sites_deposition_unknown
                 {| deposition := Some dep; last_processing := Some proc |}
                 dep (self, depType_new) eq_refl Ed) in H. discriminate.
  - intros [Hd Hp]. cbn in Hd, Hp.
    destruct Hd as [<- | [<- | [<- | []]]], Hp as [<- | [<- | [<- | []]]];
      vm_compute; reflexivity.
Qed.

(** ** The detector on the way back *)

Lemma mem_In (x : string) (l : list string) : PyStr.mem x l = true <-> In x l.
Proof.
  unfold PyStr.mem. rewrite existsb_exists. split.
  - intros (y & Hy & E). apply String.eqb_eq in E. now subst.
  - intros H. exists x. split; [exact H | apply String.eqb_refl].
Qed.

Lemma forward_detectors_are_accepted (x : string) :
  PyStr.mem x allowed_detectors = true -> PyStr.mem x allowed_detectors_19 = true.
Proof.
  rewrite mem_In. intros H.
  assert (A : forallb (fun d => PyStr.mem d allowed_detectors_19) allowed_detectors = true)
    by (vm_compute; reflexivity).
  rewrite forallb_forall in A. now apply A.
Qed.

Lemma set_detector_from_one (self : translator) (v : string) (w : option string) :
  set_detector_from [Some (Some v)] (self, w)
  = (Ok tt, (self, Some (if PyStr.mem v allowed_detectors_19 then v else "OTHER"))).
Proof.
  unfold set_detector_from. cbn [for_each opt_mem].
  destruct (PyStr.mem v allowed_detectors_19); reflexivity.
Qed.

Lemma set_detector_from_closed (self : translator) (im_recs : list (option (option string)))
    (w : option string) :
  (forall v, w = Some v -> PyStr.mem v allowed_detectors_19 = true) ->
  fst (set_detector_from im_recs (self, w)) = Ok tt /\
  fst (snd (set_detector_from im_recs (self, w))) = self /\
  forall v, snd (snd (set_detector_from im_recs (self, w))) = Some v ->
            PyStr.mem v allowed_detectors_19 = true.
Proof.
  unfold set_detector_from. revert w; induction im_recs as [|fod im_recs IH]; intros w Hw.
  - cbn. auto.
  - cbn [for_each]. unfold bind at 1.
    destruct fod as [[d|]|]; cbn [opt_mem].
    + destruct (PyStr.mem d allowed_detectors_19) eqn:E; cbn [set_member modify fst snd];
        apply IH; intros v [= <-]; [exact E | reflexivity].
    + cbn [set_member modify fst snd]. apply IH. intros v [= <-]. reflexivity.
    + cbn [ret]. apply IH. exact Hw.
Qed.



(** ** The command line *)

Section MainFacts.
Variable convert : conversion -> result unit.

Lemma main_runs (o : options) (input_file : string) (rest : list string)
    (st : translator * list conversion) :
  main convert o (input_file :: rest) st
  = if (negb (String.eqb (inputSchema o) "1.9") && negb (String.eqb (outputSchema o) "3.0"))
       && (negb (String.eqb (inputSchema o) "3.0") && negb (String.eqb (outputSchema o) "1.9"))
    then (Raise (SystemExit (not_supported o)), st)
    else match routine_for (inputSchema o) (outputSchema o) with
         | Some r =>
             let c := {| conv_routine := r; conv_translator := translator_of o;
                         conv_input_file := input_file; conv_output_file := outputFile o |} in
             (convert c, (translator_of o, snd st ++ [c]))
         | None => (Ok tt, (translator_of o, snd st))
         end.
Proof.
  unfold main, routine_for, call_routine, translator_of.
  destruct (String.eqb (inputSchema o) "1.9") eqn:I19;
    destruct (String.eqb (inputSchema o) "3.0") eqn:I30;
    destruct (String.eqb (outputSchema o) "1.9") eqn:O19;
    destruct (String.eqb (outputSchema o) "3.0") eqn:O30;
    try (apply String.eqb_eq in I19, I30; congruence);
    try (apply String.eqb_eq in O19, O30; congruence);
    cbv [bind ret raise modify lift get_self fst snd andb negb];
    try reflexivity;
    destruct (convert _) as [[]|e]; reflexivity.
Qed.

(** X13: what [main] does with the schema versions of the command line.
    Without an input file it exits.  It exits with "not supported" only
    when the input version is neither 1.9 nor 3.0 and the output version
    is neither of them as well.  It calls one conversion routine, on a
    translator set up from the options, exactly for the pairs 1.9 to 3.0,
    1.9 to 1.9 and 3.0 to 1.9.  For every other pair, 3.0 to 3.0 among
    them, it returns without converting anything and without a message. *)
Theorem main_dispatch (o : options) (args : list string) (st : translator * list conversion) :
  (args = [] ->
   main convert o args st = (Raise (SystemExit "No input file specified!"), st)) /\
  (forall input_file rest, args = input_file :: rest ->
     let known v := String.eqb v "1.9" || String.eqb v "3.0" in
     (known (inputSchema o) = false -> known (outputSchema o) = false ->
      main convert o args st = (Raise (SystemExit (not_supported o)), st)) /\
     (forall r, routine_for (inputSchema o) (outputSchema o) = Some r ->
        let c := {| conv_routine := r; conv_translator := translator_of o;
                    conv_input_file := input_file; conv_output_file := outputFile o |} in
        main convert o args st = (convert c, (translator_of o, snd st ++ [c]))) /\
     (known (inputSchema o) || known (outputSchema o) = true ->
      routine_for (inputSchema o) (outputSchema o) = None ->
      main convert o args st = (Ok tt, (translator_of o, snd st)))) /\
  (routine_for "1.9" "3.0" = Some translate_1_9_to_3_0 /\
   routine_for "1.9" "1.9" = Some translate_1_9_to_1_9 /\
   routine_for "3.0" "1.9" = Some translate_3_0_to_1_9 /\
   routine_for "3.0" "3.0" = None /\
   forall i o', routine_for i o' <> None -> (i = "1.9" \/ i = "3.0") /\ (o' = "1.9" \/ o' = "3.0")).
Proof.
  split; [intros ->; reflexivity|]. split.
  - intros input_file rest -> known. rewrite main_runs. subst known. cbv beta.
    unfold routine_for.
    destruct (String.eqb (inputSchema o) "1.9") eqn:I19;
      destruct (String.eqb (inputSchema o) "3.0") eqn:I30;
      destruct (String.eqb (outputSchema o) "1.9") eqn:O19;
      destruct (String.eqb (outputSchema o) "3.0") eqn:O30;
      cbn [andb orb negb]; repeat split; intros; try discriminate; try reflexivity;
      try match goal with H : Some _ = Some _ |- _ => injection H as <- end; reflexivity.
  - repeat split; try reflexivity; unfold routine_for in H;
      destruct (String.eqb_spec i "1.9"), (String.eqb_spec i "3.0"),
        (String.eqb_spec o' "1.9"), (String.eqb_spec o' "3.0");
      cbn [andb] in H; auto; congruence.
Qed.
End MainFacts.

Lemma main_dispatch_witness :
  main (fun _ => Ok tt) SampleInputs.same_version ["in.xml"] (init, [])
  = (Ok tt, (translator_of SampleInputs.same_version, [])).
Proof.
  exact (proj2 (proj2 (proj1 (proj2 (main_dispatch (fun _ => Ok tt)
                                       SampleInputs.same_version ["in.xml"] (init, [])))
                         "in.xml" [] eq_refl))
           eq_refl eq_refl).
Defined.

(** ** Validation of a file against a schema *)

(** X14: [validate_file] and [validate] never answer [False] for a file
    that cannot be opened: the [finally] clause closes a file object that
    was never bound, and the [UnboundLocalError] replaces the answer.  So
    a missing schema, or a missing file to validate, makes the validation
    raise, whatever the parser would say.  A file that can be read is
    answered with [True] exactly when the parser accepts it. *)
Theorem validation_of_a_missing_file_raises (files : string -> option string)
    (is_instance : exn -> string -> bool) (fromstring : string -> string -> result unit)
    (make_parser : string -> result string)
    (show_validation_errors : string -> string -> result unit) :
  (forall the_parser xml_filename,
     files xml_filename = None ->
     validate_file files is_instance fromstring the_parser xml_filename
     = Raise (UnboundLocalError "xml_file")) /\
  (forall in_xml in_schema_filename,
     files in_schema_filename = None ->
     validate files is_instance fromstring make_parser show_validation_errors
       in_xml in_schema_filename
     = Raise (UnboundLocalError "in_schema")) /\
  (forall in_xml in_schema_filename schema_doc xml_parser,
     files in_schema_filename = Some schema_doc ->
     make_parser schema_doc = Ok xml_parser ->
     files in_xml = None ->
     validate files is_instance fromstring make_parser show_validation_errors
       in_xml in_schema_filename
     = Raise (UnboundLocalError "xml_file")) /\
  (forall the_parser xml_filename text,
     files xml_filename = Some text ->
     (validate_file files is_instance fromstring the_parser xml_filename = Ok true
      <-> fromstring text the_parser = Ok tt)).
Proof.
  repeat split.
  - intros p f H. unfold validate_file. now rewrite H.
  - intros x s H. unfold validate. now rewrite H.
  - intros x s doc p Hs Hp Hx. unfold validate, validate_file. now rewrite Hs, Hp, Hx.
  - unfold validate_file. rewrite H.
    destruct (fromstring text the_parser) as [[]|e]; [reflexivity|].
    repeat destruct (is_instance e _); discriminate.
  - unfold validate_file. rewrite H. now intros ->.
Qed.

Lemma validation_of_a_missing_file_raises_witness :
  validate (fun name => if String.eqb name "emdb30.xsd" then Some "<xs:schema/>" else None)
    (fun _ _ => false) (fun _ _ => Ok tt) (fun schema_doc => Ok schema_doc)
    (fun _ _ => Ok tt) "emd-0001.xml" "emdb30.xsd"
  = Raise (UnboundLocalError "xml_file").
Proof.
  exact (proj1 (proj2 (proj2
           (validation_of_a_missing_file_raises
              (fun name => if String.eqb name "emdb30.xsd" then Some "<xs:schema/>" else None)
              (fun _ _ => false) (fun _ _ => Ok tt) (fun schema_doc => Ok schema_doc)
              (fun _ _ => Ok tt))))
           "emd-0001.xml" "emdb30.xsd" "<xs:schema/>" "<xs:schema/>"
           eq_refl eq_refl eq_refl).
Defined.

(** ** Calls with keyword arguments *)

(** X15: three calls in [translate_1_9_to_3_0] pass a keyword argument
    that the function called does not take, and raise [TypeError]
    before the function does anything: the call of
    [copy_map_19_to_30] for the primary map, so for every entry that has
    a map; the call of [set_final_reconstruction] for a helical entry;
    and the call of [set_base_supramolecule] for a ribosome.  The other
    calls of the three functions bind their arguments and run the body. *)
Theorem keyword_calls_raise {W} (copy_map_19_to_30_body : bool -> M W unit)
    (set_final_reconstruction_body : bool -> M W unit)
    (set_base_supramolecule_body : M W unit) (st : translator * W) :
  translate_primary_map copy_map_19_to_30_body true st
  = (Raise (TypeError "copy_map_19_to_30() got an unexpected keyword argument 'spec_prep_in'"),
     st) /\
  final_reconstruction_call set_final_reconstruction_body (Some Constants.EMM_HEL) st
  = (Raise (TypeError
              "set_final_reconstruction() got an unexpected keyword argument 'helical'"),
     st) /\
  (forall c_type, In c_type ["ribosome-eukaryote"; "ribosome-prokaryote"] ->
     base_supramolecule_call set_base_supramolecule_body c_type st
     = (Raise (TypeError
                 "set_base_supramolecule() got an unexpected keyword argument 'rib_cat'"),
        st)) /\
  translate_primary_map copy_map_19_to_30_body false st = (Ok tt, st) /\
  translate_mask_or_slice copy_map_19_to_30_body st = copy_map_19_to_30_body false st /\
  (forall m, In m [Constants.EMM_SP; Constants.EMM_TOM; Constants.EMM_STOM] ->
     final_reconstruction_call set_final_reconstruction_body (Some m) st
     = set_final_reconstruction_body false st) /\
  final_reconstruction_call set_final_reconstruction_body (Some "twoDCrystal") st
  = set_final_reconstruction_body true st /\
  (forall c_type, In c_type ["virus"; "cellular-component"] ->
     base_supramolecule_call set_base_supramolecule_body c_type st
     = set_base_supramolecule_body st).
Proof.
  repeat split; try reflexivity.
  - intros c [<- | [<- | []]]; reflexivity.
  - intros m [<- | [<- | [<- | []]]]; reflexivity.
  - intros c [<- | [<- | []]]; reflexivity.
Qed.

(** ** External references *)

Lemma for_each_app {W A X} (body : A -> X -> M W A) (l1 l2 : list X) :
  forall acc st,
    for_each (l1 ++ l2) body acc st
    = match for_each l1 body acc st with
      | (Ok a, st') => for_each l2 body a st'
      | (Raise e, st') => (Raise e, st')
      end.
Proof.
  induction l1 as [|x l1 IH]; intros acc st; [reflexivity|].
  cbn [app for_each]. unfold bind.
  destruct (body acc x st) as [[a|e] st']; [apply IH | reflexivity].
Qed.

Lemma to_lower_to_upper (c : ascii) : PyStr.to_lower (PyStr.to_upper c) = PyStr.to_lower c.
Proof. destruct c as [[] [] [] [] [] [] [] []]; vm_compute; reflexivity. Qed.

Lemma to_upper_to_upper (c : ascii) : PyStr.to_upper (PyStr.to_upper c) = PyStr.to_upper c.
Proof. destruct c as [[] [] [] [] [] [] [] []]; vm_compute; reflexivity. Qed.

Lemma lower_upper (s : string) : PyStr.lower (PyStr.upper s) = PyStr.lower s.
Proof.
  unfold PyStr.lower, PyStr.upper.
  induction s as [|c s IH]; [reflexivity|].
  cbn [PyStr.map_chars]. now rewrite to_lower_to_upper, IH.
Qed.

Lemma upper_upper (s : string) : PyStr.upper (PyStr.upper s) = PyStr.upper s.
Proof.
  unfold PyStr.upper.
  induction s as [|c s IH]; [reflexivity|].
  cbn [PyStr.map_chars]. now rewrite to_upper_to_upper, IH.
Qed.

Lemma back_typed (pre : list external_referencesType) :
  Forall (fun x => xref_type x <> None) pre ->
  forall acc self out,
  exists acc',
    for_each pre
      (fun (ref_type_low : option string) ext_ref_in =>
         let ref_type_low :=
           match xref_type ext_ref_in with
           | Some ref_type => Some (PyStr.lower ref_type)
           | None => ref_type_low
           end in
         match ref_type_low with
         | None => raise (UnboundLocalError "ref_type_low")
         | Some low =>
             modify (fun ref_out =>
                       ref_out ++ [{| ref_type := Some low;
                                      ref_valueOf_ := xref_valueOf_ ext_ref_in |}]) ;;;
             ret ref_type_low
         end) acc (self, out)
    = (Ok acc',
       (self, out ++ map (fun x => reference_of_type (option_map PyStr.lower (xref_type x)) x)
                         pre)).
Proof.
  match goal with |- context [for_each _ ?f] => set (body := f) end.
  induction 1 as [|x pre Hx _ IH]; intros acc self out.
  - exists acc. cbn [for_each map]. now rewrite app_nil_r.
  - destruct (xref_type x) as [t|] eqn:E; [|congruence].
    cbn [for_each]. unfold bind at 1. unfold body at 1. cbv beta zeta. rewrite E.
    unfold bind at 1. unfold modify at 1. unfold ret at 1. cbn [fst snd].
    destruct (IH (Some (PyStr.lower t)) self
                (out ++ [{| ref_type := Some (PyStr.lower t);
                            ref_valueOf_ := xref_valueOf_ x |}])) as [acc' ->].
    exists acc'. cbn [map]. unfold reference_of_type at 2. rewrite E.
    cbn [option_map]. now rewrite <- app_assoc.
Qed.

Lemma back_untyped (untyped : list external_referencesType) (low : string) :
  Forall (fun x => xref_type x = None) untyped ->
  forall self out,
    for_each untyped
      (fun (ref_type_low : option string) ext_ref_in =>
         let ref_type_low :=
           match xref_type ext_ref_in with
           | Some ref_type => Some (PyStr.lower ref_type)
           | None => ref_type_low
           end in
         match ref_type_low with
         | None => raise (UnboundLocalError "ref_type_low")
         | Some low =>
             modify (fun ref_out =>
                       ref_out ++ [{| ref_type := Some low;
                                      ref_valueOf_ := xref_valueOf_ ext_ref_in |}]) ;;;
             ret ref_type_low
         end) (Some low) (self, out)
    = (Ok (Some low), (self, out ++ map (reference_of_type (Some low)) untyped)).
Proof.
  match goal with |- context [for_each _ ?f] => set (body := f) end.
  induction 1 as [|x l Hx _ IH]; intros self out.
  - cbn [for_each map]. now rewrite app_nil_r.
  - cbn [for_each]. unfold bind at 1. unfold body at 1. cbv beta zeta. rewrite Hx.
    unfold bind at 1. unfold modify at 1. unfold ret at 1. cbn [fst snd].
    rewrite IH. cbn [map].
    unfold reference_of_type at 2. now rewrite <- app_assoc.
Qed.



Lemma forward_typed (refs : list externalRefType) :
  Forall (fun r => ref_type r <> None) refs ->
  forall self out,
    To30.add_external_references refs (self, out)
    = (Ok tt,
       (self,
        out ++ map (fun r => {| xref_type := option_map PyStr.upper (ref_type r);
                                xref_valueOf_ := ref_valueOf_ r |}) refs)).
Proof.
  unfold To30.add_external_references.
  induction 1 as [|r l Hr _ IH]; intros self out.
  - cbn [for_each map]. now rewrite app_nil_r.
  - destruct (ref_type r) as [t|] eqn:E; [|congruence].
    cbn [for_each]. unfold bind at 1. rewrite E. cbv [modify fst snd].
    rewrite IH. cbn [map option_map]. rewrite E. cbn [option_map].
    now rewrite <- app_assoc.
Qed.

Lemma forward_untyped (refs : list externalRefType) :
  Exists (fun r => ref_type r = None) refs ->
  forall st, fst (To30.add_external_references refs st) = Raise (AttributeError "upper").
Proof.
  unfold To30.add_external_references.
  induction refs as [|r l IH]; intros H st; [inversion H|].
  cbn [for_each]. unfold bind at 1.
  destruct (ref_type r) as [t|] eqn:E.
  - cbv [modify]. apply IH. inversion H; [congruence | assumption].
  - reflexivity.
Qed.

(** X17: the type of a citation's external reference is upper-cased on
    the way to v3.0 and lower-cased on the way back, so a list of
    references that all have a type comes back in the same order with
    the same values and with every type in lower case.  A reference
    without a type stops the forward translation with
    [AttributeError]. *)
Theorem citation_reference_types_come_back_in_lower_case
    (self : translator) (ext_ref_in : list externalRefType) :
  (Forall (fun r => ref_type r <> None) ext_ref_in ->
   citation_references_there_and_back self ext_ref_in
   = Ok (map (fun r => {| ref_type := option_map PyStr.lower (ref_type r);
                          ref_valueOf_ := ref_valueOf_ r |}) ext_ref_in)) /\
  (Exists (fun r => ref_type r = None) ext_ref_in ->
   citation_references_there_and_back self ext_ref_in = Raise (AttributeError "upper")).
Proof.
  unfold citation_references_there_and_back. split.
  - intros H. rewrite (forward_typed ext_ref_in H). cbn [app].
    set (l30 := map _ ext_ref_in).
    assert (H30 : Forall (fun x => xref_type x <> None) l30).
    { subst l30. apply Forall_map. eapply Forall_impl; [exact H|].
      intros r Hr. cbv beta in Hr. cbn. destruct (ref_type r); [discriminate | congruence]. }
    destruct ext_ref_in as [|r0 l0].
    + reflexivity.
    + unfold To19.add_external_references. unfold bind at 1.
      destruct (back_typed l30 H30 None self []) as [acc' E]. cbv zeta in E. rewrite E.
      cbv [ret]. cbn [app]. f_equal. subst l30. rewrite map_map.
      apply map_ext. intros r. unfold reference_of_type. cbn.
      destruct (ref_type r); cbn [option_map]; [now rewrite lower_upper | reflexivity].
  - intros H. pose proof (forward_untyped ext_ref_in H (self, [])) as E.
    destruct (To30.add_external_references ext_ref_in (self, [])) as [[[]|e] [s o]];
      cbn [fst] in E; [discriminate|]. now injection E as ->.
Qed.

Lemma citation_reference_types_come_back_in_lower_case_witness :
  citation_references_there_and_back init
    [ {| ref_type := Some "pubmed"; ref_valueOf_ := Some "123" |};
      {| ref_type := Some "DOI"; ref_valueOf_ := Some "10.1/x" |} ]
  = Ok [ {| ref_type := Some "pubmed"; ref_valueOf_ := Some "123" |};
         {| ref_type := Some "doi"; ref_valueOf_ := Some "10.1/x" |} ].
Proof.
  apply (proj1 (citation_reference_types_come_back_in_lower_case init
                  [ {| ref_type := Some "pubmed"; ref_valueOf_ := Some "123" |};
                    {| ref_type := Some "DOI"; ref_valueOf_ := Some "10.1/x" |} ])).
  repeat constructor; discriminate.
Defined.

(** ** The molecular weight *)

(** X18: a molecular weight taken to v3.0 and back keeps its value and
    comes back with the units [MDa], whatever units it had: the way back
    writes the constant and converts nothing.  The method of the weight
    is carried for the sample only. *)
Theorem molecular_weights_come_back_in_MDa (self : translator) (w : weights_19)
    (meth : bool) :
  weights_there_and_back self w meth
  = Ok {| molWtTheo := option_map in_MDa (molWtTheo w);
          molWtExp := option_map in_MDa (molWtExp w);
          molWtMethod := if meth then molWtMethod w else None |}.
Proof.
  destruct w as [[t|] [e|] [m|]], meth; reflexivity.
Qed.

(** ** External references of a molecule *)

Lemma add_some_values (t : string) (f : string -> string) (refs : list (option string)) :
  forall self (out : list external_referencesType),
    for_each refs
      (fun _ r =>
         match r with
         | Some v =>
             modify (fun refs => refs ++ [{| xref_type := Some t;
                                             xref_valueOf_ := Some (f v) |}])
         | None => ret tt
         end) tt (self, out)
    = (Ok tt, (self, out ++ references_of_type t (map f (given refs)))).
Proof.
  induction refs as [|[v|] refs IH]; intros self out.
  - cbn. now rewrite app_nil_r.
  - cbn [for_each]. unfold bind. unfold modify at 1. cbn [fst snd]. rewrite IH.
    unfold given. cbn [omap option_bind id mbind list_omap]. 
    cbn [map references_of_type]. now rewrite <- app_assoc.
  - cbn [for_each]. unfold bind, ret. rewrite IH. reflexivity.
Qed.

Lemma add_reference_appends (x : externalReferencesType) self
    (out : list external_referencesType) :
  To30.add_reference (fun r => modify (fun refs => refs ++ [r])) x (self, out)
  = (Ok tt,
     (self,
      out ++ references_of_type "UNIPROTKB" (map PyStr.upper (given (refUniProt x)))
          ++ references_of_type "GO" (given (refGo x))
          ++ references_of_type "INTERPRO" (given (refInterpro x)))).
Proof.
  unfold To30.add_reference. unfold bind.
  rewrite (add_some_values "UNIPROTKB" PyStr.upper).
  pose proof (add_some_values "GO" id) as G. 
  pose proof (add_some_values "INTERPRO" id) as I.
  unfold id in G at 1. unfold id in I at 1.
  rewrite G, I. rewrite !map_id. now rewrite <- !app_assoc.
Qed.

Lemma add_references_append (l : list externalReferencesType) :
  forall self (out : list external_referencesType),
    for_each l
      (fun _ x_ref_in =>
         To30.add_reference (fun r => modify (fun refs => refs ++ [r])) x_ref_in) tt
      (self, out)
    = (Ok tt, (self, out ++ flat_map references_30 l)).
Proof.
  induction l as [|x l IH]; intros self out.
  - cbn. now rewrite app_nil_r.
  - cbn [for_each flat_map]. unfold bind. rewrite add_reference_appends, IH.
    unfold references_30. now rewrite <- !app_assoc.
Qed.

Ltac back_step IH :=
  unfold references_of_type; cbn [for_each map]; unfold bind at 1;
  cbn [opt_eqb xref_type xref_valueOf_ String.eqb Ascii.eqb Bool.eqb];
  unfold modify at 1; cbn [fst snd];
  change (map (fun v => {| xref_type := Some ?t; xref_valueOf_ := Some v |}) ?vs)
    with (references_of_type t vs);
  rewrite IH; unfold add_refUniProt, add_refGo, add_refInterpro;
  cbn [refUniProt refGo refInterpro map]; now rewrite <- ?app_assoc.

Local Abbreviation regroup :=
  (fun (_ : unit) (x_ref_in : external_referencesType) =>
     if opt_eqb (xref_type x_ref_in) "UNIPROTKB" then
       match xref_valueOf_ x_ref_in with
       | Some v => modify (add_refUniProt (Some (PyStr.upper v)))
       | None => raise (AttributeError "upper")
       end
     else if opt_eqb (xref_type x_ref_in) "GO" then
       modify (add_refGo (xref_valueOf_ x_ref_in))
     else if opt_eqb (xref_type x_ref_in) "INTERPRO" then
       modify (add_refInterpro (xref_valueOf_ x_ref_in))
     else ret tt).

Lemma back_uniprot (vs : list string) :
  forall self x,
    for_each (references_of_type "UNIPROTKB" vs) regroup tt (self, x)
    = (Ok tt, (self, {| refUniProt := refUniProt x ++ map (fun v => Some (PyStr.upper v)) vs;
                        refGo := refGo x; refInterpro := refInterpro x |})).
Proof.
  induction vs as [|v vs IH]; intros self x.
  - cbn. rewrite app_nil_r. now destruct x.
  - back_step IH.
Qed.

Lemma back_go (vs : list string) :
  forall self x,
    for_each (references_of_type "GO" vs) regroup tt (self, x)
    = (Ok tt, (self, {| refUniProt := refUniProt x;
                        refGo := refGo x ++ map Some vs; refInterpro := refInterpro x |})).
Proof.
  induction vs as [|v vs IH]; intros self x.
  - cbn. rewrite app_nil_r. now destruct x.
  - back_step IH.
Qed.

Lemma back_interpro (vs : list string) :
  forall self x,
    for_each (references_of_type "INTERPRO" vs) regroup tt (self, x)
    = (Ok tt, (self, {| refUniProt := refUniProt x; refGo := refGo x;
                        refInterpro := refInterpro x ++ map Some vs |})).
Proof.
  induction vs as [|v vs IH]; intros self x.
  - cbn. rewrite app_nil_r. now destruct x.
  - back_step IH.
Qed.

Lemma back_all (l : list externalReferencesType) :
  forall self x,
    for_each (flat_map references_30 l) regroup tt (self, x)
    = (Ok tt,
       (self,
        {| refUniProt :=
             refUniProt x
             ++ map Some (flat_map (fun y => map PyStr.upper (given (refUniProt y))) l);
           refGo := refGo x ++ map Some (flat_map (fun y => given (refGo y)) l);
           refInterpro :=
             refInterpro x ++ map Some (flat_map (fun y => given (refInterpro y)) l) |})).
Proof.
  induction l as [|y l IH]; intros self x.
  - cbn. rewrite !app_nil_r. now destruct x.
  - cbn [flat_map]. unfold references_30 at 1.
    rewrite <- !app_assoc.
    rewrite for_each_app, back_uniprot; cbv beta iota.
    rewrite for_each_app, back_go; cbv beta iota.
    rewrite for_each_app, back_interpro; cbv beta iota. rewrite IH.
    cbn [refUniProt refGo refInterpro].
    rewrite !map_app, !map_map, <- !app_assoc.
    rewrite (List.map_ext (fun v => Some (PyStr.upper (PyStr.upper v)))
               (fun v => Some (PyStr.upper v)))
      by (intros v; now rewrite upper_upper).
    reflexivity.
Qed.

Lemma map_nil_iff {A B} (f : A -> B) (l : list A) : map f l = [] <-> l = [].
Proof. destruct l; cbn; split; intros; congruence. Qed.

Lemma no_references_30 (l : list externalReferencesType) :
  flat_map references_30 l = []
  <-> flat_map (fun y => map PyStr.upper (given (refUniProt y))) l = []
      /\ flat_map (fun y => given (refGo y)) l = []
      /\ flat_map (fun y => given (refInterpro y)) l = [].
Proof.
  induction l as [|y l IH]; [cbn; tauto|].
  cbn [flat_map]. unfold references_30 at 1, references_of_type.
  rewrite !app_nil, !map_nil_iff, IH. tauto.
Qed.

(** X19: the references of a v1.9 molecule to UniProt, GO and InterPro are
    written to v3.0 as one list and sorted back into the three lists by
    their type: each list comes back in its order, over all the objects
    handed over, without the entries that are [None] and with the
    UniProt codes in upper case.  When no reference is left, nothing is
    set on the way back. *)
Theorem molecule_references_are_regrouped (self : translator)
    (l : list externalReferencesType) :
  mol_references_there_and_back self (x_refs_list l)
  = Ok (match flat_map (fun y => map PyStr.upper (given (refUniProt y))) l,
              flat_map (fun y => given (refGo y)) l,
              flat_map (fun y => given (refInterpro y)) l with
        | [], [], [] => None
        | uni_prot, go, interpro =>
            Some {| refUniProt := map Some uni_prot; refGo := map Some go;
                    refInterpro := map Some interpro |}
        end)
  /\ (forall x, mol_references_there_and_back self (x_refs_one x)
                = mol_references_there_and_back self (x_refs_list [x]))
  /\ mol_references_there_and_back self x_refs_none = Ok None.
Proof.
  split; [|split]; [| |reflexivity].
  - unfold mol_references_there_and_back, To30.add_mol_references.
    rewrite add_references_append. cbn [app].
    unfold To19.copy_external_references. unfold bind at 1. unfold ret at 1.
    destruct (flat_map references_30 l) as [|r0 rs] eqn:E.
    + apply no_references_30 in E as (-> & -> & ->). reflexivity.
    + rewrite <- E. 
      assert (N : (0 <? length (flat_map references_30 l))%nat = true)
        by (rewrite E; reflexivity).
      rewrite N. unfold bind at 1, with_new. cbn [fst snd].
      rewrite back_all. cbn [fst snd refUniProt refGo refInterpro
                               externalReferencesType_new app].
      unfold modify. cbn [fst snd].
      destruct (flat_map (fun y => map PyStr.upper (given (refUniProt y))) l) eqn:U,
        (flat_map (fun y => given (refGo y)) l) eqn:G,
        (flat_map (fun y => given (refInterpro y)) l) eqn:I; try reflexivity.
      exfalso. assert (flat_map references_30 l = []) as Z
        by (apply no_references_30; auto). rewrite Z in E. discriminate.
  - intros x. unfold mol_references_there_and_back, To30.add_mol_references.
    cbn [for_each]. unfold bind at 1.
    destruct (To30.add_reference _ x (self, [])) as [[[]|e] [s o]]; reflexivity.
Qed.

(** ** Specimen preparations *)

Lemma cryogen_step (c : option string) (self : translator) (vitr : vitrification_type) :
  exists c',
    on_member cryogen_name put_cryogen_name (set_cryogen_name c) (self, vitr)
    = (Ok tt, (self, put_cryogen_name c' vitr)).
Proof.
  unfold on_member, set_cryogen_name.
  destruct c as [c|]; [|eexists; reflexivity].
  cbv [bind get_self fst snd].
  destruct (roundtrip self); [eexists; reflexivity|].
  destruct (PyStr.mem c allowed_cryo_names); eexists; reflexivity.
Qed.

Lemma set_base_preparation_sets (i : nat) (spec_prep_in : option specimenPreparationType)
    (vitr_in : list vitrifType) (v : vitrifType) (self : translator)
    (prep : base_preparation_type) :
  vitr_in !! i = Some v ->
  exists prep',
    set_base_preparation i spec_prep_in (Some vitr_in) (self, prep) = (Ok tt, (self, prep'))
    /\ original_tagname_ prep' = original_tagname_ prep
    /\ preparation_id prep' = preparation_id prep
    /\ crystal_formation prep' = crystal_formation prep
    /\ carries_vitrification v prep'.
Proof.
  intros Hv. unfold set_base_preparation.
  unfold bind at 1.
  match goal with
  | |- context [match ?m (self, prep) with _ => _ end] =>
      assert (H1 : exists p1, m (self, prep) = (Ok tt, (self, p1))
                              /\ original_tagname_ p1 = original_tagname_ prep
                              /\ preparation_id p1 = preparation_id prep
                              /\ crystal_formation p1 = crystal_formation prep)
  end.
  { destruct spec_prep_in as [[[c|] [[[p|] [d|]]|] [s|] [g|] cg]|];
      eexists; repeat split; reflexivity. }
  destruct H1 as (p1 & -> & T1 & I1 & C1).
  unfold bind at 1. unfold bind at 1. unfold list_getitem. rewrite Hv. unfold ret at 1.
  unfold bind at 1. unfold with_new. cbn [fst snd].
  unfold bind at 1.
  destruct (cryogen_step (cryogenName v) self vitrification_type_new) as [c' ->].
  assert (H2 : exists vitr,
             (match humidity v with
              | Some humidity_in =>
                  modify (set_chamber_humidity
                            {| valueOf_ := humidity_in; units := Some U_PERCENTAGE |})
              | None => ret tt
              end ;;;
              match temperature v with
              | Some temperature_in =>
                  modify (set_chamber_temperature
                            {| valueOf_ := valueOf_ temperature_in; units := Some U_KEL |})
              | None => ret tt
              end ;;;
              modify (set_instrument (vitrif_instrument v)) ;;;
              check_set (ret (vitrif_details v))
                (fun v => modify (set_vitrification_details v)) None ;;;
              check_set (ret (timeResolvedState v))
                (fun v => modify (set_timed_resolved_state v)) None ;;;
              check_set (ret (vitrif_method v))
                (fun v => modify (set_vitrification_method v)) None)
               (self, put_cryogen_name c' vitrification_type_new)
             = (Ok tt, (self, vitr))
             /\ instrument vitr = vitrif_instrument v
             /\ vitrification_details vitr = vitrif_details v
             /\ timed_resolved_state vitr = timeResolvedState v
             /\ vitrification_method vitr = vitrif_method v
             /\ chamber_humidity vitr
                = option_map (fun h => {| valueOf_ := h; units := Some U_PERCENTAGE |})
                    (humidity v)
             /\ chamber_temperature vitr
                = option_map (fun t => {| valueOf_ := valueOf_ t; units := Some U_KEL |})
                    (temperature v)).
  { destruct v as [cn [h|] [t|] ins [d|] [ts|] [m|]];
      eexists; repeat split; reflexivity. }
  destruct H2 as (vitr & -> & Hins & Hd & Hts & Hm & Hh & Ht).
  unfold modify at 1. cbn [fst snd].
  destruct (pack_crystal_grow_details (option_map crystalGrowDetails spec_prep_in));
    eexists; (split; [reflexivity|]); cbn; (repeat split; try assumption);
    exists vitr; repeat split; assumption.
Qed.

Lemma with_new_ok {W X A} (x0 : X) (m : M X A) (self : translator) (w : W) a self' x :
  m (self, x0) = (Ok a, (self', x)) ->
  with_new x0 m (self, w) = (Ok (a, x), (self', w)).
Proof. intros H. unfold with_new. cbn [fst snd]. now rewrite H. Qed.

Lemma with_new_raise {W X A} (x0 : X) (m : M X A) (self : translator) (w : W) e self' x :
  m (self, x0) = (Raise e, (self', x)) ->
  with_new x0 m (self, w) = (Raise e, (self', w)).
Proof. intros H. unfold with_new. cbn [fst snd]. now rewrite H. Qed.

Lemma opt_eqb_true (x : option string) (s : string) : opt_eqb x s = true -> x = Some s.
Proof.
  destruct x as [v|]; cbn; [|discriminate]. now intros ->%String.eqb_eq.
Qed.

Lemma set_base_preparation_no_vitrification (i : nat)
    (spec_prep_in : option specimenPreparationType) (self : translator)
    (prep : base_preparation_type) :
  exists prep',
    set_base_preparation i spec_prep_in (Some []) (self, prep)
    = (Raise (Exception "IndexError" "list index out of range"), (self, prep')).
Proof.
  unfold set_base_preparation.
  destruct spec_prep_in as [[[c|] [[[p|] [d|]]|] [s|] [g|] cg]|];
    eexists; reflexivity.
Qed.



(** ** The file and the grid of a map *)

(** X21: what [copy_map_19_to_30] followed by [copy_map_30_to_19] makes
    of the file and the grid of a map.  The file name comes back in
    lower case, and an empty name as [emd_0000.map.gz]; format, size
    and dimensions come back as they were; a member of the origin that
    is missing comes back as -1; and the limit is not carried at all but
    computed on the way back as origin + dimension - 1 on each axis,
    whatever limit the v1.9 map had.  A map without an origin stops the
    forward translation with [AttributeError], since the origin is read
    before it is compared with [None]. *)
Theorem map_grid_round_trip (self : translator) (f : mapFileType) (o : originType_19)
    (dims : option (Z * Z * Z)) (limit : option limitType) :
  map_grid_there_and_back self
    {| mapType_file := Some f; mapType_dimensions := option_map dimensions_of dims;
       mapType_origin := Some o; mapType_limit := limit |}
  = Ok {| mapType_file :=
            Some {| file_valueOf_ :=
                      option_map (fun name => if String.eqb name "" then "emd_0000.map.gz"
                                              else PyStr.lower name) (file_valueOf_ f);
                    file_type := Some "map";
                    file_format := file_format f;
                    file_sizeKb := file_sizeKb f |};
          mapType_dimensions := option_map dimensions_of dims;
          mapType_origin :=
            Some {| originRow := Some (origin_or_minus_one (originRow o));
                    originCol := Some (origin_or_minus_one (originCol o));
                    originSec := Some (origin_or_minus_one (originSec o)) |};
          mapType_limit :=
            option_map
              (fun '(rows, columns, sections) =>
                 {| limitRow := origin_or_minus_one (originRow o) + rows - 1;
                    limitCol := origin_or_minus_one (originCol o) + columns - 1;
                    limitSec := origin_or_minus_one (originSec o) + sections - 1 |})
              dims |}
  /\ map_grid_there_and_back self
       {| mapType_file := Some f; mapType_dimensions := option_map dimensions_of dims;
          mapType_origin := None; mapType_limit := limit |}
     = Raise (AttributeError "get_originCol").
Proof.
  split.
  - destruct f as [[[|c name]|] ty fmt size], o as [orow ocol osec],
      dims as [[[rows columns] sections]|]; reflexivity.
  - destruct f as [[[|c name]|] ty fmt size], dims as [[[rows columns] sections]|];
      reflexivity.
Qed.

(** ** The energy window of a microscopy *)

Lemma hyphen_clean (d x : string) :
  lacks "-" d = true -> none_starts "-" d ("-" +:+ x) = true.
Proof. apply (none_starts_pinned "-" "" "" d x). reflexivity. Qed.

Lemma split_at_hyphens (a b : string) :
  lacks "-" a = true -> lacks "-" b = true ->
  PyStr.split b "-" = [b]
  /\ PyStr.split (a +:+ "-" +:+ b) "-" = [a; b]
  /\ PyStr.split ("-" +:+ a +:+ "-" +:+ b) "-" = [""; a; b].
Proof.
  intros La Lb.
  assert (Sb : PyStr.split b "-" = [b])
    by (apply split_none, (none_starts_lacks "-"); [reflexivity | exact Lb]).
  assert (Sab : PyStr.split (a +:+ "-" +:+ b) "-" = [a; b])
    by (rewrite (split_clean "-" "" a b (hyphen_clean a b La)); now rewrite Sb).
  repeat split; [exact Sb | exact Sab |].
  pose proof (split_clean "-" "" "" (a +:+ "-" +:+ b) eq_refl) as S.
  rewrite append_nil_l in S. rewrite S. now rewrite Sab.
Qed.

Section EnergyWindowFacts.
Variable float_of_str : string -> result float.

(** X22: how the forward translation reads the energy window of a v1.9
    microscopy.  A text [a-b] gives the lower threshold [float(a)] and
    the upper threshold [float(b)]; a leading hyphen, [-a-b], negates the
    lower threshold; and a text without a hyphen gives no lower threshold
    and the upper threshold -1.0.  The units are those of the window. *)
Theorem energy_window_thresholds (a b : string) (fa fb : float) (e_units_in : option string)
    (self : translator) (egf : energy_filterType) :
  lacks "-" a = true -> lacks "-" b = true -> a <> "" ->
  float_of_str a = Ok fa -> float_of_str b = Ok fb ->
  set_energy_filter float_of_str None
    (Some {| eWindow_valueOf_ := Some (a +:+ "-" +:+ b); eWindow_units := e_units_in |})
    (self, egf)
  = (Ok tt,
     (self, {| egf_name := egf_name egf;
               lower_energy_threshold :=
                 Some {| valueOf_ := PyFloat fa; units := e_units_in |};
               upper_energy_threshold :=
                 Some {| valueOf_ := PyFloat fb; units := e_units_in |} |}))
  /\ set_energy_filter float_of_str None
       (Some {| eWindow_valueOf_ := Some ("-" +:+ a +:+ "-" +:+ b);
                eWindow_units := e_units_in |})
       (self, egf)
     = (Ok tt,
        (self, {| egf_name := egf_name egf;
                  lower_energy_threshold :=
                    Some {| valueOf_ := PyFloat (fa * -1)%float; units := e_units_in |};
                  upper_energy_threshold :=
                    Some {| valueOf_ := PyFloat fb; units := e_units_in |} |}))
  /\ set_energy_filter float_of_str None
       (Some {| eWindow_valueOf_ := Some a; eWindow_units := e_units_in |})
       (self, egf)
     = (Ok tt,
        (self, {| egf_name := egf_name egf;
                  lower_energy_threshold := lower_energy_threshold egf;
                  upper_energy_threshold :=
                    Some {| valueOf_ := PyFloat (-1.0)%float; units := e_units_in |} |})).
Proof.
  intros La Lb Ha Fa Fb.
  destruct (split_at_hyphens a b La Lb) as (Sb & Sab & Smab).
  assert (Sa : PyStr.split a "-" = [a])
    by (apply split_none, (none_starts_lacks "-"); [reflexivity | exact La]).
  destruct a as [|c a']; [congruence|].
  assert (Hc : c <> "-"%char).
  { rewrite lacks_cons in La. apply andb_true_iff in La as [La _].
    apply negb_true_iff, Ascii.eqb_neq in La. exact La. }
  unfold set_energy_filter. cbn [eWindow_valueOf_ eWindow_units].
  repeat split.
  - rewrite Sab. rewrite append_cons.
    destruct c as [[] [] [] [] [] [] [] []]; try congruence;
      cbv [bind ret modify lift list_getitem fst snd length Nat.leb Nat.sub lookup
           list_lookup];
      rewrite Fa, Fb; reflexivity.
  - rewrite Smab.
    change ("-" +:+ String c a' +:+ "-" +:+ b)
      with (String "-" (String c a' +:+ "-" +:+ b)).
    cbv [bind ret modify lift list_getitem fst snd length Nat.leb Nat.sub lookup
         list_lookup].
    rewrite Fa, Fb. reflexivity.
  - rewrite Sa.
    destruct c as [[] [] [] [] [] [] [] []]; try congruence; reflexivity.
Qed.
End EnergyWindowFacts.

Lemma energy_window_thresholds_witness :
  set_energy_filter decimal_float None
    (Some {| eWindow_valueOf_ := Some "0-20"; eWindow_units := Some "eV" |})
    (init, {| egf_name := None; lower_energy_threshold := None;
              upper_energy_threshold := None |})
  = (Ok tt,
     (init, {| egf_name := None;
               lower_energy_threshold := Some {| valueOf_ := PyFloat 0; units := Some "eV" |};
               upper_energy_threshold :=
                 Some {| valueOf_ := PyFloat 20; units := Some "eV" |} |})).
Proof.
  apply (proj1 (energy_window_thresholds decimal_float "0" "20" 0%float 20%float (Some "eV")
                  init {| egf_name := None; lower_energy_threshold := None;
                          upper_energy_threshold := None |}
                  eq_refl eq_refl ltac:(discriminate) ltac:(vm_compute; reflexivity)
                  ltac:(vm_compute; reflexivity))).
Defined.

(** ** The warning level *)

(** X23: [set_warning_level] keeps the level between 0 and 3, and a
    message reaches the log exactly when its level is at most the level
    kept.  So after [set_warning_level(0)] only messages of level 0 or
    less are logged, and a level above 3 logs no more than level 3. *)
Theorem warning_level_is_clamped (self : translator) (level k : Z) (msg : message) :
  warning_level (set_warning_level self level) = Z.max 0 (Z.min 3 level)
  /\ log (warn (set_warning_level self level) k msg)
     = (if k <=? Z.max 0 (Z.min 3 level) then log self ++ [msg] else log self).
Proof.
  assert (E : warning_level (set_warning_level self level) = Z.max 0 (Z.min 3 level)
              /\ log (set_warning_level self level) = log self).
  { unfold set_warning_level.
    destruct (Z.leb_spec level 0); [cbn; split; [lia | reflexivity]|].
    destruct (Z.leb_spec 3 level); cbn; split; try reflexivity; lia. }
  destruct E as [E L]. split; [exact E|].
  unfold warn. rewrite E.
  destruct (k <=? Z.max 0 (Z.min 3 level)); cbn; now rewrite L.
Qed.
